(** * Stylometrics: a shallow embedding of the multi-channel text codec

    The TypeScript sources hide a payload in ordinary text through three
    carriers: zero-width characters ([hideDataInText] / [extractHiddenData]),
    sentence-level style ([hideDataStylometrically] /
    [extractHiddenStylometricData]) and paragraph-level structure
    ([hideDataStructurally] / [extractHiddenStructuralData]); an orchestrator
    ([encodeEnhancedContent] / [decodeEnhancedContent]) composes them, and
    so does the two-layer integration ([encodeMultilayerContent] /
    [decodeMultilayerContent]).

    A JavaScript string is a sequence of UTF-16 code units; it is modelled as
    a list of integers, and every string primitive the sources call is
    written out with the behaviour ECMAScript gives it (relative indices of
    [slice], clamping of [substring], [indexOf] returning -1, ...). *)

From Stdlib Require Import ZArith QArith Qround List Bool Lia String Ascii.
From Stdlib Require Import DecimalString.
Import ListNotations.

Open Scope Z_scope.

(** ** JavaScript strings *)

Module JS.

Definition jsstring := list Z.

(** [lit "abc"] is the JavaScript string literal ['abc'] (ASCII only). *)
Definition lit (s : string) : jsstring :=
  map (fun a => Z.of_N (N_of_ascii a)) (list_ascii_of_string s).

Definition len (s : jsstring) : Z := Z.of_nat (List.length s).

(** The code units of [s] from index [from] (inclusive) to [to] (exclusive),
    both already resolved to absolute positions. *)
Definition sub (s : jsstring) (from to : Z) : jsstring :=
  firstn (Z.to_nat (to - from)) (skipn (Z.to_nat from) s).

(** Relative index resolution shared by [slice]: a negative index counts
    from the end, everything is clamped to [0, len]. *)
Definition rel_index (n i : Z) : Z :=
  if i <? 0 then Z.max (n + i) 0 else Z.min i n.

(** [s.slice(a, b)] *)
Definition slice (s : jsstring) (a b : Z) : jsstring :=
  sub s (rel_index (len s) a) (rel_index (len s) b).

(** [s.slice(a)] *)
Definition slice_from (s : jsstring) (a : Z) : jsstring :=
  sub s (rel_index (len s) a) (len s).

Definition clamp (n i : Z) : Z := Z.min (Z.max i 0) n.

(** [s.substring(a, b)]: both ends clamped, swapped when out of order. *)
Definition substring (s : jsstring) (a b : Z) : jsstring :=
  let a' := clamp (len s) a in
  let b' := clamp (len s) b in
  sub s (Z.min a' b') (Z.max a' b').

(** [s.substring(a)] *)
Definition substring_from (s : jsstring) (a : Z) : jsstring :=
  sub s (clamp (len s) a) (len s).

Fixpoint prefixb (p s : jsstring) : bool :=
  match p, s with
  | [], _ => true
  | _ :: _, [] => false
  | c :: p', d :: s' => (c =? d) && prefixb p' s'
  end.

(** First occurrence of [p] in [s]; positions are reported from [i]. *)
Fixpoint find_from (p s : jsstring) (i : Z) : Z :=
  if prefixb p s then i
  else match s with
       | [] => -1
       | _ :: s' => find_from p s' (i + 1)
       end.

(** [s.indexOf(p, from)] *)
Definition indexOf (s p : jsstring) (from : Z) : Z :=
  let k := clamp (len s) from in
  find_from p (skipn (Z.to_nat k) s) k.

(** [s.replace(p, r)] for a string pattern [p] and a replacement [r] free
    of [$]: the first occurrence is replaced. *)
Definition replaceStr (s p r : jsstring) : jsstring :=
  let i := indexOf s p 0 in
  if i =? -1 then s
  else sub s 0 i ++ r ++ sub s (i + len p) (len s).

(** Last occurrence of [p] in [s]: the start positions from [i] down to 0
    are tried in turn. *)
Fixpoint find_back (p s : jsstring) (i : nat) : Z :=
  if prefixb p (skipn i s) then Z.of_nat i
  else match i with
       | O => -1
       | S i' => find_back p s i'
       end.

(** [s.lastIndexOf(p)] *)
Definition lastIndexOf (s p : jsstring) : Z := find_back p s (List.length s).

(** [s.includes(p)] *)
Definition includes (s p : jsstring) : bool :=
  negb (indexOf s p 0 =? -1).

(** [s.endsWith(p)] *)
Definition endsWith (s p : jsstring) : bool := prefixb (rev p) (rev s).

(** [a === b] on strings. *)
Definition eqs (a b : jsstring) : bool :=
  if list_eq_dec Z.eq_dec a b then true else false.

(** [s.repeat(n)] *)
Definition repeat (s : jsstring) (n : nat) : jsstring := List.concat (List.repeat s n).

(** [s.split('')]: one element per code unit; [parts.join('')]. *)
Definition split_units (s : jsstring) : list jsstring := map (fun c => [c]) s.
Definition join (parts : list jsstring) : jsstring := List.concat parts.

(** [s.split(sep)] for a non-empty separator: [cur] collects the piece
    being read (reversed), [skip] counts the units of a separator just
    matched that are still to be passed over. *)
Fixpoint split_go (sep s cur : jsstring) (skip : nat) : list jsstring :=
  match s with
  | [] => [rev cur]
  | c :: r =>
      match skip with
      | S k => split_go sep r cur k
      | O =>
          if prefixb sep s
          then rev cur :: split_go sep r [] (List.length sep - 1)
          else split_go sep r (c :: cur) O
      end
  end.

Definition split (s sep : jsstring) : list jsstring :=
  match sep with
  | [] => split_units s
  | _ => split_go sep s [] O
  end.

(** [s.padStart(n, c)] for a one-unit filler [c]. *)
Definition padStart (s : jsstring) (n : nat) (c : Z) : jsstring :=
  List.repeat c (n - List.length s) ++ s.

Fixpoint pos_digits2 (p : positive) : jsstring :=
  match p with
  | xH => [49]
  | xO q => pos_digits2 q ++ [48]
  | xI q => pos_digits2 q ++ [49]
  end.

(** [n.toString(2)] for an integer [n]. *)
Definition toString2 (n : Z) : jsstring :=
  match n with
  | Z0 => [48]
  | Zpos p => pos_digits2 p
  | Zneg p => 45 :: pos_digits2 p
  end.

(** [parseInt(s, 2)] on a string that starts with its digits: the value of
    the longest prefix made of '0' and '1'; [None] stands for NaN (no digit
    at all).  Every string the sources pass is built from '0' and '1', so
    the leading white space and sign that [parseInt] also accepts never
    occur. *)
Fixpoint parse_digits2 (s : jsstring) (acc : Z) (seen : bool) : option Z :=
  match s with
  | c :: r =>
      if c =? 48 then parse_digits2 r (2 * acc) true
      else if c =? 49 then parse_digits2 r (2 * acc + 1) true
      else if seen then Some acc else None
  | [] => if seen then Some acc else None
  end.

Definition parseInt2 (s : jsstring) : option Z := parse_digits2 s 0 false.

(** [String.fromCharCode(n)]: ToUint16 of the number, NaN giving 0. *)
Definition fromCharCode (n : option Z) : jsstring :=
  match n with
  | Some v => [v mod 65536]
  | None => [0]
  end.

Definition is_high_surrogate (c : Z) : bool := (55296 <=? c) && (c <=? 56319).
Definition is_low_surrogate (c : Z) : bool := (56320 <=? c) && (c <=? 57343).

(** [Array.from(s)]: the string iterator walks code points, so a surrogate
    pair is one element of two code units. *)
Fixpoint arrayFrom (s : jsstring) : list jsstring :=
  match s with
  | [] => []
  | c :: r =>
      match r with
      | d :: r' =>
          if is_high_surrogate c && is_low_surrogate d
          then [c; d] :: arrayFrom r'
          else [c] :: arrayFrom r
      | [] => [[c]]
      end
  end.

(** [ch.charCodeAt(0)]; NaN (an empty string) does not arise for the
    elements [Array.from] yields and is given as 0. *)
Definition charCodeAt0 (ch : jsstring) : Z := hd 0 ch.

End JS.

(** ** Regular expressions

    The sources segment and classify text with regular-expression
    literals.  They are embedded as values of [regex] and run by a
    backtracking matcher that follows ECMAScript's semantics for the
    constructs the literals use: alternatives are tried from left to
    right, quantifiers are greedy, [\b] looks at the characters on both
    sides of the current position, and a search tries every start position
    in turn. *)

Module RegExp.
Import JS.

Inductive regex : Type :=
| Eps                                   (* the empty pattern *)
| Class (ok : Z -> bool)                (* one code unit of a class *)
| Seq (a b : regex)
| Alt (a b : regex)
| Star (a : regex)                      (* greedy [a*] *)
| WordBoundary                          (* [\b] *)
| EndOfInput                            (* [$] without the m flag *)
| Group (i : nat) (a : regex).          (* capturing group number [i] *)

Definition Plus (a : regex) : regex := Seq a (Star a).

(** Captures: group number and the span it matched; the most recent
    binding of a group comes first. *)
Definition captures := list (nat * (Z * Z)).

Definition is_upper (c : Z) : bool := (65 <=? c) && (c <=? 90).
Definition is_lower (c : Z) : bool := (97 <=? c) && (c <=? 122).
Definition is_digit (c : Z) : bool := (48 <=? c) && (c <=? 57).

(** [\w] *)
Definition is_word (c : Z) : bool :=
  is_upper c || is_lower c || is_digit c || (c =? 95).

(** [\s], which is also what [trim] removes: white space and line
    terminators. *)
Definition is_space (c : Z) : bool :=
  ((9 <=? c) && (c <=? 13)) || (c =? 32) || (c =? 160) || (c =? 5760)
  || ((8192 <=? c) && (c <=? 8202)) || (c =? 8232) || (c =? 8233)
  || (c =? 8239) || (c =? 8287) || (c =? 12288) || (c =? 65279).

(** Case folding of the [i] flag; for the ASCII letters of the sources'
    patterns only the other case of the same letter is equivalent. *)
Definition fold_case (c : Z) : Z := if is_upper c then c + 32 else c.

Definition is_word_opt (c : option Z) : bool :=
  match c with Some x => is_word x | None => false end.

Definition result := option (Z * captures).
Definition cont := option Z -> jsstring -> Z -> captures -> result.

(** [run r prev rest pos caps k]: match [r] at position [pos], where [prev]
    is the code unit just before and [rest] the input from [pos] on, then
    continue with [k]; [None] makes the caller backtrack. *)
Fixpoint run (r : regex) (prev : option Z) (rest : jsstring) (pos : Z)
         (caps : captures) (k : cont) {struct r} : result :=
  match r with
  | Eps => k prev rest pos caps
  | Class ok =>
      match rest with
      | c :: rest' => if ok c then k (Some c) rest' (pos + 1) caps else None
      | [] => None
      end
  | Seq a b =>
      run a prev rest pos caps
          (fun prev' rest' pos' caps' => run b prev' rest' pos' caps' k)
  | Alt a b =>
      match run a prev rest pos caps k with
      | Some x => Some x
      | None => run b prev rest pos caps k
      end
  | Star a =>
      (fix iterate (n : nat) (prev : option Z) (rest : jsstring) (pos : Z)
           (caps : captures) {struct n} : result :=
         match n with
         | O => k prev rest pos caps
         | S n' =>
             match run a prev rest pos caps
                       (fun prev' rest' pos' caps' =>
                          if pos' =? pos then None
                          else iterate n' prev' rest' pos' caps') with
             | Some x => Some x
             | None => k prev rest pos caps
             end
         end) (List.length rest) prev rest pos caps
  | WordBoundary =>
      if xorb (is_word_opt prev) (is_word_opt (hd_error rest))
      then k prev rest pos caps else None
  | EndOfInput =>
      match rest with
      | [] => k prev rest pos caps
      | _ :: _ => None
      end
  | Group i a =>
      run a prev rest pos caps
          (fun prev' rest' pos' caps' => k prev' rest' pos' ((i, (pos, pos')) :: caps'))
  end.

(** A match: where it starts, where it ends, what the groups captured. *)
Record found := { m_start : Z; m_end : Z; m_caps : captures }.

(** Try the start positions [pos], [pos + 1], ... in turn. *)
Fixpoint search (r : regex) (prev : option Z) (rest : jsstring) (pos : Z)
  : option found :=
  match run r prev rest pos [] (fun _ _ e caps => Some (e, caps)) with
  | Some (e, caps) => Some {| m_start := pos; m_end := e; m_caps := caps |}
  | None =>
      match rest with
      | [] => None
      | c :: rest' => search r (Some c) rest' (pos + 1)
      end
  end.

Definition unit_before (s : jsstring) (i : Z) : option Z :=
  if i <=? 0 then None else nth_error s (Z.to_nat (i - 1)).

(** [re.exec(s)] with [lastIndex = from]. *)
Definition exec (r : regex) (s : jsstring) (from : Z) : option found :=
  search r (unit_before s from) (skipn (Z.to_nat from) s) from.

(** [re.test(s)], and the truth value of [s.match(re)] without the g flag. *)
Definition test (r : regex) (s : jsstring) : bool :=
  match exec r s 0 with Some _ => true | None => false end.

(** All matches of a g-flagged expression, from left to right; after an
    empty match the search resumes one unit further. *)
Fixpoint matches_from (fuel : nat) (r : regex) (s : jsstring) (from : Z)
  : list found :=
  match fuel with
  | O => []
  | S fuel' =>
      if len s <? from then []
      else match exec r s from with
           | None => []
           | Some m =>
               m :: matches_from fuel' r s
                      (if m_end m =? m_start m then m_end m + 1 else m_end m)
           end
  end.

Definition matches (r : regex) (s : jsstring) : list found :=
  matches_from (S (List.length s)) r s 0.

Definition matched (s : jsstring) (m : found) : jsstring :=
  sub s (m_start m) (m_end m).

(** [s.match(re) || []] for a g-flagged [re]. *)
Definition matchAll (r : regex) (s : jsstring) : list jsstring :=
  map (matched s) (matches r s).

(** The text of capture group [i] of a match ([''] when it took no part). *)
Definition group (s : jsstring) (m : found) (i : nat) : jsstring :=
  match find (fun b => Nat.eqb (fst b) i) (m_caps m) with
  | Some (_, (b, e)) => sub s b e
  | None => []
  end.

(** [s.replace(re, f)] without the g flag: the first match is replaced by
    what [f] makes of it. *)
Definition replaceFirst (r : regex) (s : jsstring) (f : found -> jsstring)
  : jsstring :=
  match exec r s 0 with
  | None => s
  | Some m => sub s 0 (m_start m) ++ f m ++ sub s (m_end m) (len s)
  end.

(** [s.split(re)] for an expression without groups: at each position [q]
    the expression is tried anchored at [q]; an empty match at the start of
    the current piece is passed over. *)
Fixpoint splitRe_go (r : regex) (s : jsstring) (prev : option Z)
         (rest : jsstring) (p q : Z) (skip : nat) : list jsstring :=
  match rest with
  | [] => [sub s p (len s)]
  | c :: rest' =>
      match skip with
      | S k => splitRe_go r s (Some c) rest' p (q + 1) k
      | O =>
          match run r prev rest q [] (fun _ _ e caps => Some (e, caps)) with
          | Some (e, _) =>
              if e =? p then splitRe_go r s (Some c) rest' p (q + 1) O
              else sub s p q
                     :: splitRe_go r s (Some c) rest' e (q + 1) (Z.to_nat (e - q - 1))
          | None => splitRe_go r s (Some c) rest' p (q + 1) O
          end
      end
  end.

Definition splitRe (r : regex) (s : jsstring) : list jsstring :=
  match s with
  | [] =>
      match run r None [] 0 [] (fun _ _ e caps => Some (e, caps)) with
      | Some _ => []
      | None => [[]]
      end
  | _ => splitRe_go r s None s 0 0 O
  end.

(** *** Building blocks for the literals *)

Definition chr (c : Z) : regex := Class (fun x => x =? c).
Definition chr_i (c : Z) : regex := Class (fun x => fold_case x =? fold_case c).

Fixpoint seq_of (l : list regex) : regex :=
  match l with
  | [] => Eps
  | [a] => a
  | a :: l' => Seq a (seq_of l')
  end.

Fixpoint alt_of (l : list regex) : regex :=
  match l with
  | [] => Class (fun _ => false)
  | [a] => a
  | a :: l' => Alt a (alt_of l')
  end.

(** A literal word under the [i] flag. *)
Definition word_i (w : string) : regex := seq_of (map chr_i (lit w)).

(** [/\b(w1|w2|...)\b/i] *)
Definition any_word_i (ws : list string) : regex :=
  seq_of [WordBoundary; Group 1 (alt_of (map word_i ws)); WordBoundary].

Definition is_terminator (c : Z) : bool := (c =? 46) || (c =? 33) || (c =? 63).

(** [/[^.!?]+[.!?]+/], the sentence pattern of every module. *)
Definition sentenceRe : regex :=
  Seq (Plus (Class (fun c => negb (is_terminator c)))) (Plus (Class is_terminator)).

(** [s.trim()] *)
Fixpoint trimStart (s : jsstring) : jsstring :=
  match s with
  | c :: s' => if is_space c then trimStart s' else s
  | [] => []
  end.

Definition trim (s : jsstring) : jsstring := rev (trimStart (rev (trimStart s))).

End RegExp.

(** ** Bit serialisation

    The statements every encoder starts with and the statements two of
    the decoders end with; the sources repeat them in each module. *)

Module BitCodec.
Import JS.

(** [Array.from(data).map(char => char.charCodeAt(0).toString(2)
    .padStart(8, '0')).join('')], the conversion all three encoders start
    with. *)
Definition toBinary (data : jsstring) : jsstring :=
  join (map (fun char => padStart (toString2 (charCodeAt0 char)) 8 48)
            (arrayFrom data)).

(** The conversion loop shared by the stylometric and the structural
    decoder: only full groups of eight bits become a character. *)
Fixpoint fullBytesToChars (fuel : nat) (dataBits : jsstring) : jsstring :=
  match fuel with
  | O => []
  | S fuel' =>
      match dataBits with
      | [] => []
      | _ =>
          let byte := firstn 8 dataBits in
          (if Nat.eqb (List.length byte) 8 then fromCharCode (parseInt2 byte) else [])
            ++ fullBytesToChars fuel' (skipn 8 dataBits)
      end
  end.

(** The tail shared by the stylometric and the structural decoder, from
    "Extract length from first 16 bits" on. *)
Definition decodeExtractedBits (extractedBits : jsstring) : option jsstring :=
  let lengthBits := substring extractedBits 0 16 in
  match parseInt2 lengthBits with
  | None => None (* NaN: not reached, the 16 bits are digits *)
  | Some dataLength =>
      if len extractedBits <? 16 + dataLength then None
      else
        let dataBits := substring extractedBits 16 (16 + dataLength) in
        Some (fullBytesToChars (List.length dataBits) dataBits)
  end.

End BitCodec.

(** ** Zero-width channel (the module that exports [hideDataInText]) *)

Module EmbeddedWord.
Import JS BitCodec.

Definition ZWSP : jsstring := [8203]. (* zero-width space, bit 0 *)
Definition ZWNJ : jsstring := [8204]. (* zero-width non-joiner, bit 1 *)
Definition ZWJ : jsstring := [8205].  (* zero-width joiner, marker *)

(** [bits.split('').map(bit => bit === '0' ? ZWSP : ZWNJ).join('')] *)
Definition toZeroWidth (bits : jsstring) : jsstring :=
  join (map (fun bit => if eqs bit (lit "0") then ZWSP else ZWNJ)
            (split_units bits)).

(** [chars.split('').map(char => char === ZWSP ? '0' : '1').join('')] *)
Definition fromZeroWidth (chars : jsstring) : jsstring :=
  join (map (fun char => if eqs char ZWSP then lit "0" else lit "1")
            (split_units chars)).

Definition insertPosition (text : jsstring) : Z :=
  Z.min (len text - 1)
        (Z.max 0 (Z.of_nat (List.length (split text (lit " "))) mod 10 + 10)).

Definition hideDataInText (text dataToHide : jsstring) : jsstring :=
  let binaryData := toBinary dataToHide in
  let preamble := repeat ZWJ 3 in
  let lengthBinary := padStart (toString2 (len binaryData)) 16 48 in
  let encodedLength := toZeroWidth lengthBinary in
  let encodedData := toZeroWidth binaryData in
  let epilogue := repeat ZWJ 3 in
  let position := insertPosition text in
  slice text 0 position
    ++ (preamble ++ encodedLength ++ encodedData ++ epilogue)
    ++ slice_from text position.

(** The loop [for (i = 0; i < dataBits.length; i += 8) result +=
    String.fromCharCode(parseInt(dataBits.substr(i, 8), 2))]: the last group
    may be shorter than 8 and is converted all the same.  [fuel] bounds the
    number of rounds; [List.length dataBits] rounds always suffice. *)
Fixpoint bitsToChars (fuel : nat) (dataBits : jsstring) : jsstring :=
  match fuel with
  | O => []
  | S fuel' =>
      match dataBits with
      | [] => []
      | _ => fromCharCode (parseInt2 (firstn 8 dataBits))
               ++ bitsToChars fuel' (skipn 8 dataBits)
      end
  end.

Definition extractHiddenData (text : jsstring) : option jsstring :=
  let preamble := repeat ZWJ 3 in
  let epilogue := repeat ZWJ 3 in
  let preambleIndex := indexOf text preamble 0 in
  if preambleIndex =? -1 then None else
  let epilogueIndex := indexOf text epilogue (preambleIndex + len preamble) in
  if epilogueIndex =? -1 then None else
  let encodedContent := substring text (preambleIndex + len preamble) epilogueIndex in
  let lengthBits := fromZeroWidth (slice encodedContent 0 16) in
  let dataLength := parseInt2 lengthBits in
  (* [16 + NaN] is NaN, which [slice] takes as 0 *)
  let dataEnd := match dataLength with Some n => 16 + n | None => 0 end in
  let dataBits := fromZeroWidth (slice encodedContent 16 dataEnd) in
  Some (bitsToChars (List.length dataBits) dataBits).

(** [content.replace(/[\u200B-\u200D]/g, '')], the stripping the
    multilayer demonstration simulates. *)
Definition isZeroWidth (c : Z) : bool := (8203 <=? c) && (c <=? 8205).
Definition stripZeroWidth (content : jsstring) : jsstring :=
  filter (fun c => negb (isZeroWidth c)) content.

End EmbeddedWord.

(** ** Effects: [Math.random] and [throw]

    The encoders draw from [Math.random] and raise errors.  A computation
    reads the draws from a source (the n-th call of a run returns
    [draws n], a rational in [0, 1)), counts the calls made so far, and
    either returns or throws. *)

Module Effects.

Inductive outcome (A : Type) : Type :=
| Ok (value : A)
| Throw (message : string).
Arguments Ok {A} value.
Arguments Throw {A} message.

Definition M (A : Type) : Type := (nat -> Q) -> nat -> outcome (A * nat).

Definition ret {A} (a : A) : M A := fun _ n => Ok (a, n).

Definition bind {A B} (c : M A) (k : A -> M B) : M B :=
  fun draws n =>
    match c draws n with
    | Ok (a, n') => k a draws n'
    | Throw msg => Throw msg
    end.

Definition throw {A} (message : string) : M A := fun _ _ => Throw message.

(** [Math.random()] *)
Definition random : M Q := fun draws n => Ok (draws n, S n).

(** [Math.floor(Math.random() * k)] as a list index. *)
Definition randomIndex (k : nat) : M nat :=
  bind random (fun r => ret (Z.to_nat (Qfloor (r * inject_Z (Z.of_nat k))))).

(** [Math.random() > p] *)
Definition randomAbove (p : Q) : M bool :=
  bind random (fun r => ret (negb (Qle_bool r p))).

(** Run a computation from the first draw and keep its result. *)
Definition runM {A} (c : M A) (draws : nat -> Q) : outcome A :=
  match c draws O with
  | Ok (a, _) => Ok a
  | Throw msg => Throw msg
  end.

Fixpoint foldM {A B} (f : B -> A -> M B) (l : list A) (b : B) : M B :=
  match l with
  | [] => ret b
  | a :: l' => bind (f b a) (foldM f l')
  end.

End Effects.

Declare Scope effects_scope.
Delimit Scope effects_scope with M.
Notation "x <- c ;; k" := (Effects.bind c (fun x => k))
  (at level 61, c at next level, right associativity) : effects_scope.

(** ** Stylometric channel *)

Module StylometricEncoder.
Import JS RegExp Effects BitCodec.
Local Open Scope effects_scope.

(** [COMMON_WORDS.adverbs] *)
Definition adverbs : list jsstring :=
  map lit ["very"; "quite"; "rather"; "somewhat"; "extremely"; "fairly";
           "pretty"; "really"]%string.

Definition space : jsstring := lit " ".
Definition newlines : jsstring := [10; 10]. (* '\n\n' *)

(** [sentence.split(' ').length < 3] *)
Definition tooShort (sentence : jsstring) : bool :=
  (List.length (split sentence space) <? 3)%nat.

(** Transformation of a sentence that carries bit 0. *)
Definition encodeZero (sentence : jsstring) : M jsstring :=
  modified <- foldM (fun modified adverb =>
                       above <- randomAbove (7 # 10) ;;
                       ret (if above && includes modified (space ++ adverb ++ space)
                            then replaceStr modified (space ++ adverb ++ space) space
                            else modified))
                    adverbs sentence ;;
  ret (if endsWith modified (lit "!") || endsWith modified (lit "?")
       then slice modified 0 (-1) ++ lit "."
       else modified).

(** [words.splice(position, 0, word)] *)
Definition spliceIn (words : list jsstring) (position : nat) (word : jsstring)
  : list jsstring :=
  firstn position words ++ word :: skipn position words.

(** [parts.join(sep)] *)
Definition joinWith (sep : jsstring) (parts : list jsstring) : jsstring :=
  match parts with
  | [] => []
  | p :: rest => p ++ List.concat (map (fun q => sep ++ q) rest)
  end.

(** Transformation of a sentence that carries bit 1. *)
Definition encodeOne (sentence : jsstring) : M jsstring :=
  above <- randomAbove (7 # 10) ;;
  modified <- (if above
               then let words := split sentence space in
                    i <- randomIndex (List.length words - 1) ;;
                    a <- randomIndex (List.length adverbs) ;;
                    ret (joinWith space (spliceIn words (i + 1) (nth a adverbs [])))
               else ret sentence) ;;
  if endsWith modified (lit ".")
  then above <- randomAbove (1 # 2) ;;
       ret (slice modified 0 (-1) ++ (if above then lit "!" else lit "?"))
  else ret modified.

(** The first loop of [encodeStylometricBits]: [sentences] are the
    sentences not yet visited, [bits] the bits not yet placed
    ([bitsToEncode] from [bitIndex] on); the loop ends when either runs
    out. *)
Fixpoint encodeSentences (sentences : list jsstring) (bits : jsstring)
         (encodedText : jsstring) (bitIndex : nat) : M (jsstring * nat) :=
  match sentences, bits with
  | s :: rest, bit :: bits' =>
      let sentence := trim s in
      if tooShort sentence
      then encodeSentences rest bits (encodedText ++ sentence ++ space) bitIndex
      else modified <- (if eqs [bit] (lit "0") then encodeZero sentence
                        else encodeOne sentence) ;;
           encodeSentences rest bits' (encodedText ++ modified ++ space) (S bitIndex)
  | _, _ => ret (encodedText, bitIndex)
  end.

Definition encodeStylometricBits (text bitsToEncode : jsstring) : M jsstring :=
  let sentences := matchAll sentenceRe text in
  if (List.length sentences <? List.length bitsToEncode)%nat
  then throw "Text too short to encode the required bits"
  else
    r <- encodeSentences sentences bitsToEncode [] O ;;
    let '(encodedText, bitIndex) := r in
    (* "Add remaining sentences": from index [bitIndex] on *)
    ret (trim (encodedText
               ++ List.concat (map (fun s => s ++ space) (skipn bitIndex sentences)))).

Definition markerText : jsstring :=
  lit "Please note the following information carefully. ".

(** The loop over the middle paragraphs: the first one that is not blank
    is encoded, and the loop stops there. *)
Fixpoint encodeFirstMiddle (middle : list jsstring) (bitsToEncode : jsstring)
  : M jsstring :=
  match middle with
  | [] => ret []
  | p :: rest =>
      if 0 <? len (trim p)
      then e <- encodeStylometricBits p bitsToEncode ;; ret (e ++ newlines)
      else encodeFirstMiddle rest bitsToEncode
  end.

(** The last loop: paragraphs from index 2 on, joined by blank lines. *)
Definition remainingParagraphs (paragraphs : list jsstring) : jsstring :=
  joinWith newlines (skipn 2 paragraphs).

Definition hideDataStylometrically (text dataToEncode : jsstring) : M jsstring :=
  let binaryData := toBinary dataToEncode in
  let lengthBinary := padStart (toString2 (len binaryData)) 16 48 in
  let bitsToEncode := lengthBinary ++ binaryData in
  let paragraphs := split text newlines in
  if (List.length paragraphs <? 2)%nat
  then throw "Text needs multiple paragraphs for stylometric encoding"
  else
    let first := nth 0 paragraphs [] in
    let encodedText :=
      if 0 <? len (trim first) then markerText ++ first ++ newlines
      else markerText ++ newlines in
    (* paragraphs 1 .. length - 2 *)
    let middle := firstn (List.length paragraphs - 2) (skipn 1 paragraphs) in
    e <- encodeFirstMiddle middle bitsToEncode ;;
    ret (encodedText ++ e ++ remainingParagraphs paragraphs).

(** The bit a sentence stands for when read back. *)
Definition readBit (sentence : jsstring) : jsstring :=
  if endsWith sentence (lit "!") || endsWith sentence (lit "?")
     || existsb (fun adverb => includes sentence (space ++ adverb ++ space)) adverbs
  then lit "1" else lit "0".

(** The test that ends the reading loop: the 16 header bits are there and
    so are the bits the header announces. *)
Definition haveAllBits (extractedBits : jsstring) : bool :=
  (16 <=? len extractedBits)
  && match parseInt2 (substring extractedBits 0 16) with
     | Some dataLength => 16 + dataLength <=? len extractedBits
     | None => false
     end.

Fixpoint readSentences (sentences : list jsstring) (extractedBits : jsstring)
  : jsstring :=
  match sentences with
  | [] => extractedBits
  | s :: rest =>
      let sentence := trim s in
      if tooShort sentence then readSentences rest extractedBits
      else let extractedBits := extractedBits ++ readBit sentence in
           if haveAllBits extractedBits then extractedBits
           else readSentences rest extractedBits
  end.

Definition extractStylometricBits (text : jsstring) : option jsstring :=
  if negb (includes text (lit "Please note the following information carefully."))
  then None
  else
    let sentences := matchAll sentenceRe text in
    let startIndex := 2%nat in
    let extractedBits := readSentences (skipn startIndex sentences) [] in
    if len extractedBits <? 16 then None else Some extractedBits.

Definition extractHiddenStylometricData (text : jsstring) : option jsstring :=
  match extractStylometricBits text with
  | None => None
  | Some extractedBits =>
      if len extractedBits <? 16 then None
      else decodeExtractedBits extractedBits
  end.

End StylometricEncoder.

(** ** Structural channel *)

Module StructuralEncoder.
Import JS RegExp Effects.
Local Open Scope effects_scope.

Inductive strength : Type := subtle | moderate | aggressive.

Record StructuralEncodingOptions : Type := {
  minContentLength : Z;
  maxEncodableBits : Z;
  preserveExistingStructure : bool;
  encodingStrength : strength
}.

(** [NARRATIVE_PATTERNS.firstPerson] and [.thirdPerson] *)
Definition firstPerson : list jsstring :=
  map lit ["I remember when"; "As I considered"; "In my experience";
           "Looking back, I realized"; "From my perspective"]%string.

Definition thirdPerson : list jsstring :=
  map lit ["They observed that"; "From their viewpoint";
           "It became clear to them"; "After consideration, she decided";
           "He recognized the pattern"]%string.

(** [enum RhetoricalPattern]: the members keep the numeric values the
    declaration gives them. *)
Definition EndingQuestion : Z := 0.
Definition EndingEmphasis : Z := 1.
Definition Metaphorical : Z := 0.
Definition Direct : Z := 1.
Definition ClaimThenExample : Z := 0.
Definition ExampleThenClaim : Z := 1.

Inductive pointOfView : Type := pov_first | pov_second | pov_third | pov_mixed.
Inductive tenseKind : Type := tense_past | tense_present | tense_future | tense_mixed.
Inductive dialecticKind : Type :=
  dialectic_argumentative | dialectic_descriptive | dialectic_narrative
| dialectic_mixed.

(** Numbers that the source computes in floating point are kept as exact
    rationals; [None] is NaN. *)
Record ContentUnitAnalysis : Type := {
  wordCount : Z;
  sentenceCount : Z;
  averageSentenceLength : Q;
  complexity : option Q;
  pov : pointOfView;
  tense : tenseKind;
  rhetorical : list Z;
  dialectic : dialecticKind
}.

Definition DEFAULT_OPTIONS : StructuralEncodingOptions :=
  {| minContentLength := 1000;
     maxEncodableBits := 64;
     preserveExistingStructure := true;
     encodingStrength := moderate |}.

(** The expression literals of the module. *)
Definition firstPersonRe : regex := any_word_i ["I"; "me"; "my"; "mine"; "myself"]%string.
Definition secondPersonRe : regex := any_word_i ["you"; "your"; "yours"; "yourself"]%string.
Definition thirdPersonRe : regex :=
  any_word_i ["he"; "she"; "it"; "they"; "him"; "her"; "them"; "his"; "hers";
              "their"; "theirs"]%string.
(** [/\b(\w+ed|was|were|had)\b/gi] *)
Definition pastTenseRe : regex :=
  seq_of [WordBoundary;
          Group 1 (alt_of [Seq (Plus (Class is_word)) (word_i "ed");
                           word_i "was"; word_i "were"; word_i "had"]);
          WordBoundary].
Definition presentTenseRe : regex := any_word_i ["is"; "are"; "am"; "being"]%string.
Definition futureTenseRe : regex := any_word_i ["will"; "shall"; "going to"]%string.
Definition emphasisRe : regex :=
  any_word_i ["certainly"; "definitely"; "absolutely"; "crucial"; "essential";
              "critical"]%string.
Definition metaphorRe : regex :=
  any_word_i ["like"; "as if"; "as though"; "resembles"; "similar to"]%string.
Definition argumentativeRe : regex :=
  any_word_i ["because"; "therefore"; "thus"; "hence"; "so"; "consequently"]%string.
Definition descriptiveRe : regex :=
  any_word_i ["appears"; "looks"; "seems"; "features"; "contains"; "consists"]%string.
Definition narrativeRe : regex :=
  any_word_i ["then"; "next"; "after"; "before"; "finally"; "eventually"]%string.
(** [/\s+/] and [/\n\s*\n/] *)
Definition spacesRe : regex := Plus (Class is_space).
Definition blankLineRe : regex := seq_of [chr 10; Star (Class is_space); chr 10].
(** [/\b(had|was|were|previously|earlier|before|yesterday)\b/i] and
    [/\b(will|shall|going to|soon|eventually|tomorrow)\b/i] *)
Definition pastMarkerRe : regex :=
  any_word_i ["had"; "was"; "were"; "previously"; "earlier"; "before"; "yesterday"]%string.
Definition futureMarkerRe : regex :=
  any_word_i ["will"; "shall"; "going to"; "soon"; "eventually"; "tomorrow"]%string.
(** [/\. /] *)
Definition dotSpaceRe : regex := Seq (chr 46) (chr 32).
Definition verbs : list string :=
  ["is"; "are"; "was"; "were"; "will"; "should"; "could"; "would"; "can"]%string.
(** [/\b(is|are|was|were|will|should|could|would|can)\b/i] *)
Definition verbRe : regex := any_word_i verbs.
(** [/\b((\w+)\s+(is|are|was|were|will|should|could|would|can))\b/i] *)
Definition subjectVerbRe : regex :=
  seq_of [WordBoundary;
          Group 1 (seq_of [Group 2 (Plus (Class is_word));
                           Plus (Class is_space);
                           Group 3 (alt_of (map word_i verbs))]);
          WordBoundary].
(** [/[.!]+$/] and [/[.?]+$/] *)
Definition closingDotsRe : regex :=
  Seq (Plus (Class (fun c => (c =? 46) || (c =? 33)))) EndOfInput.
Definition closingMarksRe : regex :=
  Seq (Plus (Class (fun c => (c =? 46) || (c =? 63)))) EndOfInput.

Definition count (r : regex) (text : jsstring) : Z :=
  Z.of_nat (List.length (matchAll r text)).

(** [w.toLowerCase()] on ASCII letters; other code units are kept (the
    Unicode case tables are not modelled; the result only feeds
    [complexity]). *)
Definition toLowerCase (w : jsstring) : jsstring := map fold_case w.

(** [new Set(words).size] *)
Definition distinct (words : list jsstring) : Z :=
  Z.of_nat (List.length (nodup (list_eq_dec Z.eq_dec) words)).

(** [Math.max(...counts)] on three counts. *)
Definition max3 (a b c : Z) : Z := Z.max a (Z.max b c).

Definition last_of (l : list jsstring) : jsstring := List.last l [].

Definition Qlt_bool (a b : Q) : bool := negb (Qle_bool b a).

Definition analyzeContentUnit (text : jsstring) : ContentUnitAnalysis :=
  let sentences := matchAll sentenceRe text in
  let words := filter (fun w => 0 <? len w) (splitRe spacesRe text) in
  (* point of view *)
  let c0 := count firstPersonRe text in
  let c1 := count secondPersonRe text in
  let c2 := count thirdPersonRe text in
  let maxPovCount := max3 c0 c1 c2 in
  let pov :=
    if (0 <? maxPovCount) && (2 * ((c0 + c1 + c2) - maxPovCount) <=? maxPovCount)
    then if c0 =? maxPovCount then pov_first
         else if c1 =? maxPovCount then pov_second
         else pov_third
    else pov_mixed in
  (* tense *)
  let t0 := count pastTenseRe text in
  let t1 := count presentTenseRe text in
  let t2 := count futureTenseRe text in
  let maxTenseCount := max3 t0 t1 t2 in
  let tense :=
    if (0 <? maxTenseCount) && (2 * ((t0 + t1 + t2) - maxTenseCount) <=? maxTenseCount)
    then if t0 =? maxTenseCount then tense_past
         else if t1 =? maxTenseCount then tense_present
         else tense_future
    else tense_mixed in
  (* rhetorical patterns *)
  let closing :=
    if (0 <? List.length sentences)%nat
       && endsWith (trim (last_of sentences)) (lit "?")
    then [EndingQuestion]
    else if (0 <? List.length sentences)%nat
            && (endsWith (trim (last_of sentences)) (lit "!")
                || test emphasisRe (last_of sentences))
         then [EndingEmphasis]
         else [] in
  let rhetorical :=
    closing ++ (if 0 <? count metaphorRe text then [Metaphorical] else [Direct]) in
  (* dialectic *)
  let d0 := count argumentativeRe text in
  let d1 := count descriptiveRe text in
  let d2 := count narrativeRe text in
  let maxDialecticCount := max3 d0 d1 d2 in
  let dialectic :=
    (* [max > sum / 2], the division being exact on halves *)
    if (0 <? maxDialecticCount) && (d0 + d1 + d2 <? 2 * maxDialecticCount)
    then if d0 =? maxDialecticCount then dialectic_argumentative
         else if d1 =? maxDialecticCount then dialectic_descriptive
         else dialectic_narrative
    else dialectic_mixed in
  (* complexity *)
  let nwords := Z.of_nat (List.length words) in
  let nsentences := Z.of_nat (List.length sentences) in
  let average :=
    if 0 <? nsentences then (inject_Z nwords / inject_Z nsentences)%Q else 0%Q in
  let lexicalDiversity :=
    if nwords =? 0 then None (* 0 / 0 *)
    else Some (inject_Z (distinct (map toLowerCase words)) / inject_Z nwords)%Q in
  let complexity :=
    match lexicalDiversity with
    | Some d => Some (average * d * inject_Z 10)%Q
    | None => None
    end in
  {| wordCount := nwords;
     sentenceCount := nsentences;
     averageSentenceLength := average;
     complexity := complexity;
     pov := pov;
     tense := tense;
     rhetorical := rhetorical;
     dialectic := dialectic |}.

(** The sentence-grouping loop of [splitContentIntoUnits]. *)
Fixpoint groupSentences (allSentences : list jsstring) (units : list jsstring)
         (currentUnit : jsstring) (sentenceCount : Z) : list jsstring :=
  match allSentences with
  | [] => if 0 <? len currentUnit then units ++ [currentUnit] else units
  | sentence :: rest =>
      let currentUnit := currentUnit ++ sentence in
      let sentenceCount := sentenceCount + 1 in
      if (3 <=? sentenceCount) || (200 <? len currentUnit)
      then groupSentences rest (units ++ [currentUnit]) [] 0
      else groupSentences rest units currentUnit sentenceCount
  end.

Definition splitContentIntoUnits (content : jsstring) : list jsstring :=
  let paragraphs :=
    filter (fun p => 0 <? len (trim p)) (splitRe blankLineRe content) in
  if (List.length paragraphs <? 5)%nat
  then groupSentences (matchAll sentenceRe content) [] [] 0
  else paragraphs.

(** [parseInt(ch, 10)] of a one-unit string; [None] is NaN. *)
Definition parseDigit (c : Z) : option Z :=
  if is_digit c then Some (c - 48) else None.

(** [bit === 0] *)
Definition isZero (bit : option Z) : bool :=
  match bit with Some 0 => true | _ => false end.

Definition space : jsstring := lit " ".

Definition transformPointOfView (text : jsstring) (bit : option Z) : M jsstring :=
  if isZero bit then
    i <- randomIndex (List.length firstPerson) ;;
    let pattern := nth i firstPerson [] in
    if negb (test firstPersonRe text) then
      match matchAll sentenceRe text with
      | first :: _ => ret (pattern ++ space ++ replaceStr text first [])
      | [] => ret text
      end
    else ret text
  else
    i <- randomIndex (List.length thirdPerson) ;;
    let pattern := nth i thirdPerson [] in
    if negb (test thirdPersonRe text) then
      match matchAll sentenceRe text with
      | first :: _ => ret (pattern ++ space ++ replaceStr text first [])
      | [] => ret text
      end
    else ret text.

Definition transformTense (text : jsstring) (bit : option Z) : jsstring :=
  if isZero bit then
    if negb (test pastMarkerRe text)
    then replaceFirst dotSpaceRe text (fun _ => lit ". Previously, ")
    else text
  else
    if negb (test futureMarkerRe text)
    then replaceFirst dotSpaceRe text (fun _ => lit ". Eventually, ")
    else text.

Definition transformRhetoricalStructure (text : jsstring) (bit : option Z)
           (analysis : ContentUnitAnalysis) : jsstring :=
  let sentences := matchAll sentenceRe text in
  match sentences with
  | [] => text
  | _ =>
      let lastSentence := last_of sentences in
      if isZero bit then
        if negb (endsWith (trim lastSentence) (lit "?")) then
          let transformed := substring text 0 (len text - len lastSentence) in
          if test verbRe lastSentence then
            let questionForm :=
              replaceFirst subjectVerbRe lastSentence
                (fun m => group lastSentence m 3 ++ space ++ group lastSentence m 2) in
            transformed ++ questionForm
          else
            transformed ++ lit "Might we consider how "
              ++ replaceFirst closingDotsRe (trim lastSentence) (fun _ => lit "?")
        else text
      else
        if negb (endsWith (trim lastSentence) (lit "!"))
           && negb (test emphasisRe lastSentence)
        then
          substring text 0 (len text - len lastSentence)
            ++ replaceFirst closingMarksRe (trim lastSentence) (fun _ => lit "!")
        else text
  end.

Definition transformContentStructure (contentUnit : jsstring) (bit : option Z)
           (options : StructuralEncodingOptions) : M jsstring :=
  let analysis := analyzeContentUnit contentUnit in
  match encodingStrength options with
  | aggressive =>
      t <- transformPointOfView contentUnit bit ;;
      ret (transformTense (transformRhetoricalStructure t bit analysis) bit)
  | moderate =>
      t <- (if 150 <? len contentUnit then transformPointOfView contentUnit bit
            else ret contentUnit) ;;
      ret (transformRhetoricalStructure t bit analysis)
  | subtle => ret (transformRhetoricalStructure contentUnit bit analysis)
  end.

Definition joinWith := StylometricEncoder.joinWith.

Definition makeParagraphShorter (paragraph : jsstring) : jsstring :=
  let sentences := matchAll sentenceRe paragraph in
  if (List.length sentences <=? 2)%nat then paragraph
  else nth 0 sentences [] ++ space ++ last_of sentences.

Definition elaborations : list jsstring :=
  map lit ["This illustrates the key principle at work. ";
           "The implications of this are significant. ";
           "Several factors contribute to this outcome. ";
           "This represents an important development. ";
           "Multiple perspectives can be applied to this situation. "]%string.

Definition makeParagraphLonger (paragraph : jsstring) : M jsstring :=
  let sentences := matchAll sentenceRe paragraph in
  match sentences with
  | [] => ret paragraph
  | _ =>
      i <- randomIndex (List.length elaborations) ;;
      let elaboration := nth i elaborations [] in
      if (1 <? List.length sentences)%nat then
        let lastSentencePos := lastIndexOf paragraph (last_of sentences) in
        ret (substring paragraph 0 lastSentencePos ++ elaboration
             ++ substring_from paragraph lastSentencePos)
      else ret (paragraph ++ space ++ elaboration)
  end.

Definition mediumElaborations : list jsstring :=
  map lit ["This represents an important consideration. ";
           "The pattern continues in subsequent examples. "]%string.

Definition makeParagraphMedium (paragraph : jsstring) : M jsstring :=
  let sentences := matchAll sentenceRe paragraph in
  match sentences with
  | [] => ret paragraph
  | _ =>
      if (3 <? List.length sentences)%nat
      then ret (joinWith space (firstn 3 sentences))
      else if (List.length sentences <? 2)%nat
           then i <- randomIndex (List.length mediumElaborations) ;;
                ret (paragraph ++ space ++ nth i mediumElaborations [])
           else ret paragraph
  end.

(** [for (j = 0; j < section.length; j++) transformed.push(f(j, section[j]))] *)
Fixpoint forEachUnit (f : nat -> jsstring -> M jsstring) (section : list jsstring)
         (j : nat) : M (list jsstring) :=
  match section with
  | [] => ret []
  | u :: rest =>
      u' <- f j u ;;
      rest' <- forEachUnit f rest (S j) ;;
      ret (u' :: rest')
  end.

(** The loop over sections of four units in [transformParagraphPatterns];
    [bits] are the bits from [bitIndex] on.  [fuel] bounds the number of
    sections; the number of units suffices. *)
Fixpoint patternSections (fuel : nat) (contentUnits : list jsstring) (i : nat)
         (bits : jsstring) (transformed : list jsstring) : M (list jsstring) :=
  match fuel with
  | O => ret transformed
  | S fuel' =>
      match bits with
      | [] => ret transformed
      | b :: bits' =>
          if (i <? List.length contentUnits)%nat then
            let section := firstn 4 (skipn i contentUnits) in
            if (3 <=? List.length section)%nat then
              let bit := parseDigit b in
              units <- (if isZero bit
                        then forEachUnit
                               (fun j u => if Nat.even j then ret (makeParagraphShorter u)
                                           else makeParagraphLonger u)
                               section O
                        else forEachUnit (fun _ u => makeParagraphMedium u) section O) ;;
              patternSections fuel' contentUnits (i + 4) bits' (transformed ++ units)
            else
              patternSections fuel' contentUnits (i + 4) bits (transformed ++ section)
          else ret transformed
      end
  end.

Definition transformParagraphPatterns (contentUnits : list jsstring)
           (bitsToEncode : jsstring) (options : StructuralEncodingOptions)
  : M (list jsstring) :=
  if (List.length contentUnits <? 4)%nat then ret contentUnits
  else
    transformed <- patternSections (List.length contentUnits) contentUnits O
                                   bitsToEncode [] ;;
    ret (if (List.length transformed <? List.length contentUnits)%nat
         then transformed ++ skipn (List.length transformed) contentUnits
         else transformed).

Definition structuralMarker : jsstring :=
  lit "The following explores multiple perspectives. ".

Definition newlines : jsstring := [10; 10].

Definition hideDataStructurally (text dataToHide : jsstring)
           (options : StructuralEncodingOptions) : M jsstring :=
  if len text <? minContentLength options
  then throw "Content too short for structural encoding"
  else
    let binaryData := BitCodec.toBinary dataToHide in
    let lengthBinary := padStart (toString2 (len binaryData)) 16 48 in
    let bitsToEncode := lengthBinary ++ binaryData in
    let maxBits := Z.min (maxEncodableBits options) (len bitsToEncode) in
    let contentUnits := splitContentIntoUnits text in
    (* first pass: paragraph patterns *)
    contentUnits <- transformParagraphPatterns contentUnits
                      (substring bitsToEncode 0 (Z.min maxBits 16)) options ;;
    (* second pass: one bit per unit, from bit 16 on *)
    contentUnits <- forEachUnit
                      (fun i unit =>
                         let bitIndex := Z.of_nat i + 16 in
                         if (bitIndex <? maxBits) && (bitIndex <? len bitsToEncode)
                         then transformContentStructure unit
                                (parseDigit (nth (Z.to_nat bitIndex) bitsToEncode 0))
                                options
                         else ret unit)
                      contentUnits O ;;
    ret (structuralMarker ++ joinWith newlines contentUnits).

(** The pattern test on one section: do the lengths go short, long,
    short, ...?  ([consistentLength] is computed by the source but never
    read, and is left out.) *)
Fixpoint shortLong (section : list jsstring) (j : nat) : bool :=
  match section with
  | cur :: ((next :: _) as rest) =>
      (if Nat.even j then len cur <? len next else len next <? len cur)
      && shortLong rest (S j)
  | _ => true
  end.

(** First loop of the decoder: one bit per section of three or four
    units, until 16 bits are read. *)
Fixpoint patternBits (fuel : nat) (contentUnits : list jsstring) (i : nat)
         (extractedBits : jsstring) : jsstring :=
  match fuel with
  | O => extractedBits
  | S fuel' =>
      if (i <? List.length contentUnits)%nat && (len extractedBits <? 16) then
        let section := firstn 4 (skipn i contentUnits) in
        if (3 <=? List.length section)%nat
        then patternBits fuel' contentUnits (i + 4)
               (extractedBits ++ (if shortLong section O then lit "0" else lit "1"))
        else patternBits fuel' contentUnits (i + 4) extractedBits
      else extractedBits
  end.

(** The bit read from one unit, by the cascade of the second loop. *)
Definition unitBit (analysis : ContentUnitAnalysis) : jsstring :=
  match pov analysis with
  | pov_first => lit "0"
  | pov_third => lit "1"
  | _ =>
      if existsb (Z.eqb EndingQuestion) (rhetorical analysis) then lit "0"
      else if existsb (Z.eqb EndingEmphasis) (rhetorical analysis) then lit "1"
      else match tense analysis with
           | tense_past => lit "0"
           | tense_future => lit "1"
           | _ =>
               match dialectic analysis with
               | dialectic_narrative => lit "0"
               | dialectic_argumentative => lit "1"
               | _ =>
                   match complexity analysis with
                   | Some c => if Qlt_bool c (inject_Z 12) then lit "0" else lit "1"
                   | None => lit "1"
                   end
               end
           end
  end.

(** Second loop of the decoder: one bit per unit, from the first unit on,
    until 64 bits are held. *)
Fixpoint unitBits (contentUnits : list jsstring) (extractedBits : jsstring)
  : jsstring :=
  match contentUnits with
  | [] => extractedBits
  | unit :: rest =>
      if len extractedBits <? 64
      then unitBits rest (extractedBits ++ unitBit (analyzeContentUnit unit))
      else extractedBits
  end.

Definition extractHiddenStructuralData (text : jsstring) : option jsstring :=
  if negb (includes text (lit "The following explores multiple perspectives."))
  then None
  else
    let contentUnits := splitContentIntoUnits text in
    if (List.length contentUnits <? 4)%nat then None
    else
      let extractedBits := patternBits (List.length contentUnits) contentUnits O [] in
      let extractedBits := unitBits contentUnits extractedBits in
      if len extractedBits <? 16 then None
      else BitCodec.decodeExtractedBits extractedBits.

(** The return statements of [extractHiddenStructuralData], in the order of
    the source: the function leaves through exactly one of them. *)
Inductive structuralExit : Type :=
| ExitNoMarker                               (* the marker is not in the text *)
| ExitTooFewUnits                            (* "Not enough units for encoding" *)
| ExitTooFewBits (extractedBits : jsstring)  (* fewer than 16 bits were read *)
| ExitTruncated (extractedBits : jsstring)   (* fewer than [16 + dataLength] bits *)
| ExitResult (result : jsstring).            (* [return result] *)

(** [extractHiddenStructuralData] once more, keeping the return statement
    it leaves through; the first four return [null]. *)
Definition extractHiddenStructuralData_exit (text : jsstring) : structuralExit :=
  if negb (includes text (lit "The following explores multiple perspectives."))
  then ExitNoMarker
  else
    let contentUnits := splitContentIntoUnits text in
    if (List.length contentUnits <? 4)%nat then ExitTooFewUnits
    else
      let extractedBits := patternBits (List.length contentUnits) contentUnits O [] in
      let extractedBits := unitBits contentUnits extractedBits in
      if len extractedBits <? 16 then ExitTooFewBits extractedBits
      else match BitCodec.decodeExtractedBits extractedBits with
           | Some result => ExitResult result
           | None => ExitTruncated extractedBits
           end.

(** What the caller receives. *)
Definition returned (exit : structuralExit) : option jsstring :=
  match exit with
  | ExitResult result => Some result
  | _ => None
  end.

End StructuralEncoder.

(** ** JavaScript values as [JSON.parse] yields them *)

Module Json.
Import JS.

(** Numbers are the integer-valued ones. *)
#[local] Set Warnings "-register-all".
Inductive value : Type :=
| Undefined
| Null
| Bool (b : bool)
| Number (n : Z)
| Str (s : jsstring)
| Arr (items : list value)
| Obj (props : list (jsstring * value)).

(** [v.key]: [None] is the TypeError raised on [null] and [undefined]; a
    value without the property gives [undefined]. *)
Definition getProp (v : value) (key : jsstring) : option value :=
  match v with
  | Undefined | Null => None
  | Obj props =>
      match find (fun kv => eqs (fst kv) key) props with
      | Some (_, x) => Some x
      | None => Some Undefined
      end
  | _ => Some Undefined
  end.

(** ToBoolean *)
Definition truthy (v : value) : bool :=
  match v with
  | Undefined | Null => false
  | Bool b => b
  | Number n => negb (n =? 0)
  | Str s => negb (eqs s [])
  | Arr _ | Obj _ => true
  end.

(** [a === b] for two values that come from different calls of
    [JSON.parse]: objects and arrays are compared by identity, so two of
    them are never equal. *)
Definition strictEq (a b : value) : bool :=
  match a, b with
  | Undefined, Undefined => true
  | Null, Null => true
  | Bool x, Bool y => Bool.eqb x y
  | Number x, Number y => x =? y
  | Str x, Str y => eqs x y
  | _, _ => false
  end.

Definition hexDigit (d : Z) : Z := if d <? 10 then 48 + d else 87 + d.

(** [\uXXXX] with lower-case digits. *)
Definition unicodeEscape (c : Z) : jsstring :=
  [92; 117; hexDigit (c / 4096 mod 16); hexDigit (c / 256 mod 16);
   hexDigit (c / 16 mod 16); hexDigit (c mod 16)].

(** QuoteJSONString, one code unit at a time: [next] is the unit that
    follows, [prevHigh] tells whether the unit before was a high surrogate
    paired with this one. *)
Fixpoint quoteUnits (s : jsstring) (prevHigh : bool) : jsstring :=
  match s with
  | [] => []
  | c :: r =>
      let pairedHigh := is_high_surrogate c
                        && match r with d :: _ => is_low_surrogate d | [] => false end in
      (if c =? 34 then [92; 34]
       else if c =? 92 then [92; 92]
       else if c =? 8 then [92; 98]
       else if c =? 12 then [92; 102]
       else if c =? 10 then [92; 110]
       else if c =? 13 then [92; 114]
       else if c =? 9 then [92; 116]
       else if c <? 32 then unicodeEscape c
       else if is_high_surrogate c && negb pairedHigh then unicodeEscape c
       else if is_low_surrogate c && negb prevHigh then unicodeEscape c
       else [c])
      ++ quoteUnits r pairedHigh
  end.

Definition quote (s : jsstring) : jsstring := [34] ++ quoteUnits s false ++ [34].

Definition decimal (n : Z) : jsstring := lit (NilZero.string_of_int (Z.to_int n)).

Definition commaSep (parts : list jsstring) : jsstring :=
  match parts with
  | [] => []
  | p :: rest => p ++ List.concat (map (fun q => 44 :: q) rest)
  end.

(** [JSON.stringify(v)] without indentation; [None] is [undefined]. *)
Fixpoint stringify (v : value) : option jsstring :=
  match v with
  | Undefined => None
  | Null => Some (lit "null")
  | Bool true => Some (lit "true")
  | Bool false => Some (lit "false")
  | Number n => Some (decimal n)
  | Str s => Some (quote s)
  | Arr items =>
      Some ([91]
            ++ commaSep (map (fun x => match stringify x with
                                       | Some t => t
                                       | None => lit "null"
                                       end) items)
            ++ [93])
  | Obj props =>
      Some ([123]
            ++ commaSep
                 ((fix members (l : list (jsstring * value)) : list jsstring :=
                     match l with
                     | [] => []
                     | (k, x) :: l' =>
                         match stringify x with
                         | Some t => (quote k ++ [58] ++ t) :: members l'
                         | None => members l'
                         end
                     end) props)
            ++ [125])
  end.

End Json.

(** ** Multilayer integration *)

Module EnhancedIntegration.
Import JS Effects Json.
Local Open Scope effects_scope.

Record EnhancedEncodingOptions : Type := {
  useZeroWidth : bool;
  useStylometric : bool;
  useStructural : bool;
  structuralStrength : StructuralEncoder.strength;
  redundantEncoding : bool
}.

Definition DEFAULT_OPTIONS : EnhancedEncodingOptions :=
  {| useZeroWidth := true;
     useStylometric := true;
     useStructural := true;
     structuralStrength := StructuralEncoder.moderate;
     redundantEncoding := true |}.

Record EncodingInfo : Type := {
  layers : list string;
  originalLength : Z;
  finalLength : Z
}.

Record EnhancedPackage : Type := {
  content : jsstring;
  signature : jsstring;
  encodingInfo : EncodingInfo
}.

Record EnhancedDecodedResult : Type := {
  metadata : value;
  signerName : option jsstring;
  extractionSource : string;
  integrity : bool
}.

(** The two methods of [KeyManager] the integration calls; they sign and
    verify with the host's cryptography and are taken as given.  [None] is
    [null]. *)
Record KeyManager : Type := {
  signWithKey : jsstring -> jsstring -> option jsstring;
  verifySignature : jsstring -> jsstring -> option jsstring
}.

(** A string that passes [if (s)]: neither [null] nor empty. *)
Definition present (s : option jsstring) : bool :=
  match s with
  | Some (_ :: _) => true
  | _ => false
  end.

(** [JSON.stringify({ subset: name, id: metadata.id || metadata.creator })];
    reading a property of [null] or [undefined] throws. *)
Definition subsetData (name : string) (metadata : value) : M jsstring :=
  match getProp metadata (lit "id") with
  | None => throw "TypeError"
  | Some id =>
      let chosen :=
        if truthy id then Some id else getProp metadata (lit "creator") in
      match chosen with
      | None => throw "TypeError"
      | Some x =>
          match stringify (Obj [(lit "subset", Str (lit name)); (lit "id", x)]) with
          | Some s => ret s
          | None => throw "TypeError"
          end
      end
  end.

(** The encoders read their data with [Array.from], which throws on
    [undefined]. *)
Definition defined (s : option jsstring) : M jsstring :=
  match s with
  | Some x => ret x
  | None => throw "TypeError"
  end.

(** The three layers applied in turn; a [throw] anywhere is what the
    [catch] of [encodeEnhancedContent] turns into [null]. *)
Definition applyLayers (originalContent : jsstring) (metadata : value)
           (options : EnhancedEncodingOptions) : M (jsstring * list string) :=
  let metadataStr := stringify metadata in
  (* Layer 1 *)
  st1 <- (if useZeroWidth options
          then d <- defined metadataStr ;;
               ret (EmbeddedWord.hideDataInText originalContent d, ["zero-width"%string])
          else ret (originalContent, [])) ;;
  let '(processedContent, enabledLayers) := st1 in
  (* Layer 2 *)
  st2 <- (if useStylometric options
          then stylometricData <- (if redundantEncoding options then defined metadataStr
                                   else subsetData "stylometric" metadata) ;;
               c <- StylometricEncoder.hideDataStylometrically processedContent
                      stylometricData ;;
               ret (c, enabledLayers ++ ["stylometric"%string])
          else ret (processedContent, enabledLayers)) ;;
  let '(processedContent, enabledLayers) := st2 in
  (* Layer 3 *)
  if useStructural options && (800 <=? len processedContent)
  then structuralData <- (if redundantEncoding options then defined metadataStr
                          else subsetData "structural" metadata) ;;
       c <- StructuralEncoder.hideDataStructurally processedContent structuralData
              {| StructuralEncoder.minContentLength := 800;
                 StructuralEncoder.maxEncodableBits := 64;
                 StructuralEncoder.preserveExistingStructure := true;
                 StructuralEncoder.encodingStrength := structuralStrength options |} ;;
       ret (c, enabledLayers ++ ["structural"%string])
  else ret (processedContent, enabledLayers).

Definition encodeEnhancedContent (originalContent : jsstring) (metadata : value)
           (keyManager : KeyManager) (signer : jsstring)
           (options : EnhancedEncodingOptions) (draws : nat -> Q)
  : option EnhancedPackage :=
  match runM (applyLayers originalContent metadata options) draws with
  | Throw _ => None
  | Ok (processedContent, enabledLayers) =>
      let sig := signWithKey keyManager signer processedContent in
      if negb (present sig) then None
      else Some {| content := processedContent;
                   signature := match sig with Some s => s | None => [] end;
                   encodingInfo := {| layers := enabledLayers;
                                      originalLength := len originalContent;
                                      finalLength := len processedContent |} |}
  end.

Section Decoding.

(** [JSON.parse], the host's; [None] is the SyntaxError it throws. *)
Variable JSON_parse : jsstring -> option value.

Record extraction : Type := { source : string; data : value }.

(** One extraction attempt: the result is recorded when the channel
    returned a non-empty string and that string parses. *)
Definition attempt (name : string) (extracted : option jsstring) : list extraction :=
  if present extracted then
    match JSON_parse (match extracted with Some s => s | None => [] end) with
    | Some parsedData => [{| source := name; data := parsedData |}]
    | None => []
    end
  else [].

(** One round of the comparison loop: [None] is a TypeError, which leaves
    the function through its [catch]. *)
Definition compareWithPrimary (primary : extraction) (baselineMeta : option jsstring)
           (integrity : bool) (current : extraction) : option bool :=
  let currentResult := data current in
  match getProp currentResult (lit "subset") with
  | None => None
  | Some subset =>
      if truthy subset then
        match getProp (data primary) (lit "id") with
        | None => None
        | Some primaryId =>
            if truthy primaryId then
              match getProp currentResult (lit "id") with
              | None => None
              | Some currentId =>
                  if negb (strictEq currentId primaryId) then Some false
                  else Some integrity
              end
            else Some integrity
        end
      else
        if negb (match stringify currentResult, baselineMeta with
                 | Some a, Some b => eqs a b
                 | None, None => true
                 | _, _ => false
                 end)
        then Some false
        else Some integrity
  end.

Fixpoint compareAll (primary : extraction) (baselineMeta : option jsstring)
         (others : list extraction) (integrity : bool) : option bool :=
  match others with
  | [] => Some integrity
  | current :: rest =>
      match compareWithPrimary primary baselineMeta integrity current with
      | None => None
      | Some integrity' => compareAll primary baselineMeta rest integrity'
      end
  end.

(** The part of [decodeEnhancedContent] that follows the extraction
    attempts. *)
Definition judge (signer : option jsstring) (extractionResults : list extraction)
  : option EnhancedDecodedResult :=
  match extractionResults with
  | [] => Some {| metadata := Null; signerName := signer;
                  extractionSource := "none"; integrity := false |}
  | primaryExtraction :: others =>
      match compareAll primaryExtraction (stringify (data primaryExtraction))
                       others true with
      | None => None
      | Some ok => Some {| metadata := data primaryExtraction;
                           signerName := signer;
                           extractionSource := source primaryExtraction;
                           integrity := ok |}
      end
  end.

Definition decodeEnhancedContent (encodedContent sig : jsstring)
           (keyManager : KeyManager) : option EnhancedDecodedResult :=
  let signer := verifySignature keyManager encodedContent sig in
  if negb (present signer)
  then Some {| metadata := Null; signerName := None;
               extractionSource := "none"; integrity := false |}
  else
    let extractionResults :=
      attempt "structural" (StructuralEncoder.extractHiddenStructuralData encodedContent)
      ++ attempt "stylometric"
           (StylometricEncoder.extractHiddenStylometricData encodedContent)
      ++ attempt "zero-width" (EmbeddedWord.extractHiddenData encodedContent) in
    judge signer extractionResults.

End Decoding.

End EnhancedIntegration.

(** ** Two-layer integration (the module that exports
    [encodeMultilayerContent]) *)

Module EncoderDemo.
Import JS Effects Json.

Record EncodedPackage : Type := {
  content : jsstring;
  signature : jsstring
}.

Record DecodedResult : Type := {
  metadata : value;
  signerName : option jsstring
}.

(** The zero-width layer, then the stylometric layer over its output, both
    with the whole serialised metadata; a [throw] anywhere and a missing
    signature give [null]. *)
Definition encodeMultilayerContent (originalContent : jsstring) (metadata : value)
           (keyManager : EnhancedIntegration.KeyManager) (signer : jsstring)
           (draws : nat -> Q) : option EncodedPackage :=
  match stringify metadata with
  | None => None (* [Array.from(undefined)] throws *)
  | Some metadataStr =>
      let contentWithZeroWidth :=
        EmbeddedWord.hideDataInText originalContent metadataStr in
      match runM (StylometricEncoder.hideDataStylometrically
                    contentWithZeroWidth metadataStr) draws with
      | Throw _ => None
      | Ok contentWithBothEncodings =>
          let sig := EnhancedIntegration.signWithKey keyManager signer
                       contentWithBothEncodings in
          if negb (EnhancedIntegration.present sig) then None
          else Some {| content := contentWithBothEncodings;
                       signature := match sig with Some s => s | None => [] end |}
      end
  end.

Section Decoding.

(** [JSON.parse], the host's; [None] is the SyntaxError it throws. *)
Variable JSON_parse : jsstring -> option value.

(** [if (data) { try { extractedMetadata = JSON.parse(data) } catch (e) {} }]:
    the variable keeps its value when the channel gave nothing or the text
    does not parse. *)
Definition parseInto (extractedMetadata : value) (data : option jsstring) : value :=
  if EnhancedIntegration.present data then
    match JSON_parse (match data with Some s => s | None => [] end) with
    | Some parsed => parsed
    | None => extractedMetadata
    end
  else extractedMetadata.

Definition decodeMultilayerContent (encodedContent sig : jsstring)
           (keyManager : EnhancedIntegration.KeyManager) : option DecodedResult :=
  let signer := EnhancedIntegration.verifySignature keyManager encodedContent sig in
  if negb (EnhancedIntegration.present signer)
  then Some {| metadata := Null; signerName := None |}
  else
    (* stylometric extraction first *)
    let extractedMetadata :=
      parseInto Null (StylometricEncoder.extractHiddenStylometricData encodedContent) in
    (* zero-width extraction when that gave nothing *)
    let extractedMetadata :=
      if negb (truthy extractedMetadata)
      then parseInto extractedMetadata (EmbeddedWord.extractHiddenData encodedContent)
      else extractedMetadata in
    if negb (truthy extractedMetadata)
    then Some {| metadata := Null; signerName := signer |}
    else Some {| metadata := extractedMetadata; signerName := signer |}.

End Decoding.

End EncoderDemo.

(** ** Visual demonstration (the module that defines [visualizeZeroWidth]) *)

Module VisualDemo.
Import JS.

(** [s.replace(/c/g, r)] for a pattern of one code unit [c] and a
    replacement [r] free of [$]. *)
Definition replaceUnit (c : Z) (r s : jsstring) : jsstring :=
  flat_map (fun x => if x =? c then r else [x]) s.

(** The three tags, between U+27E8 and U+27E9. *)
Definition tagZWSP : jsstring := [10216] ++ lit "ZWSP" ++ [10217].
Definition tagZWNJ : jsstring := [10216] ++ lit "ZWNJ" ++ [10217].
Definition tagZWJ : jsstring := [10216] ++ lit "ZWJ" ++ [10217].

Definition visualizeZeroWidth (text : jsstring) : jsstring :=
  replaceUnit 8205 tagZWJ (replaceUnit 8204 tagZWNJ (replaceUnit 8203 tagZWSP text)).

End VisualDemo.

(* ================================================================== *)
(** * Predicates and sample inputs of the statements *)
(* ================================================================== *)

Import JS Effects BitCodec EmbeddedWord StylometricEncoder StructuralEncoder.
Import Json EnhancedIntegration.

(** The digits '0' and '1'; the code units of a byte string. *)
Definition is_bit (c : Z) : Prop := c = 48 \/ c = 49.
Definition is_byte (c : Z) : Prop := 0 <= c < 256.

(** The block the encoder inserts. *)
Definition hiddenBlock (dataToHide : jsstring) : jsstring :=
  repeat ZWJ 3
    ++ toZeroWidth (padStart (toString2 (len (toBinary dataToHide))) 16 48)
    ++ toZeroWidth (toBinary dataToHide)
    ++ repeat ZWJ 3.

(** The eight binary digits of one byte, as [toBinary] writes them. *)
Definition byteDigits (c : Z) : jsstring := padStart (toString2 c) 8 48.

(** A text of scenario A: more than 200 characters, none of them
    zero-width. *)
Definition scenarioA_text : jsstring :=
  lit "The quarterly report is ready for review. It covers the budget, the hiring plan and the roadmap for next year. Please read it before the meeting on Monday and send your comments to the team by Friday noon.".

(** A text of 200 characters whose twelfth character is U+200D. *)
Definition joinerText : jsstring :=
  lit "Family tree" ++ [8205] ++ List.repeat 101 188.

(** A frame whose header announces 16 data bits and that carries 8. *)
Definition truncatedText : jsstring :=
  lit "Hello " ++ repeat ZWJ 3
    ++ toZeroWidth (lit "0000000000010000")
    ++ toZeroWidth (lit "01101000")
    ++ repeat ZWJ 3 ++ lit "world.".

(** A computation that returns, whatever the draws and however many were
    made before. *)
Definition total {A} (c : M A) : Prop :=
  forall draws n, exists a n', c draws n = Ok (a, n').

(** A payload of 8192 bytes has 65,536 bits. *)
Definition oversizedPayload : jsstring := List.repeat 97 (Z.to_nat 8192).

(** An extraction holds partial data when its [subset] property is truthy. *)
Definition carriesSubset (v : value) : Prop :=
  exists s, getProp v (lit "subset") = Some s /\ truthy s = true.

(** The identifiers agree: an [id] strictly equal to the primary's,
    whenever the primary's [id] is truthy. *)
Definition sameId (primary current : value) : Prop :=
  forall pid, getProp primary (lit "id") = Some pid -> truthy pid = true ->
  exists cid, getProp current (lit "id") = Some cid /\ strictEq cid pid = true.

(** What the comparison loop checks on an extraction other than the
    primary one: the identifier when it holds partial data, the whole
    serialisation otherwise. *)
Definition passes (primary current : value) : Prop :=
  (carriesSubset current -> sameId primary current) /\
  (~ carriesSubset current -> stringify current = stringify primary).

(** Agreement with the primary extraction, mode by mode: partial data
    agrees by its identifier, and full data agrees with full data by its
    serialisation. *)
Definition agrees (primary current : value) : Prop :=
  (carriesSubset current -> sameId primary current) /\
  (~ carriesSubset current -> ~ carriesSubset primary ->
   stringify current = stringify primary).

(** The two records are of kinds the loop is written for: it is not a full
    record that meets a partial primary one. *)
Definition comparable (primary current : value) : Prop :=
  carriesSubset current \/ ~ carriesSubset primary.

(** Two layers that both hold the full record of scenario C. *)
Definition fullRecord : value := Obj [(lit "id", Str (lit "abc"))].

(** Structural and stylometric extraction both succeeded with it. *)
Definition redundantResults : list extraction :=
  [ {| source := "structural"; data := fullRecord |};
    {| source := "stylometric"; data := fullRecord |} ].

(** Two partial records as the partitioned mode writes them: the first for
    metadata that has neither [id] nor [creator], the second with the
    identifier 'abc'. *)
Definition partialWithoutId : value :=
  Obj [(lit "subset", Str (lit "structural"))].

Definition partialWithId : value :=
  Obj [(lit "subset", Str (lit "stylometric")); (lit "id", Str (lit "abc"))].

(** Structural extraction gave the first, stylometric the second. *)
Definition partitionedResults : list extraction :=
  [ {| source := "structural"; data := partialWithoutId |};
    {| source := "stylometric"; data := partialWithId |} ].

(** What a document encoded in partitioned mode yields when the
    stylometric and the zero-width layer are read: the partial record and
    the full one. *)
Definition mixedResults : list extraction :=
  [ {| source := "stylometric"; data := partialWithId |};
    {| source := "zero-width"; data := fullRecord |} ].

(** [x] is positive and at least double [y + z]. *)
Definition doubleOfOthers (x y z : Z) : Prop := 0 < x /\ 2 * (y + z) <= x.

(** [x] is positive and more than half of [x + y + z]. *)
Definition overHalfOfTotal (x y z : Z) : Prop := 0 < x /\ y + z < x.

(** The rule as the specification words it, for three counts: the class
    with the highest count when that count is at least double the two
    others together, and no class otherwise ([None] reads 'mixed'). *)
Definition specDominant (c0 c1 c2 : Z) : option nat :=
  let m := Z.max c0 (Z.max c1 c2) in
  if 2 * (c0 + c1 + c2 - m) <=? m
  then Some (if c0 =? m then O else if c1 =? m then 1%nat else 2%nat)
  else None.

(** A unit with three argumentative indicators (because, therefore, thus)
    and two descriptive ones (seems, looks); a unit without any pronoun. *)
Definition arguedUnit : jsstring :=
  lit "The plan holds because the figures are sound, therefore the team goes on, thus the launch seems safe and looks likely.".

Definition plainUnit : jsstring := lit "Rain fell on the roof.".

(** The precedence table as the specification words it.  The rhetorical
    closing is one of question, emphasis or none, read off the last
    sentence as [analyzeContentUnit] reads it. *)
Inductive closingKind : Type := closing_question | closing_emphasis | closing_none.

Definition closingOf (text : jsstring) : closingKind :=
  let sentences := RegExp.matchAll RegExp.sentenceRe text in
  match sentences with
  | [] => closing_none
  | _ =>
      if endsWith (RegExp.trim (last_of sentences)) (lit "?") then closing_question
      else if endsWith (RegExp.trim (last_of sentences)) (lit "!")
              || RegExp.test emphasisRe (last_of sentences)
           then closing_emphasis
           else closing_none
  end.

Definition specUnitBit (text : jsstring) : jsstring :=
  let a := analyzeContentUnit text in
  match pov a with
  | pov_first => lit "0"
  | pov_third => lit "1"
  | _ =>
      match closingOf text with
      | closing_question => lit "0"
      | closing_emphasis => lit "1"
      | closing_none =>
          match tense a with
          | tense_past => lit "0"
          | tense_future => lit "1"
          | _ =>
              match dialectic a with
              | dialectic_narrative => lit "0"
              | dialectic_argumentative => lit "1"
              | _ =>
                  match complexity a with
                  | Some c => if Qlt_bool c (inject_Z 12) then lit "0" else lit "1"
                  | None => lit "1"
                  end
              end
          end
      end
  end.

(** A unit in the past tense, without pronoun of the lists, question,
    emphasis or comparison. *)
Definition pastUnit : jsstring := lit "We walked home and talked.".

(** The marker and eleven sentences: four units. *)
Definition thresholdText : jsstring :=
  structuralMarker
    ++ lit "The river rose. The bridge held. The town slept. The rain went on. The mill stood still. The road was closed. The school stayed shut. The market moved uphill. The water fell. The bridge reopened. The town woke.".

(** The units four at a time, as the decoder groups them: section [k]
    holds the units [4k] to [4k + 3], the last section what is left. *)
Definition sectionsOfFour (contentUnits : list jsstring) : list (list jsstring) :=
  map (fun k => firstn 4 (skipn (4 * k) contentUnits))
      (seq 0 ((List.length contentUnits + 3) / 4)).

(** The lengths in a section go short, long, short, long: every unit at an
    even place is shorter than the next one, every unit at an odd place
    longer. *)
Definition alternates (section : list jsstring) : bool :=
  forallb (fun j => if Nat.even j
                    then len (nth j section []) <? len (nth (S j) section [])
                    else len (nth (S j) section []) <? len (nth j section []))
          (seq 0 (List.length section - 1)).

(** One bit for each section of three or four units, 0 when its lengths
    alternate; at most 16 bits. *)
Definition sectionBits (contentUnits : list jsstring) : jsstring :=
  map (fun section => if alternates section then 48 else 49)
      (firstn 16 (filter (fun section => (3 <=? List.length section)%nat)
                         (sectionsOfFour contentUnits))).

(** One bit for each unit, from the first unit on, until 64 bits are
    held. *)
Definition perUnitBits (contentUnits : list jsstring) (held : Z) : jsstring :=
  List.concat (map (fun unit => unitBit (analyzeContentUnit unit))
                   (firstn (Z.to_nat (64 - held)) contentUnits)).

(** All the bits the decoder reads from the units. *)
Definition bitsRead (contentUnits : list jsstring) : jsstring :=
  sectionBits contentUnits
    ++ perUnitBits contentUnits (len (sectionBits contentUnits)).

(** The draws of [Math.random] used for the concrete runs: 0, 0.7, 0.4,
    0.1, 0.8, 0.5, 0.2, 0.9, 0.6, 0.3, and so on. *)
Definition sampleDraws (n : nat) : Q := ((Z.of_nat n * 7) mod 10) # 10.

(** Three sentences of two words each. *)
Definition shortSentences : jsstring := lit "Go on. Be it. Do so.".

(** The number of sentences that can take a bit. *)
Definition eligibleSentences (text : jsstring) : nat :=
  List.length (filter (fun s => negb (tooShort (RegExp.trim s)))
                      (RegExp.matchAll RegExp.sentenceRe text)).

(** ['\n\n'] *)
Definition blankLine : jsstring := [10; 10].

(** A document of five paragraphs; the second has 114 sentences. *)
Definition scenarioC_document : jsstring :=
  lit "Ready?" ++ blankLine
    ++ lit "A very good plan is here. "
    ++ List.concat (List.repeat (lit "It is ready now. ") 112)
    ++ lit "It is done." ++ blankLine
    ++ lit "The second part is short." ++ blankLine
    ++ lit "The third part is short too." ++ blankLine
    ++ lit "Thank you for reading this note.".

(** The payload of scenario C, an object whose [id] is 'abc'. *)
Definition scenarioC_metadata : value := Obj [(lit "id", Str (lit "abc"))].

(** Its serialisation, the twelve characters of the JSON text for the
    object. *)
Definition scenarioC_payload : jsstring :=
  [123; 34; 105; 100; 34; 58; 34; 97; 98; 99; 34; 125].

(** A key manager that knows the signer. *)
Definition scenarioC_keys : KeyManager :=
  {| signWithKey := fun _ _ => Some (lit "c2lnbmF0dXJl");
     verifySignature := fun _ _ => Some (lit "alice") |}.

(** The package the orchestrator makes of it with its default options:
    all three layers, redundant mode, moderate strength. *)
Definition scenarioC_package : option EnhancedPackage :=
  encodeEnhancedContent scenarioC_document scenarioC_metadata scenarioC_keys
    (lit "alice") EnhancedIntegration.DEFAULT_OPTIONS sampleDraws.

(** The encoded document, computed once. *)
Definition scenarioC_content :=
  Eval vm_compute in
    match scenarioC_package with
    | Some package => content package
    | None => []
    end.

(** A text whose first paragraph has two sentences. *)
Definition twoSentenceOpening : jsstring :=
  lit "Welcome to the report. It has three parts." ++ blankLine
    ++ List.concat (List.repeat (lit "The plan is ready now. ") 40)
    ++ lit "The plan is done." ++ blankLine
    ++ lit "Thank you for reading this note.".

(** A line of a template literal, with its line break. *)
Definition line (s : string) : jsstring := lit s ++ [10].

(** [sampleText] of the structural module's own demonstration. *)
Definition sampleText : jsstring :=
  [10]
    ++ line "The development of resilient encoding systems represents a fascinating intersection"
    ++ line "of linguistics, information theory, and cryptography. These systems must account for"
    ++ line "various transformations that content might undergo, from digital transcoding to"
    ++ line "translation between languages."
    ++ [10]
    ++ line "When we consider the preservation of metadata across these transformations, we"
    ++ line "must move beyond character-level approaches. Surface-level features are easily"
    ++ line "lost. Instead, we should focus on deep structural patterns that maintain their"
    ++ line "integrity across transformations."
    ++ [10]
    ++ line "High-order linguistic features such as narrative viewpoint, rhetorical structure,"
    ++ line "and dialectic patterns offer promising avenues. These features typically survive"
    ++ line "translation and transformation because they represent fundamental aspects of"
    ++ line "how information is organized and presented."
    ++ [10]
    ++ line "Researchers have explored various methods for embedding data in these higher-order"
    ++ line "structures. The challenge lies in balancing encoding capacity with naturalness."
    ++ line "Too aggressive an approach results in awkward or artificial text, while too subtle"
    ++ line "an approach risks losing the encoded data."
    ++ [10]
    ++ line "The approach described here represents one possible solution to this challenge."
    ++ line "By distributing encoded bits across multiple structural levels, we create redundancy"
    ++ line "that increases the likelihood of successful extraction even after significant"
    ++ line "transformation of the content.".

(** A document of twenty paragraphs written to be read by the structural
    decoder: short and long paragraphs alternate, and each paragraph speaks
    in the first person (bit 0) or in the third (bit 1). *)
Definition shortFirst : jsstring := lit "I go.".
Definition shortThird : jsstring := lit "He is.".
Definition longFirst : jsstring :=
  lit "I said that I would go there again when my own work was done and over.".
Definition longThird : jsstring :=
  lit "They said that they would go there again when their own work was done.".

Definition structuralCarrier : jsstring :=
  StylometricEncoder.joinWith blankLine
    [ structuralMarker ++ shortFirst; longFirst; shortFirst; longFirst;
      shortFirst; longFirst; shortFirst; longThird;
      shortFirst; longFirst; shortFirst; longFirst;
      shortThird; longThird; shortFirst; longThird;
      shortFirst; longFirst; shortFirst; longFirst ].

(** [Math.random] returns numbers from 0 up to, but not including, 1. *)
Definition unitDraws (draws : nat -> Q) : Prop :=
  forall n, (0 <= draws n)%Q /\ (draws n < 1)%Q.

(** The sentence ends with a full stop, an exclamation mark or a question
    mark, as every match of the sentence pattern does. *)
Definition endsSentence (sentence : jsstring) : bool :=
  endsWith sentence (lit ".") || endsWith sentence (lit "!")
  || endsWith sentence (lit "?").

(** The sentence holds one of the listed adverbs between two spaces. *)
Definition hasAdverb (sentence : jsstring) : bool :=
  existsb (fun adverb =>
             includes sentence
               (StylometricEncoder.space ++ adverb ++ StylometricEncoder.space))
          adverbs.

(** The tag [visualizeZeroWidth] shows for a code unit. *)
Definition visibleTag (c : Z) : jsstring :=
  if c =? 8203 then VisualDemo.tagZWSP
  else if c =? 8204 then VisualDemo.tagZWNJ
  else if c =? 8205 then VisualDemo.tagZWJ
  else [c].

(** Options that switch on the zero-width layer alone. *)
Definition zeroWidthOnly : EnhancedEncodingOptions :=
  {| useZeroWidth := true;
     useStylometric := false;
     useStructural := false;
     structuralStrength := StructuralEncoder.moderate;
     redundantEncoding := true |}.

(** The key manager signs for the signer, and what it signed verifies as
    the signer's. *)
Definition signsFor (keyManager : KeyManager) (signer : jsstring) : Prop :=
  signer <> [] /\
  forall content, exists sig,
    sig <> [] /\
    signWithKey keyManager signer content = Some sig /\
    verifySignature keyManager content sig = Some signer.

(* ================================================================== *)
(** * Properties *)
(* ================================================================== *)

(** ** String primitives *)

Section StringFacts.

Lemma len_app (a b : jsstring) : len (a ++ b) = len a + len b.
Proof. unfold len. rewrite length_app. lia. Qed.

Lemma len_nonneg (a : jsstring) : 0 <= len a.
Proof. unfold len. lia. Qed.

Lemma sub_prefix (a b : jsstring) : sub (a ++ b) 0 (len a) = a.
Proof.
  unfold sub, len. simpl. rewrite Z.sub_0_r, Nat2Z.id.
  rewrite firstn_app, Nat.sub_diag, firstn_all. simpl. apply app_nil_r.
Qed.

Lemma sub_middle (a b c : jsstring) :
  sub (a ++ b ++ c) (len a) (len a + len b) = b.
Proof.
  unfold sub, len. rewrite Nat2Z.id.
  replace (Z.of_nat (List.length a) + Z.of_nat (List.length b)
           - Z.of_nat (List.length a)) with (Z.of_nat (List.length b)) by lia.
  rewrite Nat2Z.id, skipn_app, skipn_all, Nat.sub_diag. simpl.
  rewrite firstn_app, Nat.sub_diag, firstn_all. simpl. apply app_nil_r.
Qed.

Lemma sub_suffix (a b : jsstring) : sub (a ++ b) (len a) (len (a ++ b)) = b.
Proof.
  rewrite len_app. pose proof (sub_middle a b []) as H.
  now rewrite app_nil_r in H.
Qed.

(** Cutting a string at any index, relative or not, and gluing the two
    halves back gives the string. *)
Lemma slice_glue (s : jsstring) (p : Z) : slice s 0 p ++ slice_from s p = s.
Proof.
  unfold slice, slice_from, sub.
  pose proof (len_nonneg s) as Hn.
  assert (H0 : rel_index (len s) 0 = 0) by (unfold rel_index; rewrite Z.ltb_irrefl; lia).
  assert (Hk : 0 <= rel_index (len s) p <= len s).
  { unfold rel_index. destruct (p <? 0) eqn:E; lia. }
  rewrite H0. simpl skipn. rewrite Z.sub_0_r.
  rewrite (firstn_all2 (n := Z.to_nat (len s - rel_index (len s) p))).
  - apply firstn_skipn.
  - rewrite length_skipn. unfold len in *. lia.
Qed.

Lemma prefixb_app (p r : jsstring) : prefixb p (p ++ r) = true.
Proof. induction p as [|c p IH]; simpl; [reflexivity|]. now rewrite Z.eqb_refl. Qed.

Lemma find_from_skip (c : Z) (p pre r : jsstring) (i : Z) :
  Forall (fun x => x <> c) pre ->
  find_from (c :: p) (pre ++ r) i = find_from (c :: p) r (i + len pre).
Proof.
  intros H. revert i. induction H as [|x pre Hx _ IH]; intros i.
  - simpl. f_equal. unfold len. simpl. lia.
  - cbn [app find_from prefixb].
    replace (c =? x) with false by (symmetry; apply Z.eqb_neq; congruence).
    cbn [andb]. rewrite IH. f_equal. unfold len. cbn [List.length]. lia.
Qed.

Lemma find_from_here (p r : jsstring) (i : Z) : find_from p (p ++ r) i = i.
Proof. destruct p; simpl; [destruct r; reflexivity|]. now rewrite Z.eqb_refl, prefixb_app. Qed.

End StringFacts.

(** ** Zero-width channel *)

Section ZeroWidthFacts.

Lemma toZeroWidth_map (bits : jsstring) :
  toZeroWidth bits = map (fun c => if c =? 48 then 8203 else 8204) bits.
Proof.
  unfold toZeroWidth, join, split_units.
  induction bits as [|c bits IH]; [reflexivity|].
  cbn [map List.concat]. rewrite IH. unfold eqs.
  destruct (list_eq_dec Z.eq_dec [c] (lit "0")) as [E|E].
  - injection E as ->. reflexivity.
  - destruct (Z.eqb_spec c 48) as [->|_]; [now elim E | reflexivity].
Qed.

Lemma fromZeroWidth_map (chars : jsstring) :
  fromZeroWidth chars = map (fun c => if c =? 8203 then 48 else 49) chars.
Proof.
  unfold fromZeroWidth, join, split_units.
  induction chars as [|c chars IH]; [reflexivity|].
  cbn [map List.concat]. rewrite IH. unfold eqs.
  destruct (list_eq_dec Z.eq_dec [c] ZWSP) as [E|E].
  - injection E as ->. reflexivity.
  - destruct (Z.eqb_spec c 8203) as [->|_]; [now elim E | reflexivity].
Qed.

Lemma from_toZeroWidth (bits : jsstring) :
  Forall is_bit bits -> fromZeroWidth (toZeroWidth bits) = bits.
Proof.
  intros H. rewrite toZeroWidth_map, fromZeroWidth_map, map_map.
  induction H as [|c bits [-> | ->] _ IH]; cbn [map]; [reflexivity| |];
    now rewrite IH.
Qed.

Lemma len_toZeroWidth (bits : jsstring) : len (toZeroWidth bits) = len bits.
Proof. rewrite toZeroWidth_map. unfold len. now rewrite length_map. Qed.

Lemma toZeroWidth_app (a b : jsstring) :
  toZeroWidth (a ++ b) = toZeroWidth a ++ toZeroWidth b.
Proof. rewrite !toZeroWidth_map. apply map_app. Qed.

Lemma toZeroWidth_no_ZWJ (bits : jsstring) :
  Forall (fun x => x <> 8205) (toZeroWidth bits).
Proof.
  rewrite toZeroWidth_map. apply Forall_map, Forall_forall. intros c _.
  destruct (c =? 48); lia.
Qed.

Lemma toZeroWidth_zero_width (bits : jsstring) :
  Forall (fun x => isZeroWidth x = true) (toZeroWidth bits).
Proof.
  rewrite toZeroWidth_map. apply Forall_map, Forall_forall. intros c _.
  destruct (c =? 48); reflexivity.
Qed.

Lemma hideDataInText_shape (text dataToHide : jsstring) :
  exists pre post,
    text = pre ++ post /\
    hideDataInText text dataToHide = pre ++ hiddenBlock dataToHide ++ post.
Proof.
  exists (slice text 0 (insertPosition text)),
         (slice_from text (insertPosition text)).
  split; [symmetry; apply slice_glue | reflexivity].
Qed.

Lemma hiddenBlock_zero_width (dataToHide : jsstring) :
  Forall (fun x => isZeroWidth x = true) (hiddenBlock dataToHide).
Proof.
  unfold hiddenBlock.
  apply Forall_app; split; [repeat constructor|].
  apply Forall_app; split; [apply toZeroWidth_zero_width|].
  apply Forall_app; split; [apply toZeroWidth_zero_width|repeat constructor].
Qed.

Lemma strip_zero_width_all (s : jsstring) :
  Forall (fun x => isZeroWidth x = true) s -> stripZeroWidth s = [].
Proof.
  unfold stripZeroWidth. induction 1 as [|c s Hc _ IH]; [reflexivity|].
  cbn [filter]. now rewrite Hc.
Qed.

Lemma strip_zero_width_none (s : jsstring) :
  Forall (fun x => isZeroWidth x = false) s -> stripZeroWidth s = s.
Proof.
  unfold stripZeroWidth. induction 1 as [|c s Hc _ IH]; [reflexivity|].
  cbn [filter]. rewrite Hc. cbn [negb]. now rewrite IH.
Qed.

Lemma strip_zero_width_app (a b : jsstring) :
  stripZeroWidth (a ++ b) = stripZeroWidth a ++ stripZeroWidth b.
Proof. apply filter_app. Qed.

End ZeroWidthFacts.

(** C10.  For a text without U+200B, U+200C and U+200D and any data string,
    [hideDataInText] returns the text with one contiguous block made only of
    those three characters inserted at one position; deleting the three
    characters from the output gives the text back. *)
Theorem hideDataInText_only_inserts_zero_width (text dataToHide : jsstring) :
  Forall (fun c => isZeroWidth c = false) text ->
  exists pre block post,
    text = pre ++ post /\
    hideDataInText text dataToHide = pre ++ block ++ post /\
    Forall (fun c => isZeroWidth c = true) block /\
    stripZeroWidth (hideDataInText text dataToHide) = text.
Proof.
  intros Htext.
  destruct (hideDataInText_shape text dataToHide) as (pre & post & Ht & Hout).
  exists pre, (hiddenBlock dataToHide), post.
  repeat split; try assumption; [apply hiddenBlock_zero_width|].
  rewrite Hout, !strip_zero_width_app.
  rewrite (strip_zero_width_all _ (hiddenBlock_zero_width dataToHide)).
  cbn [app]. rewrite <- strip_zero_width_app, <- Ht.
  now apply strip_zero_width_none.
Qed.

(** C10 at the text of scenario A and the payload 'hi'. *)
Lemma hideDataInText_only_inserts_zero_width_witness :
  stripZeroWidth (hideDataInText scenarioA_text (lit "hi")) = scenarioA_text.
Proof.
  assert (H : Forall (fun c => isZeroWidth c = false) scenarioA_text).
  { apply Forall_forall. intros c Hc.
    assert (Hb : forallb (fun c => negb (isZeroWidth c)) scenarioA_text = true)
      by (vm_compute; reflexivity).
    rewrite forallb_forall in Hb. apply negb_true_iff. now apply Hb. }
  destruct (hideDataInText_only_inserts_zero_width scenarioA_text (lit "hi") H)
    as (pre & block & post & _ & _ & _ & Hstrip).
  exact Hstrip.
Defined.

(** ** Binary numerals *)

Section BinaryNumerals.

Lemma pos_digits2_bits (p : positive) : Forall is_bit (pos_digits2 p).
Proof.
  induction p; cbn [pos_digits2]; try apply Forall_app; try split;
    try assumption; repeat constructor; unfold is_bit; lia.
Qed.

Lemma parse_pos_digits2 (p : positive) (t : jsstring) (acc : Z) (seen : bool) :
  parse_digits2 (pos_digits2 p ++ t) acc seen =
  parse_digits2 t (acc * 2 ^ Z.of_nat (List.length (pos_digits2 p)) + Zpos p) true.
Proof.
  revert t acc seen.
  induction p as [q IH|q IH|]; intros t acc seen; cbn [pos_digits2].
  - rewrite <- app_assoc, IH. cbn [app parse_digits2].
    rewrite length_app, Nat.add_1_r, Nat2Z.inj_succ, Z.pow_succ_r by lia.
    change (49 =? 48) with false. change (49 =? 49) with true. cbv iota.
    f_equal. rewrite (Pos2Z.inj_xI q). ring.
  - rewrite <- app_assoc, IH. cbn [app parse_digits2].
    rewrite length_app, Nat.add_1_r, Nat2Z.inj_succ, Z.pow_succ_r by lia.
    change (48 =? 48) with true. cbv iota.
    f_equal. rewrite (Pos2Z.inj_xO q). ring.
  - cbn [app parse_digits2 List.length].
    change (49 =? 48) with false. change (49 =? 49) with true. cbv iota.
    f_equal. change (Z.of_nat 1) with 1. lia.
Qed.

Lemma parse_leading_zeros (k : nat) (t : jsstring) (seen : bool) :
  t <> [] ->
  parse_digits2 (List.repeat 48 k ++ t) 0 seen = parse_digits2 t 0 (seen || negb (Nat.eqb k 0)).
Proof.
  intros Ht. revert seen. induction k as [|k IH]; intros seen.
  - cbn. now rewrite orb_false_r.
  - cbn [List.repeat app parse_digits2]. change (48 =? 48) with true. cbv iota.
    change (2 * 0) with 0. rewrite IH. cbn. now rewrite orb_true_r.
Qed.

Lemma toString2_nonempty (n : Z) : toString2 n <> [].
Proof.
  destruct n as [|p|p]; cbn; try discriminate.
  destruct p; cbn; try discriminate; now destruct (pos_digits2 p).
Qed.

Lemma parseInt2_toString2 (n : Z) (seen : bool) :
  0 <= n -> parse_digits2 (toString2 n) 0 seen = Some n.
Proof.
  intros Hn. destruct n as [|p|p]; [reflexivity| |lia].
  cbn [toString2]. rewrite <- (app_nil_r (pos_digits2 p)), parse_pos_digits2.
  reflexivity.
Qed.

(** [parseInt] undoes [toString(2).padStart(k, '0')]. *)
Lemma parseInt2_padStart (n : Z) (k : nat) :
  0 <= n -> parseInt2 (padStart (toString2 n) k 48) = Some n.
Proof.
  intros Hn. unfold parseInt2, padStart.
  rewrite parse_leading_zeros by apply toString2_nonempty.
  now apply parseInt2_toString2.
Qed.

Lemma length_pos_digits2 (p : positive) (n : nat) :
  Zpos p < 2 ^ Z.of_nat n -> (List.length (pos_digits2 p) <= n)%nat.
Proof.
  revert n. induction p as [q IH|q IH|]; intros [|n] H; cbn [pos_digits2];
    try (change (2 ^ Z.of_nat 0) with 1 in H; lia).
  - rewrite length_app, Nat.add_1_r. apply le_n_S, IH.
    rewrite Nat2Z.inj_succ, Z.pow_succ_r in H by lia. lia.
  - rewrite length_app, Nat.add_1_r. apply le_n_S, IH.
    rewrite Nat2Z.inj_succ, Z.pow_succ_r in H by lia. lia.
  - cbn. lia.
Qed.

Lemma length_toString2 (n : Z) (k : nat) :
  0 <= n < 2 ^ Z.of_nat k -> (0 < k)%nat -> (List.length (toString2 n) <= k)%nat.
Proof.
  intros [H0 H1] Hk. destruct n as [|p|p]; [cbn; lia| |lia].
  now apply length_pos_digits2.
Qed.

Lemma length_padStart (s : jsstring) (k : nat) (c : Z) :
  (List.length s <= k)%nat -> List.length (padStart s k c) = k.
Proof. intros H. unfold padStart. rewrite length_app, repeat_length. lia. Qed.

Lemma padStart_bits (n : Z) (k : nat) :
  0 <= n -> Forall is_bit (padStart (toString2 n) k 48).
Proof.
  intros Hn. unfold padStart. apply Forall_app. split.
  - apply Forall_forall. intros x Hx. apply repeat_spec in Hx. now left.
  - destruct n as [|p|p]; [repeat constructor; now left|apply pos_digits2_bits|lia].
Qed.

End BinaryNumerals.

(** ** Payload bits *)

Section PayloadBits.

Lemma arrayFrom_bytes (p : jsstring) :
  Forall is_byte p -> arrayFrom p = map (fun c => [c]) p.
Proof.
  induction 1 as [|c p Hc Hp IH]; [reflexivity|].
  cbn [arrayFrom map]. destruct p as [|d p']; [reflexivity|].
  replace (is_high_surrogate c) with false.
  - cbn [andb]. now rewrite IH.
  - unfold is_high_surrogate, is_byte in *. symmetry.
    apply andb_false_intro1, Z.leb_gt. lia.
Qed.

Lemma toBinary_bytes (p : jsstring) :
  Forall is_byte p -> toBinary p = List.concat (map byteDigits p).
Proof.
  intros H. unfold toBinary, join. rewrite (arrayFrom_bytes p H), map_map.
  reflexivity.
Qed.

Lemma length_byteDigits (c : Z) : is_byte c -> List.length (byteDigits c) = 8%nat.
Proof.
  intros Hc. apply length_padStart, length_toString2; [|lia].
  unfold is_byte in Hc. change (2 ^ Z.of_nat 8) with 256. lia.
Qed.

Lemma byteDigits_bits (c : Z) : is_byte c -> Forall is_bit (byteDigits c).
Proof. intros [Hc _]. now apply padStart_bits. Qed.

Lemma parseInt2_byteDigits (c : Z) : is_byte c -> parseInt2 (byteDigits c) = Some c.
Proof. intros [Hc _]. now apply parseInt2_padStart. Qed.

Lemma length_toBinary (p : jsstring) :
  Forall is_byte p -> len (toBinary p) = 8 * len p.
Proof.
  intros H. rewrite (toBinary_bytes p H). unfold len.
  induction H as [|c p Hc _ IH]; [reflexivity|].
  cbn [map List.concat List.length]. rewrite length_app, (length_byteDigits c Hc).
  lia.
Qed.

Lemma toBinary_bits (p : jsstring) : Forall is_byte p -> Forall is_bit (toBinary p).
Proof.
  intros H. rewrite (toBinary_bytes p H).
  induction H as [|c p Hc _ IH]; [constructor|].
  cbn [map List.concat]. apply Forall_app. split; [now apply byteDigits_bits|exact IH].
Qed.

Lemma firstn_exact (n : nat) (b r : jsstring) :
  List.length b = n -> firstn n (b ++ r) = b.
Proof.
  intros <-. rewrite firstn_app, Nat.sub_diag, firstn_all. apply app_nil_r.
Qed.

Lemma skipn_exact (n : nat) (b r : jsstring) :
  List.length b = n -> skipn n (b ++ r) = r.
Proof. intros <-. now rewrite skipn_app, skipn_all, Nat.sub_diag. Qed.

(** Regrouping the digits of a byte string by eight gives the bytes back. *)
Lemma bitsToChars_toBinary (p : jsstring) (fuel : nat) :
  Forall is_byte p -> (List.length p <= fuel)%nat ->
  bitsToChars fuel (List.concat (map byteDigits p)) = p.
Proof.
  intros H. revert fuel. induction H as [|c p Hc _ IH]; intros fuel Hf.
  - destruct fuel; reflexivity.
  - destruct fuel as [|fuel]; [cbn in Hf; lia|].
    cbn [map List.concat]. pose proof (length_byteDigits c Hc) as H8.
    cbn [bitsToChars].
    destruct (byteDigits c ++ List.concat (map byteDigits p)) as [|x r] eqn:E.
    + apply (f_equal (@List.length Z)) in E. rewrite length_app, H8 in E.
      cbn in E. lia.
    + rewrite <- E, (firstn_exact 8 _ _ H8), (skipn_exact 8 _ _ H8).
      rewrite (parseInt2_byteDigits c Hc), IH by (cbn in Hf; lia).
      cbn [fromCharCode app]. unfold is_byte in Hc.
      rewrite Z.mod_small by lia. reflexivity.
Qed.

End PayloadBits.

(** ** Round trip through the zero-width channel *)

Section ZeroWidthRoundTrip.

Lemma skipn_len_app (a b : jsstring) : skipn (Z.to_nat (len a)) (a ++ b) = b.
Proof.
  unfold len. rewrite Nat2Z.id, skipn_app, skipn_all, Nat.sub_diag.
  reflexivity.
Qed.

(** Decoding a text in which the first joiner is the start of an intact
    frame: the frame's symbols are read back as a length and its bits. *)
Lemma extractHiddenData_frame (pre post L D : jsstring) :
  Forall (fun x => x <> 8205) pre ->
  Forall is_bit L -> Forall is_bit D ->
  List.length L = 16%nat ->
  parseInt2 L = Some (len D) ->
  extractHiddenData
    (pre ++ repeat ZWJ 3 ++ toZeroWidth L ++ toZeroWidth D ++ repeat ZWJ 3 ++ post)
  = Some (bitsToChars (List.length D) D).
Proof.
  intros Hpre HL HD HL16 Hparse.
  set (X := toZeroWidth L ++ toZeroWidth D).
  set (T := pre ++ repeat ZWJ 3 ++ toZeroWidth L ++ toZeroWidth D ++ repeat ZWJ 3 ++ post).
  assert (HT : T = (pre ++ repeat ZWJ 3) ++ X ++ (repeat ZWJ 3 ++ post)).
  { unfold T, X. now rewrite <- !app_assoc. }
  assert (HlenZ : len (repeat ZWJ 3) = 3) by reflexivity.
  assert (HlenX : len X = 16 + len D).
  { unfold X. rewrite len_app, !len_toZeroWidth. unfold len at 1. rewrite HL16. lia. }
  assert (HlenT : len T = len pre + 3 + len X + 3 + len post).
  { rewrite HT, !len_app, HlenZ. lia. }
  pose proof (len_nonneg pre) as Hp0. pose proof (len_nonneg post) as Hq0.
  pose proof (len_nonneg D) as HD0.
  assert (Hpi : indexOf T (repeat ZWJ 3) 0 = len pre).
  { unfold indexOf. replace (clamp (len T) 0) with 0 by (unfold clamp; lia).
    cbn [Z.to_nat skipn]. unfold T. change (repeat ZWJ 3) with [8205; 8205; 8205].
    rewrite find_from_skip by assumption.
    now rewrite (find_from_here [8205; 8205; 8205]). }
  assert (Hei : indexOf T (repeat ZWJ 3) (len pre + len (repeat ZWJ 3))
                = len pre + 3 + len X).
  { unfold indexOf. rewrite HlenZ.
    replace (clamp (len T) (len pre + 3)) with (len (pre ++ repeat ZWJ 3))
      by (rewrite len_app, HlenZ; unfold clamp; lia).
    rewrite HT at 1. rewrite skipn_len_app.
    change (repeat ZWJ 3) with [8205; 8205; 8205] at 1.
    rewrite find_from_skip.
    - change (repeat ZWJ 3) with [8205; 8205; 8205].
      rewrite (find_from_here [8205; 8205; 8205] post), len_app. cbn. lia.
    - unfold X. apply Forall_app; split; apply toZeroWidth_no_ZWJ. }
  assert (Hsub : substring T (len pre + len (repeat ZWJ 3)) (len pre + 3 + len X) = X).
  { unfold substring. rewrite HlenZ.
    replace (clamp (len T) (len pre + 3)) with (len (pre ++ repeat ZWJ 3))
      by (rewrite len_app, HlenZ; unfold clamp; lia).
    replace (clamp (len T) (len pre + 3 + len X))
      with (len (pre ++ repeat ZWJ 3) + len X)
      by (rewrite len_app, HlenZ; unfold clamp; lia).
    rewrite Z.min_l, Z.max_r by lia. rewrite HT. apply sub_middle. }
  unfold extractHiddenData. fold T. rewrite Hpi.
  replace (len pre =? -1) with false by (symmetry; apply Z.eqb_neq; lia).
  rewrite Hei.
  replace (len pre + 3 + len X =? -1) with false by (symmetry; apply Z.eqb_neq; lia).
  rewrite Hsub.
  assert (Hhead : slice X 0 16 = toZeroWidth L).
  { unfold slice. replace (rel_index (len X) 0) with 0
      by (unfold rel_index; rewrite Z.ltb_irrefl; lia).
    replace (rel_index (len X) 16) with (len (toZeroWidth L)).
    - apply sub_prefix.
    - rewrite len_toZeroWidth. unfold len at 1. rewrite HL16.
      unfold rel_index. change (16 <? 0) with false. cbv iota. lia. }
  rewrite Hhead, (from_toZeroWidth L HL), Hparse.
  assert (Htail : slice X 16 (16 + len D) = toZeroWidth D).
  { unfold slice.
    replace (rel_index (len X) 16) with (len (toZeroWidth L)).
    - replace (rel_index (len X) (16 + len D)) with (len X).
      + apply sub_suffix.
      + unfold rel_index. replace (16 + len D <? 0) with false
          by (symmetry; apply Z.ltb_ge; lia). lia.
    - rewrite len_toZeroWidth. unfold len at 1. rewrite HL16.
      unfold rel_index. change (16 <? 0) with false. cbv iota. lia. }
  rewrite Htail, (from_toZeroWidth D HD). reflexivity.
Qed.

End ZeroWidthRoundTrip.

(** Boolean checks that establish the side conditions on concrete strings. *)
Lemma no_joiner_check (s : jsstring) :
  forallb (fun c => negb (c =? 8205)) s = true -> Forall (fun c => c <> 8205) s.
Proof.
  intros H. apply Forall_forall. intros c Hc.
  rewrite forallb_forall in H. specialize (H c Hc).
  apply negb_true_iff, Z.eqb_neq in H. exact H.
Qed.

Lemma bytes_check (s : jsstring) :
  forallb (fun c => (0 <=? c) && (c <? 256)) s = true -> Forall is_byte s.
Proof.
  intros H. apply Forall_forall. intros c Hc.
  rewrite forallb_forall in H. specialize (H c Hc).
  apply andb_true_iff in H. destruct H as [H1 H2].
  apply Z.leb_le in H1. apply Z.ltb_lt in H2. split; assumption.
Qed.

(** C1 (amended).  For every text without U+200D and every payload of at
    most 8191 bytes (code units below 256), decoding the zero-width
    encoding of the payload gives the payload back. *)
Theorem zero_width_round_trip (text p : jsstring) :
  Forall (fun c => c <> 8205) text ->
  Forall is_byte p ->
  len p <= 8191 ->
  extractHiddenData (hideDataInText text p) = Some p.
Proof.
  intros Htext Hp Hlen.
  destruct (hideDataInText_shape text p) as (pre & post & Ht & ->).
  assert (Hpre : Forall (fun c => c <> 8205) pre).
  { rewrite Ht in Htext. now apply Forall_app in Htext. }
  pose proof (length_toBinary p Hp) as HlenD.
  pose proof (len_nonneg p) as Hp0.
  unfold hiddenBlock. rewrite <- !app_assoc.
  rewrite extractHiddenData_frame; try assumption.
  - f_equal. rewrite (toBinary_bytes p Hp). apply bitsToChars_toBinary; [assumption|].
    rewrite <- (toBinary_bytes p Hp). unfold len in HlenD. lia.
  - apply padStart_bits. apply len_nonneg.
  - now apply toBinary_bits.
  - apply length_padStart, length_toString2; [|lia].
    change (2 ^ Z.of_nat 16) with 65536. lia.
  - apply parseInt2_padStart, len_nonneg.
Qed.

(** C1 (amended) at the text of scenario A and the payload 'hi'. *)
Lemma zero_width_round_trip_witness :
  200 <= len scenarioA_text /\
  extractHiddenData (hideDataInText scenarioA_text (lit "hi")) = Some (lit "hi").
Proof.
  split; [apply Z.leb_le; vm_compute; reflexivity|].
  apply zero_width_round_trip.
  - apply no_joiner_check. vm_compute. reflexivity.
  - apply bytes_check. vm_compute. reflexivity.
  - apply Z.leb_le. vm_compute. reflexivity.
Defined.

(** ** Truncated frames *)

(** C2 (the zero-width decoder at the failing input): the header reads 16,
    8 data symbols follow, and [extractHiddenData] returns the one
    character they spell instead of [null]. *)
Theorem extractHiddenData_accepts_truncated_frame :
  parseInt2 (lit "0000000000010000") = Some 16 /\
  len (toZeroWidth (lit "01101000")) = 8 /\
  extractHiddenData truncatedText = Some (lit "h").
Proof. repeat split. Qed.

(** The stylometric and the structural decoder do check the announced
    length: with fewer than [16 + L] bits they return [null]. *)
Lemma decodeExtractedBits_truncated (extractedBits : jsstring) (L : Z) :
  parseInt2 (substring extractedBits 0 16) = Some L ->
  len extractedBits < 16 + L ->
  decodeExtractedBits extractedBits = None.
Proof.
  intros HL Hshort. unfold decodeExtractedBits. rewrite HL.
  apply Z.ltb_lt in Hshort. now rewrite Hshort.
Qed.

(** ** Computations that cannot throw *)

Section Totality.

Local Open Scope effects_scope.

Lemma total_ret {A} (a : A) : total (ret a).
Proof. intros draws n. now exists a, n. Qed.

Lemma total_bind {A B} (c : M A) (k : A -> M B) :
  total c -> (forall a, total (k a)) -> total (bind c k).
Proof.
  intros Hc Hk draws n. destruct (Hc draws n) as (a & n' & E).
  unfold bind. rewrite E. apply Hk.
Qed.

Lemma total_random : total random.
Proof. intros draws n. now exists (draws n), (S n). Qed.

Lemma total_randomIndex (k : nat) : total (randomIndex k).
Proof. apply total_bind; [apply total_random|intros; apply total_ret]. Qed.

Lemma total_randomAbove (p : Q) : total (randomAbove p).
Proof. apply total_bind; [apply total_random|intros; apply total_ret]. Qed.

Lemma total_if {A} (b : bool) (c d : M A) :
  total c -> total d -> total (if b then c else d).
Proof. now destruct b. Qed.

Lemma total_forEachUnit (f : nat -> jsstring -> M jsstring) (l : list jsstring) :
  (forall j u, total (f j u)) -> forall j, total (StructuralEncoder.forEachUnit f l j).
Proof.
  intros Hf. induction l as [|u l IH]; intros j; cbn [StructuralEncoder.forEachUnit].
  - apply total_ret.
  - apply total_bind; [apply Hf|]. intros u'.
    apply total_bind; [apply IH|]. intros. apply total_ret.
Qed.

End Totality.

Ltac total_step :=
  first [ apply total_ret
        | apply total_randomIndex
        | apply total_randomAbove
        | apply total_bind; [|intros ?]
        | apply total_if
        | match goal with
          | |- total (match ?x with _ => _ end) => destruct x
          end ].

Section StructuralTotality.

Lemma total_makeParagraphLonger (paragraph : jsstring) :
  total (makeParagraphLonger paragraph).
Proof. unfold makeParagraphLonger. repeat total_step. Qed.

Lemma total_makeParagraphMedium (paragraph : jsstring) :
  total (makeParagraphMedium paragraph).
Proof. unfold makeParagraphMedium. repeat total_step. Qed.

Lemma total_transformPointOfView (text : jsstring) (bit : option Z) :
  total (transformPointOfView text bit).
Proof. unfold transformPointOfView. repeat total_step. Qed.

Lemma total_transformContentStructure (unit : jsstring) (bit : option Z)
      (options : StructuralEncodingOptions) :
  total (transformContentStructure unit bit options).
Proof.
  unfold transformContentStructure.
  destruct (encodingStrength options).
  - apply total_ret.
  - apply total_bind; [|intros; apply total_ret].
    apply total_if; [apply total_transformPointOfView|apply total_ret].
  - apply total_bind; [apply total_transformPointOfView|intros; apply total_ret].
Qed.

Lemma total_patternSections (fuel : nat) (units : list jsstring) :
  forall i bits transformed, total (patternSections fuel units i bits transformed).
Proof.
  induction fuel as [|fuel IH]; intros i bits transformed; cbn [patternSections].
  - apply total_ret.
  - destruct bits as [|b bits']; [apply total_ret|].
    apply total_if; [|apply total_ret].
    apply total_if; [|apply IH].
    apply total_bind; [|intros; apply IH].
    apply total_if; apply total_forEachUnit; intros j u.
    + apply total_if; [apply total_ret|apply total_makeParagraphLonger].
    + apply total_makeParagraphMedium.
Qed.

Lemma total_transformParagraphPatterns (units : list jsstring) (bits : jsstring)
      (options : StructuralEncodingOptions) :
  total (transformParagraphPatterns units bits options).
Proof.
  unfold transformParagraphPatterns. apply total_if; [apply total_ret|].
  apply total_bind; [apply total_patternSections|intros; apply total_ret].
Qed.

(** The only [throw] of [hideDataStructurally] is the one on the length of
    the text. *)
Lemma hideDataStructurally_total (text dataToHide : jsstring)
      (options : StructuralEncodingOptions) :
  minContentLength options <= len text ->
  total (hideDataStructurally text dataToHide options).
Proof.
  intros Hlen. unfold hideDataStructurally.
  replace (len text <? minContentLength options) with false
    by (symmetry; apply Z.ltb_ge; exact Hlen).
  apply total_bind; [apply total_transformParagraphPatterns|]. intros units.
  apply total_bind; [|intros; apply total_ret].
  apply total_forEachUnit. intros j u.
  apply total_if; [apply total_transformContentStructure|apply total_ret].
Qed.

End StructuralTotality.

Section HeaderLength.

Lemma length_pos_digits2_lower (p : positive) (n : nat) :
  2 ^ Z.of_nat n <= Zpos p -> (n < List.length (pos_digits2 p))%nat.
Proof.
  revert n. induction p as [q IH|q IH|]; intros [|n] H; cbn [pos_digits2];
    try (rewrite length_app, Nat.add_1_r; apply Nat.lt_0_succ).
  - rewrite length_app, Nat.add_1_r. apply -> Nat.succ_lt_mono. apply IH.
    rewrite Nat2Z.inj_succ, Z.pow_succ_r in H by lia. lia.
  - rewrite length_app, Nat.add_1_r. apply -> Nat.succ_lt_mono. apply IH.
    rewrite Nat2Z.inj_succ, Z.pow_succ_r in H by lia. lia.
  - cbn. lia.
  - rewrite Nat2Z.inj_succ, Z.pow_succ_r in H by lia.
    assert (0 < 2 ^ Z.of_nat n) by (apply Z.pow_pos_nonneg; lia). lia.
Qed.

(** The header [n.toString(2).padStart(16, '0')] has 16 digits up to
    65535 and more beyond. *)
Lemma header_length (n : Z) :
  0 <= n ->
  (n <= 65535 -> len (padStart (toString2 n) 16 48) = 16) /\
  (65535 < n -> 16 < len (padStart (toString2 n) 16 48)).
Proof.
  intros Hn. split; intros H.
  - unfold len. rewrite length_padStart; [reflexivity|].
    apply length_toString2; [|lia]. change (2 ^ Z.of_nat 16) with 65536. lia.
  - destruct n as [|p|p]; try lia.
    assert (Hd : (16 < List.length (pos_digits2 p))%nat).
    { apply length_pos_digits2_lower. change (2 ^ Z.of_nat 16) with 65536. lia. }
    unfold len, padStart. cbn [toString2]. rewrite length_app. lia.
Qed.

End HeaderLength.

(** What the decoder reads back from the encoding of the oversized payload
    is another payload. *)
Lemma oversized_payload_garbled :
  extractHiddenData (hideDataInText scenarioA_text oversizedPayload)
  <> Some oversizedPayload.
Proof.
  intros H. apply (f_equal (option_map len)) in H. vm_compute in H.
  discriminate H.
Qed.

(** C3 (the encoders at the failing input).  The payload of 8192 bytes has
    65,536 bits, one more than a 16-bit header can announce.
    [hideDataInText] does not fail: it returns the text with the frame
    inserted, and the length header of the frame has 17 symbols, where its
    own comment announces 16 and [extractHiddenData] reads 16.  The decoder
    takes the first 16 symbols for the length, 32768, and returns 4096
    characters in place of the 8192 of the payload.  Of the two other
    encoders, the stylometric one refuses the same payload for lack of
    sentences, and the structural one returns a text. *)
Theorem oversized_payload_is_not_rejected :
  len oversizedPayload = 8192 /\
  len (toBinary oversizedPayload) = 65536 /\
  (exists pre post,
      scenarioA_text = pre ++ post /\
      hideDataInText scenarioA_text oversizedPayload
      = pre ++ hiddenBlock oversizedPayload ++ post) /\
  len (padStart (toString2 (len (toBinary oversizedPayload))) 16 48) = 17 /\
  parseInt2 (firstn 16 (padStart (toString2 (len (toBinary oversizedPayload))) 16 48))
  = Some 32768 /\
  option_map len (extractHiddenData (hideDataInText scenarioA_text oversizedPayload))
  = Some 4096 /\
  extractHiddenData (hideDataInText scenarioA_text oversizedPayload)
  <> Some oversizedPayload /\
  runM (hideDataStylometrically twoSentenceOpening oversizedPayload) sampleDraws
  = Throw "Text too short to encode the required bits" /\
  exists out,
    runM (hideDataStructurally sampleText oversizedPayload
            StructuralEncoder.DEFAULT_OPTIONS) sampleDraws
    = Ok out.
Proof.
  split; [vm_compute; reflexivity|]. split; [vm_compute; reflexivity|].
  split; [apply hideDataInText_shape|].
  split; [vm_compute; reflexivity|]. split; [vm_compute; reflexivity|].
  split; [vm_compute; reflexivity|]. split; [exact oversized_payload_garbled|].
  split; [vm_compute; reflexivity|].
  assert (Hlen : minContentLength StructuralEncoder.DEFAULT_OPTIONS <= len sampleText)
    by (apply Z.leb_le; vm_compute; reflexivity).
  destruct (hideDataStructurally_total sampleText oversizedPayload
              StructuralEncoder.DEFAULT_OPTIONS Hlen sampleDraws O) as (out & n' & E).
  exists out. unfold runM. now rewrite E.
Qed.

(** ** Cross-layer integrity *)

Section Integrity.

Lemma eqs_true_iff (a b : jsstring) : eqs a b = true <-> a = b.
Proof. unfold eqs. destruct (list_eq_dec Z.eq_dec a b); split; congruence. Qed.

Lemma compareWithPrimary_spec (primary current : extraction) (acc ok : bool) :
  compareWithPrimary primary (stringify (data primary)) acc current = Some ok ->
  (ok = true <-> acc = true /\ passes (data primary) (data current)).
Proof.
  unfold compareWithPrimary, passes, sameId, carriesSubset.
  destruct (getProp (data current) (lit "subset")) as [s|] eqn:Es; [|discriminate].
  destruct (truthy s) eqn:Ts.
  - (* partial data *)
    assert (Hsub : exists s0, Some s = Some s0 /\ truthy s0 = true) by (now exists s).
    destruct (getProp (data primary) (lit "id")) as [pid|] eqn:Ep; [|discriminate].
    destruct (truthy pid) eqn:Tp.
    + destruct (getProp (data current) (lit "id")) as [cid|] eqn:Ec; [|discriminate].
      destruct (strictEq cid pid) eqn:Eq; cbn [negb]; intros [= <-].
      * split; [intros ->|intros [-> _]; reflexivity].
        split; [reflexivity|]. split; [|intros Hn; now elim Hn].
        intros _ pid' [= <-] _. now exists cid.
      * split; [discriminate|]. intros [_ [H _]].
        destruct (H Hsub pid eq_refl Tp) as (cid' & [= <-] & Hc). congruence.
    + intros [= <-].
      split; [intros ->|intros [-> _]; reflexivity].
      split; [reflexivity|]. split; [|intros Hn; now elim Hn].
      intros _ pid' [= <-] Tp'. congruence.
  - (* full data *)
    assert (Hnsub : ~ exists s0, Some s = Some s0 /\ truthy s0 = true).
    { intros (s0 & [= <-] & Hs0). congruence. }
    destruct (stringify (data current)) as [a|] eqn:Ea,
             (stringify (data primary)) as [b|] eqn:Eb; cbn [negb].
    + destruct (eqs a b) eqn:Eab; cbn [negb]; intros [= <-].
      * apply eqs_true_iff in Eab. subst b.
        split; [intros ->|intros [-> _]; reflexivity].
        split; [reflexivity|]. split; [intros H; now elim Hnsub|reflexivity].
      * split; [discriminate|]. intros [_ [_ H]]. specialize (H Hnsub).
        injection H as ->. rewrite (proj2 (eqs_true_iff b b) eq_refl) in Eab.
        discriminate.
    + intros [= <-]. split; [discriminate|]. intros [_ [_ H]].
      specialize (H Hnsub). discriminate.
    + intros [= <-]. split; [discriminate|]. intros [_ [_ H]].
      specialize (H Hnsub). discriminate.
    + intros [= <-].
      split; [intros ->|intros [-> _]; reflexivity].
      split; [reflexivity|]. split; [intros H; now elim Hnsub|reflexivity].
Qed.

(** The comparison loop keeps the flag exactly as long as every
    extraction met so far passes its check against the primary one. *)
Lemma compareAll_spec (primary : extraction) (others : list extraction) :
  forall acc ok,
    compareAll primary (stringify (data primary)) others acc = Some ok ->
    (ok = true <->
     acc = true /\ Forall (fun e => passes (data primary) (data e)) others).
Proof.
  induction others as [|current rest IH]; intros acc ok; cbn [compareAll].
  - intros [= <-]. split; [intros ->; now split|now intros [-> _]].
  - destruct (compareWithPrimary primary (stringify (data primary)) acc current)
      as [acc'|] eqn:E; [|discriminate].
    intros Hrest. apply compareWithPrimary_spec in E. apply IH in Hrest.
    split.
    + intros Hok. apply Hrest in Hok. destruct Hok as [Hacc' Hothers].
      apply E in Hacc'. destruct Hacc' as [Hacc Hcur].
      split; [exact Hacc|now constructor].
    + intros [Hacc Hall]. inversion Hall as [|e l Hcur Hothers]; subst.
      apply Hrest. split; [apply E; now split|exact Hothers].
Qed.

(** The flag of a returned result, in terms of the checks of the loop. *)
Lemma judge_integrity (signer : option jsstring)
      (extractionResults : list extraction) (r : EnhancedDecodedResult) :
  judge signer extractionResults = Some r ->
  (integrity r = true <->
   exists primary others,
     extractionResults = primary :: others /\
     Forall (fun e => passes (data primary) (data e)) others).
Proof.
  unfold judge. destruct extractionResults as [|primary others].
  - intros [= <-]. cbn [integrity]. split; [discriminate|].
    intros (p & o & H & _). discriminate H.
  - destruct (compareAll primary (stringify (data primary)) others true)
      as [ok|] eqn:E; [|discriminate].
    intros [= <-]. cbn [integrity]. apply compareAll_spec in E. rewrite E.
    split.
    + intros [_ H]. now exists primary, others.
    + intros (p & o & [= <- <-] & H). now split.
Qed.

(** On records of comparable kinds, passing the check is agreeing. *)
Lemma passes_iff_agrees (primary current : value) :
  comparable primary current ->
  (passes primary current <-> agrees primary current).
Proof.
  unfold comparable, passes, agrees. intros Hc. split.
  - intros [Hid Hfull]. split; [exact Hid|]. intros Hn _. now apply Hfull.
  - intros [Hid Hfull]. split; [exact Hid|]. intros Hn. apply Hfull; [exact Hn|].
    destruct Hc as [Hc|Hc]; [now elim Hn|exact Hc].
Qed.

End Integrity.

(** C4 (amended).  When the decoder returns a result and no full record is
    met after a partial primary one, [integrity] is true if and only if at
    least one extraction succeeded and every other successful extraction
    agrees with the primary one: an extraction that carries a truthy
    [subset] has an [id] strictly equal to the primary's whenever the
    primary's [id] is truthy, and an extraction without [subset] serialises
    to the same JSON text as the primary, itself without [subset]. *)
Theorem integrity_semantics (signer : option jsstring)
        (extractionResults : list extraction) (r : EnhancedDecodedResult) :
  judge signer extractionResults = Some r ->
  (forall primary others,
      extractionResults = primary :: others ->
      Forall (fun e => comparable (data primary) (data e)) others) ->
  (integrity r = true <->
   exists primary others,
     extractionResults = primary :: others /\
     Forall (fun e => agrees (data primary) (data e)) others).
Proof.
  intros Hjudge Hkinds. rewrite (judge_integrity _ _ _ Hjudge).
  split; intros (primary & others & E & Hall); exists primary, others;
    (split; [exact E|]); specialize (Hkinds primary others E);
    rewrite Forall_forall in *; intros e He;
    apply (passes_iff_agrees _ _ (Hkinds e He)); now apply Hall.
Qed.

(** C4 (amended) at two agreeing full records. *)
Lemma integrity_semantics_witness :
  exists r, judge (Some (lit "alice")) redundantResults = Some r /\
            integrity r = true.
Proof.
  set (r := {| metadata := fullRecord; signerName := Some (lit "alice");
               extractionSource := "structural"; integrity := true |}).
  assert (H : judge (Some (lit "alice")) redundantResults = Some r) by reflexivity.
  assert (Hfull : ~ carriesSubset fullRecord).
  { intros (s & Hs & Ts). vm_compute in Hs. injection Hs as <-. discriminate Ts. }
  assert (Hkinds : forall primary others,
             redundantResults = primary :: others ->
             Forall (fun e => comparable (data primary) (data e)) others).
  { intros primary others E. injection E as <- <-.
    constructor; [right; exact Hfull|constructor]. }
  exists r. split; [exact H|].
  apply (proj2 (integrity_semantics _ _ _ H Hkinds)).
  exists {| source := "structural"; data := fullRecord |},
         [ {| source := "stylometric"; data := fullRecord |} ].
  split; [reflexivity|]. constructor; [|constructor].
  split; [intros Hs; now elim Hfull|reflexivity].
Defined.

(** A counterexample to C4 as stated: of two partial records the primary
    one has no identifier and the other has the identifier 'abc'.  The
    identifiers are not equal, and the integrity flag is raised. *)
Lemma integrity_raised_on_different_ids :
  getProp partialWithoutId (lit "id") = Some Undefined /\
  getProp partialWithId (lit "id") = Some (Str (lit "abc")) /\
  strictEq (Str (lit "abc")) Undefined = false /\
  exists r, judge (Some (lit "alice")) partitionedResults = Some r /\
            integrity r = true.
Proof. repeat split. eexists. split; reflexivity. Qed.

(** The case the amended statement leaves aside: the full record of the
    zero-width layer after the partial record of the stylometric layer,
    both with the identifier 'abc'.  The loop compares serialisations, and
    the flag is lowered. *)
Lemma full_record_after_partial_primary :
  getProp partialWithId (lit "id") = Some (Str (lit "abc")) /\
  getProp fullRecord (lit "id") = Some (Str (lit "abc")) /\
  exists r, judge (Some (lit "alice")) mixedResults = Some r /\
            integrity r = false.
Proof. repeat split. eexists. split; reflexivity. Qed.

(** ** Content analysis *)

Ltac by_cases :=
  repeat match goal with
         | |- context [?a <? ?b] => destruct (Z.ltb_spec a b)
         | |- context [?a <=? ?b] => destruct (Z.leb_spec a b)
         | |- context [?a =? ?b] => destruct (Z.eqb_spec a b)
         end;
  cbn [andb].

Ltac settle :=
  split;
  [ intros ?H; first [discriminate | split; lia]
  | intros [? ?]; first [reflexivity | exfalso; lia] ].

Section Dominance.

Lemma count_nonneg (r : RegExp.regex) (text : jsstring) : 0 <= count r text.
Proof. unfold count. lia. Qed.

Variable text : jsstring.

Lemma pov_rule :
  let c0 := count firstPersonRe text in
  let c1 := count secondPersonRe text in
  let c2 := count thirdPersonRe text in
  (pov (analyzeContentUnit text) = pov_first <-> doubleOfOthers c0 c1 c2) /\
  (pov (analyzeContentUnit text) = pov_second <-> doubleOfOthers c1 c0 c2) /\
  (pov (analyzeContentUnit text) = pov_third <-> doubleOfOthers c2 c0 c1).
Proof.
  intros c0 c1 c2.
  pose proof (count_nonneg firstPersonRe text : 0 <= c0).
  pose proof (count_nonneg secondPersonRe text : 0 <= c1).
  pose proof (count_nonneg thirdPersonRe text : 0 <= c2).
  unfold analyzeContentUnit. cbn [pov]. fold c0 c1 c2. clearbody c0 c1 c2.
  unfold doubleOfOthers, max3. by_cases; (split; [|split]); settle.
Qed.

Lemma tense_rule :
  let t0 := count pastTenseRe text in
  let t1 := count presentTenseRe text in
  let t2 := count futureTenseRe text in
  (tense (analyzeContentUnit text) = tense_past <-> doubleOfOthers t0 t1 t2) /\
  (tense (analyzeContentUnit text) = tense_present <-> doubleOfOthers t1 t0 t2) /\
  (tense (analyzeContentUnit text) = tense_future <-> doubleOfOthers t2 t0 t1).
Proof.
  intros t0 t1 t2.
  pose proof (count_nonneg pastTenseRe text : 0 <= t0).
  pose proof (count_nonneg presentTenseRe text : 0 <= t1).
  pose proof (count_nonneg futureTenseRe text : 0 <= t2).
  unfold analyzeContentUnit. cbn [tense]. fold t0 t1 t2. clearbody t0 t1 t2.
  unfold doubleOfOthers, max3. by_cases; (split; [|split]); settle.
Qed.

Lemma dialectic_rule :
  let d0 := count argumentativeRe text in
  let d1 := count descriptiveRe text in
  let d2 := count narrativeRe text in
  (dialectic (analyzeContentUnit text) = dialectic_argumentative
   <-> overHalfOfTotal d0 d1 d2) /\
  (dialectic (analyzeContentUnit text) = dialectic_descriptive
   <-> overHalfOfTotal d1 d0 d2) /\
  (dialectic (analyzeContentUnit text) = dialectic_narrative
   <-> overHalfOfTotal d2 d0 d1).
Proof.
  intros d0 d1 d2.
  pose proof (count_nonneg argumentativeRe text : 0 <= d0).
  pose proof (count_nonneg descriptiveRe text : 0 <= d1).
  pose proof (count_nonneg narrativeRe text : 0 <= d2).
  unfold analyzeContentUnit. cbn [dialectic]. fold d0 d1 d2. clearbody d0 d1 d2.
  unfold overHalfOfTotal, max3. by_cases; (split; [|split]); settle.
Qed.

End Dominance.

(** C7 (amended).  For every content unit, point of view and tense are a
    class exactly when that class has at least one indicator and at least
    double the indicators of the two other classes together; the dialectic
    is a class exactly when that class has more than half of all dialectic
    indicators.  In every other case the axis is 'mixed'. *)
Theorem dominance_rules (text : jsstring) :
  let a := analyzeContentUnit text in
  let c0 := count firstPersonRe text in
  let c1 := count secondPersonRe text in
  let c2 := count thirdPersonRe text in
  let t0 := count pastTenseRe text in
  let t1 := count presentTenseRe text in
  let t2 := count futureTenseRe text in
  let d0 := count argumentativeRe text in
  let d1 := count descriptiveRe text in
  let d2 := count narrativeRe text in
  ((pov a = pov_first <-> doubleOfOthers c0 c1 c2) /\
   (pov a = pov_second <-> doubleOfOthers c1 c0 c2) /\
   (pov a = pov_third <-> doubleOfOthers c2 c0 c1)) /\
  ((tense a = tense_past <-> doubleOfOthers t0 t1 t2) /\
   (tense a = tense_present <-> doubleOfOthers t1 t0 t2) /\
   (tense a = tense_future <-> doubleOfOthers t2 t0 t1)) /\
  ((dialectic a = dialectic_argumentative <-> overHalfOfTotal d0 d1 d2) /\
   (dialectic a = dialectic_descriptive <-> overHalfOfTotal d1 d0 d2) /\
   (dialectic a = dialectic_narrative <-> overHalfOfTotal d2 d0 d1)).
Proof.
  cbv zeta. split; [apply pov_rule|]. split; [apply tense_rule|apply dialectic_rule].
Qed.

(** A counterexample to C7 as stated.  In the first unit three
    argumentative indicators stand against two descriptive ones: three is
    not double two, and the dialectic is 'argumentative'.  The second unit
    has no pronoun at all: the highest count, zero, is double the others,
    and the point of view is 'mixed'. *)
Lemma dominance_is_not_uniform :
  (count argumentativeRe arguedUnit = 3 /\
   count descriptiveRe arguedUnit = 2 /\
   count narrativeRe arguedUnit = 0 /\
   specDominant 3 2 0 = None /\
   dialectic (analyzeContentUnit arguedUnit) = dialectic_argumentative) /\
  (count firstPersonRe plainUnit = 0 /\
   count secondPersonRe plainUnit = 0 /\
   count thirdPersonRe plainUnit = 0 /\
   specDominant 0 0 0 = Some 0%nat /\
   pov (analyzeContentUnit plainUnit) = pov_mixed).
Proof. vm_compute. repeat split. Qed.

(** ** Per-unit bits of the structural decoder *)

Section UnitBits.

Lemma unitBit_cases (a : ContentUnitAnalysis) :
  unitBit a = [48] \/ unitBit a = [49].
Proof.
  unfold unitBit.
  destruct (pov a), (existsb (Z.eqb EndingQuestion) (rhetorical a)),
    (existsb (Z.eqb EndingEmphasis) (rhetorical a)), (tense a), (dialectic a),
    (complexity a) as [c|]; try destruct (Qlt_bool c (inject_Z 12));
    (now left) || (now right).
Qed.

(** Every analysis lists [Metaphorical] (0) or [Direct] (1) among its
    rhetorical patterns, and these are the numbers of [EndingQuestion] and
    [EndingEmphasis]. *)
Lemma rhetorical_has_zero_or_one (text : jsstring) :
  existsb (Z.eqb EndingQuestion) (rhetorical (analyzeContentUnit text)) = true \/
  existsb (Z.eqb EndingEmphasis) (rhetorical (analyzeContentUnit text)) = true.
Proof.
  unfold analyzeContentUnit. cbn [rhetorical]. rewrite !existsb_app.
  destruct (0 <? count metaphorRe text).
  - left. apply orb_true_iff. right. reflexivity.
  - right. apply orb_true_iff. right. reflexivity.
Qed.

(** X21.  Hence the cascade of the decoder never reaches tense, dialectic
    or complexity: for every unit the bit is decided by the point of view
    or, when that is neither first nor third person, by whether the
    rhetorical list holds the number 0. *)
Lemma unitBit_stops_at_rhetorical (text : jsstring) :
  let a := analyzeContentUnit text in
  unitBit a =
  match pov a with
  | pov_first => lit "0"
  | pov_third => lit "1"
  | _ => if existsb (Z.eqb 0) (rhetorical a) then lit "0" else lit "1"
  end.
Proof.
  cbv zeta. unfold unitBit.
  destruct (rhetorical_has_zero_or_one text) as [H|H];
    unfold EndingQuestion, EndingEmphasis in *; rewrite H;
    destruct (pov (analyzeContentUnit text)); try reflexivity;
    destruct (existsb (Z.eqb 0) (rhetorical (analyzeContentUnit text)));
    reflexivity.
Qed.

End UnitBits.

(** C6 (the decoder at the failing input).  The unit has a mixed point of
    view, no question and no emphasis at its end, and is in the past tense:
    the table gives bit 0.  Its analysis lists the one pattern [Direct],
    whose number is that of [EndingEmphasis], and the decoder reads
    bit 1. *)
Theorem unitBit_reads_direct_as_emphasis :
  let a := analyzeContentUnit pastUnit in
  pov a = pov_mixed /\
  closingOf pastUnit = closing_none /\
  tense a = tense_past /\
  rhetorical a = [Direct] /\
  specUnitBit pastUnit = lit "0" /\
  unitBit a = lit "1".
Proof. vm_compute. repeat split. Qed.

(** ** Unit threshold of the structural decoder *)

Section UnitThreshold.

Lemma forallb_shift (f g : nat -> bool) (l : list nat) :
  (forall k, f (S k) = g k) -> forallb f (map S l) = forallb g l.
Proof.
  intros H. induction l as [|k l IH]; [reflexivity|].
  cbn [map forallb]. now rewrite H, IH.
Qed.

Lemma shortLong_cons (cur next : jsstring) (rest : list jsstring) (j : nat) :
  shortLong (cur :: next :: rest) j
  = (if Nat.even j then len cur <? len next else len next <? len cur)
    && shortLong (next :: rest) (S j).
Proof. reflexivity. Qed.

(** The pattern test of the source, place by place. *)
Lemma shortLong_places (section : list jsstring) :
  forall j,
    shortLong section j
    = forallb (fun k => if Nat.even (j + k)
                        then len (nth k section []) <? len (nth (S k) section [])
                        else len (nth (S k) section []) <? len (nth k section []))
              (seq 0 (List.length section - 1)).
Proof.
  induction section as [|cur rest IH]; intros j; [reflexivity|].
  destruct rest as [|next rest']; [reflexivity|].
  rewrite shortLong_cons, (IH (S j)).
  replace (List.length (cur :: next :: rest') - 1)%nat
    with (S (List.length (next :: rest') - 1)) by (cbn [List.length]; lia).
  rewrite <- cons_seq, <- seq_shift. cbn [forallb].
  rewrite (forallb_shift _
             (fun k => if Nat.even (S j + k)
                       then len (nth k (next :: rest') []) <? len (nth (S k) (next :: rest') [])
                       else len (nth (S k) (next :: rest') []) <? len (nth k (next :: rest') [])))
    by (intros k; rewrite <- plus_n_Sm; reflexivity).
  rewrite Nat.add_0_r. reflexivity.
Qed.

Lemma shortLong_alternates (section : list jsstring) :
  shortLong section O = alternates section.
Proof. apply shortLong_places. Qed.

(** The first loop of the decoder reads the sections in turn. *)
Lemma patternBits_sections (contentUnits : list jsstring) (count : nat) :
  forall (k fuel : nat) (extractedBits : jsstring),
    (count <= fuel)%nat ->
    ((List.length contentUnits + 3) / 4 = k + count)%nat ->
    patternBits fuel contentUnits (4 * k) extractedBits
    = extractedBits
        ++ map (fun section => if alternates section then 48 else 49)
             (firstn (Z.to_nat (16 - len extractedBits))
                (filter (fun section => (3 <=? List.length section)%nat)
                   (map (fun j => firstn 4 (skipn (4 * j) contentUnits))
                        (seq k count)))).
Proof.
  induction count as [|count IH]; intros k fuel extractedBits Hfuel Hk.
  - cbn [seq map filter]. rewrite firstn_nil. cbn [map]. rewrite app_nil_r.
    destruct fuel as [|fuel]; [reflexivity|]. cbn [patternBits].
    replace (4 * k <? List.length contentUnits)%nat with false; [reflexivity|].
    symmetry. apply Nat.ltb_ge.
    pose proof (Nat.div_mod_eq (List.length contentUnits + 3) 4).
    pose proof (Nat.mod_upper_bound (List.length contentUnits + 3) 4). lia.
  - destruct fuel as [|fuel]; [lia|]. cbn [patternBits seq map filter].
    replace (4 * k <? List.length contentUnits)%nat with true.
    2: { symmetry. apply Nat.ltb_lt.
         pose proof (Nat.div_mod_eq (List.length contentUnits + 3) 4).
         pose proof (Nat.mod_upper_bound (List.length contentUnits + 3) 4). lia. }
    cbn [andb]. pose proof (len_nonneg extractedBits) as H0.
    replace (4 * k + 4)%nat with (4 * S k)%nat by lia.
    destruct (Z.ltb_spec (len extractedBits) 16) as [Hb|Hb].
    + destruct (3 <=? List.length (firstn 4 (skipn (4 * k) contentUnits)))%nat.
      * rewrite IH by lia. rewrite len_app.
        match goal with
        | |- context [len (if ?c then ?a else ?b)] =>
            replace (len (if c then a else b)) with 1 by (now destruct c)
        end.
        replace (Z.to_nat (16 - len extractedBits))
          with (S (Z.to_nat (16 - (len extractedBits + 1)))) by lia.
        cbn [firstn map]. rewrite <- app_assoc. f_equal.
        rewrite shortLong_alternates.
        now destruct (alternates _).
      * now rewrite IH by lia.
    + replace (Z.to_nat (16 - len extractedBits)) with 0%nat by lia.
      cbn [firstn map]. now rewrite app_nil_r.
Qed.

Lemma patternBits_sectionBits (contentUnits : list jsstring) :
  patternBits (List.length contentUnits) contentUnits O [] = sectionBits contentUnits.
Proof.
  change O with (4 * 0)%nat at 1.
  rewrite (patternBits_sections contentUnits ((List.length contentUnits + 3) / 4));
    [reflexivity| |reflexivity].
  destruct contentUnits as [|unit rest]; [cbn; lia|].
  apply Nat.Div0.div_le_upper_bound. cbn [List.length]. lia.
Qed.

(** The second loop adds the bit of one unit after the other. *)
Lemma unitBits_perUnitBits (contentUnits : list jsstring) :
  forall extractedBits : jsstring,
    unitBits contentUnits extractedBits
    = extractedBits ++ perUnitBits contentUnits (len extractedBits).
Proof.
  unfold perUnitBits.
  induction contentUnits as [|unit rest IH]; intros extractedBits; cbn [unitBits].
  - now rewrite firstn_nil, app_nil_r.
  - destruct (Z.ltb_spec (len extractedBits) 64) as [Hb|Hb].
    + rewrite IH, len_app.
      replace (len (unitBit (analyzeContentUnit unit))) with 1
        by (destruct (unitBit_cases (analyzeContentUnit unit)) as [-> | ->];
            reflexivity).
      replace (Z.to_nat (64 - len extractedBits))
        with (S (Z.to_nat (64 - (len extractedBits + 1)))) by lia.
      cbn [firstn map List.concat]. now rewrite <- app_assoc.
    + replace (Z.to_nat (64 - len extractedBits)) with 0%nat by lia.
      cbn [firstn map List.concat]. now rewrite app_nil_r.
Qed.

Lemma structural_bits_read (contentUnits : list jsstring) :
  unitBits contentUnits (patternBits (List.length contentUnits) contentUnits O [])
  = bitsRead contentUnits.
Proof. now rewrite patternBits_sectionBits, unitBits_perUnitBits. Qed.

Lemma extractHiddenStructuralData_returned (text : jsstring) :
  extractHiddenStructuralData text = returned (extractHiddenStructuralData_exit text).
Proof.
  unfold extractHiddenStructuralData, extractHiddenStructuralData_exit.
  destruct (negb (includes text _)); [reflexivity|]. cbv zeta.
  destruct (List.length (splitContentIntoUnits text) <? 4)%nat; [reflexivity|].
  destruct (len _ <? 16); [reflexivity|].
  now destruct (decodeExtractedBits _).
Qed.

End UnitThreshold.

(** C8 (amended).  For a text that contains the structural marker, the
    decoder leaves at its unit check, before any bit is read, exactly when
    segmentation yields fewer than 4 units.  With 4 units or more it reads
    one bit for each section of three or four units (0 when the lengths in
    the section go short, long, short, long), 16 at most, then one bit for
    each unit from the first unit on until it holds 64 bits; it returns
    [null] for lack of bits when fewer than 16 were read, and otherwise
    hands the bits to the length check and the conversion.  What the caller
    receives is [null] on every exit but the last. *)
Theorem structural_decode_unit_threshold (text : jsstring) :
  includes text (lit "The following explores multiple perspectives.") = true ->
  let contentUnits := splitContentIntoUnits text in
  ((List.length contentUnits < 4)%nat <->
   extractHiddenStructuralData_exit text = ExitTooFewUnits) /\
  ((4 <= List.length contentUnits)%nat ->
   extractHiddenStructuralData_exit text
   = if len (bitsRead contentUnits) <? 16
     then ExitTooFewBits (bitsRead contentUnits)
     else match decodeExtractedBits (bitsRead contentUnits) with
          | Some result => ExitResult result
          | None => ExitTruncated (bitsRead contentUnits)
          end) /\
  extractHiddenStructuralData text = returned (extractHiddenStructuralData_exit text).
Proof.
  intros Hmarker. cbv zeta.
  split; [|split; [|apply extractHiddenStructuralData_returned]].
  - unfold extractHiddenStructuralData_exit. rewrite Hmarker. cbn [negb]. cbv zeta.
    destruct (Nat.ltb_spec (List.length (splitContentIntoUnits text)) 4) as [Hlt|Hge].
    + split; [reflexivity|intros _; exact Hlt].
    + split; [lia|]. destruct (len _ <? 16); [discriminate|].
      destruct (decodeExtractedBits _); discriminate.
  - intros Hn. unfold extractHiddenStructuralData_exit. rewrite Hmarker.
    cbn [negb]. cbv zeta.
    replace (List.length (splitContentIntoUnits text) <? 4)%nat with false
      by (symmetry; apply Nat.ltb_ge; exact Hn).
    now rewrite structural_bits_read.
Qed.

(** C8 (amended) at the carrier document of twenty paragraphs: five section
    bits and twenty unit bits are read, and the result is 'h'. *)
Lemma structural_decode_unit_threshold_witness :
  List.length (splitContentIntoUnits structuralCarrier) = 20%nat /\
  bitsRead (splitContentIntoUnits structuralCarrier)
  = lit "0000000000001000011010000" /\
  extractHiddenStructuralData_exit structuralCarrier = ExitResult (lit "h").
Proof.
  assert (Hn : List.length (splitContentIntoUnits structuralCarrier) = 20%nat)
    by (vm_compute; reflexivity).
  assert (Hbits : bitsRead (splitContentIntoUnits structuralCarrier)
                  = lit "0000000000001000011010000") by (vm_compute; reflexivity).
  assert (Hmarker : includes structuralCarrier
                      (lit "The following explores multiple perspectives.") = true)
    by (vm_compute; reflexivity).
  split; [exact Hn|]. split; [exact Hbits|].
  destruct (structural_decode_unit_threshold structuralCarrier Hmarker) as (_ & H & _).
  rewrite H by (rewrite Hn; lia). rewrite Hbits. vm_compute. reflexivity.
Defined.

(** A counterexample to C8 as stated: a text with the marker that
    segmentation cuts into four units.  The decoder does not leave at its
    unit check: it reads one section bit and four unit bits, and returns
    [null] for lack of header bits. *)
Lemma four_units_reach_bit_extraction :
  includes thresholdText (lit "The following explores multiple perspectives.") = true /\
  List.length (splitContentIntoUnits thresholdText) = 4%nat /\
  extractHiddenStructuralData_exit thresholdText = ExitTooFewBits (lit "11111") /\
  extractHiddenStructuralData_exit thresholdText <> ExitTooFewUnits.
Proof.
  assert (H : extractHiddenStructuralData_exit thresholdText = ExitTooFewBits (lit "11111"))
    by (vm_compute; reflexivity).
  split; [vm_compute; reflexivity|]. split; [vm_compute; reflexivity|].
  split; [exact H|]. rewrite H. discriminate.
Qed.

(** ** Capacity of the stylometric encoder *)

Section StylometricCapacity.

Lemma total_encodeZero (sentence : jsstring) : total (encodeZero sentence).
Proof.
  unfold encodeZero. apply total_bind; [|intros; apply total_ret].
  generalize sentence. induction adverbs as [|adverb l IH]; intros s0;
    cbn [foldM]; [apply total_ret|].
  apply total_bind; [|intros; apply IH].
  apply total_bind; [apply total_randomAbove|intros; apply total_ret].
Qed.

Lemma total_encodeOne (sentence : jsstring) : total (encodeOne sentence).
Proof. unfold encodeOne. repeat total_step. Qed.

Lemma total_encodeSentences (sentences : list jsstring) :
  forall bits encodedText bitIndex,
    total (encodeSentences sentences bits encodedText bitIndex).
Proof.
  induction sentences as [|s rest IH]; intros bits encodedText bitIndex;
    cbn [encodeSentences]; [apply total_ret|].
  destruct bits as [|bit bits']; [apply total_ret|].
  apply total_if; [apply IH|].
  apply total_bind; [|intros; apply IH].
  apply total_if; [apply total_encodeZero|apply total_encodeOne].
Qed.

(** X12.  What the guard of [encodeStylometricBits] counts is all sentences: the
    function throws exactly when the text has fewer sentences, short ones
    included, than there are bits. *)
Lemma encodeStylometricBits_throws_iff (text bitsToEncode : jsstring)
      (draws : nat -> Q) :
  (List.length (RegExp.matchAll RegExp.sentenceRe text)
   < List.length bitsToEncode)%nat
  <-> exists message,
        runM (encodeStylometricBits text bitsToEncode) draws = Throw message.
Proof.
  unfold encodeStylometricBits, runM.
  destruct (Nat.ltb_spec (List.length (RegExp.matchAll RegExp.sentenceRe text))
                         (List.length bitsToEncode)) as [Hlt|Hge].
  - split; [intros _; eexists; reflexivity|intros _; exact Hlt].
  - split; [lia|]. intros [message H].
    destruct (total_encodeSentences (RegExp.matchAll RegExp.sentenceRe text)
                bitsToEncode [] O draws O) as ([encodedText bitIndex] & n' & E).
    unfold bind in H. rewrite E in H. discriminate H.
Qed.

End StylometricCapacity.

(** C9 (the encoder at the failing input).  The text has three sentences
    and none of them is eligible; three bits are to be embedded.  Whatever
    [Math.random] returns, [encodeStylometricBits] does not throw: it
    places no bit at all and returns the sentences, twice. *)
Theorem encodeStylometricBits_accepts_short_sentences (draws : nat -> Q) :
  eligibleSentences shortSentences = 0%nat /\
  List.length (lit "101") = 3%nat /\
  runM (encodeSentences (RegExp.matchAll RegExp.sentenceRe shortSentences)
                        (lit "101") [] O) draws
  = Ok (lit "Go on. Be it. Do so. ", 0%nat) /\
  runM (encodeStylometricBits shortSentences (lit "101")) draws
  = Ok (lit "Go on. Be it. Do so. Go on.  Be it.  Do so.").
Proof. vm_compute. repeat split. Qed.

(** ** Stripping the zero-width characters *)

Section ScenarioC.

Lemma scenarioC_structural :
  extractHiddenStructuralData scenarioC_content = None /\
  extractHiddenStructuralData (stripZeroWidth scenarioC_content) = None.
Proof. split; vm_compute; reflexivity. Qed.

Lemma scenarioC_stylometric :
  extractHiddenStylometricData scenarioC_content = Some scenarioC_payload /\
  extractHiddenStylometricData (stripZeroWidth scenarioC_content) = None.
Proof. split; vm_compute; reflexivity. Qed.

Lemma scenarioC_zero_width :
  extractHiddenData scenarioC_content = Some scenarioC_payload /\
  extractHiddenData (stripZeroWidth scenarioC_content) = None.
Proof. split; vm_compute; reflexivity. Qed.

(** With any [JSON.parse] that reads the payload text as the metadata, the
    orchestrator returns the metadata with [integrity] raised for the
    encoded document and no metadata at all for the stripped one. *)
Lemma scenarioC_decode (JSON_parse : jsstring -> option value) (sig : jsstring) :
  JSON_parse scenarioC_payload = Some scenarioC_metadata ->
  decodeEnhancedContent JSON_parse scenarioC_content sig scenarioC_keys
  = Some {| metadata := scenarioC_metadata; signerName := Some (lit "alice");
            extractionSource := "stylometric"; integrity := true |}
  /\
  decodeEnhancedContent JSON_parse (stripZeroWidth scenarioC_content) sig
                        scenarioC_keys
  = Some {| metadata := Null; signerName := Some (lit "alice");
            extractionSource := "none"; integrity := false |}.
Proof.
  intros Hparse.
  destruct scenarioC_structural as [Hs1 Hs2].
  destruct scenarioC_stylometric as [Hy1 Hy2].
  destruct scenarioC_zero_width as [Hz1 Hz2].
  unfold decodeEnhancedContent.
  rewrite Hs1, Hs2, Hy1, Hy2, Hz1, Hz2.
  change (present (verifySignature scenarioC_keys scenarioC_content sig)) with true.
  change (present (verifySignature scenarioC_keys
                     (stripZeroWidth scenarioC_content) sig)) with true.
  cbn [negb]. unfold attempt.
  change (present (Some scenarioC_payload)) with true.
  change (present None) with false. cbv iota. rewrite Hparse.
  split; reflexivity.
Qed.

End ScenarioC.

(** C5 (the pipeline at the failing input).  The document is encoded in
    redundant mode with the three layers.  From the encoded document the
    stylometric extraction recovers the payload; from the same document
    without its zero-width characters it recovers nothing.  The zero-width
    frame sits inside the adverb of the first sentence that carries a bit:
    with the frame the sentence reads as 0, without it as 1.  The
    structural extraction recovers nothing in either case. *)
Theorem stripping_changes_stylometric_extraction :
  scenarioC_package
  = Some {| content := scenarioC_content;
            signature := lit "c2lnbmF0dXJl";
            encodingInfo :=
              {| layers := ["zero-width"; "stylometric"; "structural"]%string;
                 originalLength := 2040;
                 finalLength := 2396 |} |} /\
  stringify scenarioC_metadata = Some scenarioC_payload /\
  extractHiddenStylometricData scenarioC_content = Some scenarioC_payload /\
  extractHiddenStylometricData (stripZeroWidth scenarioC_content) = None /\
  extractHiddenStructuralData scenarioC_content = None /\
  extractHiddenStructuralData (stripZeroWidth scenarioC_content) = None.
Proof.
  split; [vm_compute; reflexivity|]. split; [vm_compute; reflexivity|].
  split; [apply scenarioC_stylometric|]. split; [apply scenarioC_stylometric|].
  apply scenarioC_structural.
Qed.

(** ** Round trips that fail *)

(** A counterexample to C1 as stated, channel by channel.  Zero-width: a
    text of 200 characters with U+200D just before the insertion point, and
    a payload of 8192 bytes.  Stylometric: a text with enough sentences
    whose first paragraph has two of them.  Structural: the module's own
    sample text.  Each time the payload read back is not the payload
    written. *)
Lemma round_trip_fails :
  (len joinerText = 200 /\
   extractHiddenData (hideDataInText joinerText (lit "hi")) <> Some (lit "hi")) /\
  (len oversizedPayload = 8192 /\
   extractHiddenData (hideDataInText scenarioA_text oversizedPayload)
   <> Some oversizedPayload) /\
  (exists encoded,
      runM (hideDataStylometrically twoSentenceOpening (lit "hi")) sampleDraws
      = Ok encoded /\
      extractHiddenStylometricData encoded <> Some (lit "hi")) /\
  (exists encoded,
      runM (hideDataStructurally sampleText (lit "hi")
                                 StructuralEncoder.DEFAULT_OPTIONS) sampleDraws
      = Ok encoded /\
      extractHiddenStructuralData encoded <> Some (lit "hi")).
Proof.
  split; [split; [reflexivity|]|].
  { intros H. vm_compute in H. discriminate H. }
  split; [split; [vm_compute; reflexivity|exact oversized_payload_garbled]|].
  split.
  - eexists. split; [vm_compute; reflexivity|].
    intros H. vm_compute in H. discriminate H.
  - eexists. split; [vm_compute; reflexivity|].
    intros H. vm_compute in H. discriminate H.
Qed.

(** ** Occurrences of a pattern *)

Section Occurrences.

Lemma prefixb_true_iff (p s : jsstring) :
  prefixb p s = true <-> exists r, s = p ++ r.
Proof.
  revert s. induction p as [|c p IH]; intros s; cbn [prefixb].
  - split; [intros _; now exists s|reflexivity].
  - destruct s as [|d s]; [split; [discriminate|intros [r Hr]; discriminate Hr]|].
    rewrite andb_true_iff, Z.eqb_eq, IH. split.
    + intros [-> [r ->]]. now exists r.
    + intros [r Hr]. injection Hr as -> ->. split; [reflexivity|now exists r].
Qed.

Lemma find_from_range (p s : jsstring) (i : Z) :
  find_from p s i = -1 \/ i <= find_from p s i.
Proof.
  revert i. induction s as [|c s IH]; intros i; cbn [find_from];
    destruct (prefixb p _); try lia.
  destruct (IH (i + 1)); lia.
Qed.

(** [find_from] fails exactly when no suffix starts with the pattern. *)
Lemma find_from_none (p s : jsstring) (i : Z) :
  0 <= i ->
  (find_from p s i = -1 <-> forall a b, s <> a ++ p ++ b).
Proof.
  intros Hi. revert i Hi. induction s as [|c s IH]; intros i Hi; cbn [find_from].
  - destruct (prefixb p []) eqn:E.
    + split; [lia|]. intros H. apply prefixb_true_iff in E. destruct E as [r Hr].
      now elim (H [] r).
    + split; [|reflexivity]. intros _ a b Hab.
      assert (prefixb p [] = true); [|congruence].
      apply prefixb_true_iff. exists [].
      destruct a; [|discriminate]. destruct p; [reflexivity|discriminate].
  - destruct (prefixb p (c :: s)) eqn:E.
    + split; [lia|]. intros H. apply prefixb_true_iff in E. destruct E as [r Hr].
      now elim (H [] r).
    + rewrite IH by lia. split.
      * intros H a b Hab. destruct a as [|x a].
        -- assert (prefixb p (c :: s) = true); [|congruence].
           apply prefixb_true_iff. now exists b.
        -- injection Hab as _ Hab. now apply (H a b).
      * intros H a b Hab. apply (H (c :: a) b). now rewrite Hab.
Qed.

Lemma includes_false_iff (s p : jsstring) :
  includes s p = false <-> forall a b, s <> a ++ p ++ b.
Proof.
  unfold includes, indexOf.
  replace (clamp (len s) 0) with 0 by (pose proof (len_nonneg s); unfold clamp; lia).
  cbn [Z.to_nat skipn]. rewrite negb_false_iff, Z.eqb_eq.
  apply find_from_none. lia.
Qed.

Lemma includes_true_iff (s p : jsstring) :
  includes s p = true <-> exists a b, s = a ++ p ++ b.
Proof.
  split.
  - intros H. destruct (list_eq_dec Z.eq_dec s s) as [_|N]; [|now elim N].
    unfold includes, indexOf in H.
    replace (clamp (len s) 0) with 0 in H
      by (pose proof (len_nonneg s); unfold clamp; lia).
    cbn [Z.to_nat skipn] in H. apply negb_true_iff, Z.eqb_neq in H.
    clear -H. revert H. generalize 0 at 1 as i.
    induction s as [|c s IH]; intros i; cbn [find_from].
    + destruct (prefixb p []) eqn:E; [|congruence]. intros _.
      apply prefixb_true_iff in E. destruct E as [r Hr]. now exists [], r.
    + destruct (prefixb p (c :: s)) eqn:E.
      * intros _. apply prefixb_true_iff in E. destruct E as [r Hr]. now exists [], r.
      * intros H. destruct (IH _ H) as (a & b & ->). now exists (c :: a), b.
  - intros (a & b & Hab). destruct (includes s p) eqn:E; [reflexivity|].
    rewrite includes_false_iff in E. now elim (E a b).
Qed.

(** A pattern that starts inside [u ++ block ++ post] and has no code unit
    in common with the block lies within [u]. *)
Lemma prefixb_across_block (p u block post : jsstring) :
  block <> [] ->
  Forall (fun c => ~ In c block) p ->
  prefixb p (u ++ block ++ post) = true ->
  prefixb p (u ++ post) = true.
Proof.
  intros Hb Hp. revert u. induction Hp as [|c p Hc Hp IH]; intros u; [reflexivity|].
  destruct u as [|y u]; cbn [app prefixb].
  - destruct block as [|x block]; [congruence|]. cbn [app].
    destruct (Z.eqb_spec c x) as [->|_]; [|discriminate].
    elim Hc. now left.
  - destruct (c =? y); [|discriminate]. cbn [andb]. apply IH.
Qed.

Lemma occurs_across_block (p pre block post : jsstring) :
  Forall (fun c => ~ In c block) p ->
  (exists a b, pre ++ block ++ post = a ++ p ++ b) ->
  exists a b, pre ++ post = a ++ p ++ b.
Proof.
  intros Hp. destruct p as [|c p]; [intros _; now exists [], (pre ++ post)|].
  induction pre as [|y pre IH]; intros (a & b & Hab).
  - cbn [app] in *. revert a Hab. induction block as [|x block IHb]; intros a Hab.
    + now exists a, b.
    + destruct a as [|x' a]; cbn [app] in Hab; injection Hab as Hx Hab.
      * inversion Hp as [|c' p' Hc _]; subst. elim Hc. now left.
      * apply (IHb (Forall_impl _ (fun a0 Ha Hin => Ha (or_intror Hin)) Hp) a Hab).
  - destruct a as [|y' a].
    + destruct block as [|x block]; [now exists [], b|].
      assert (H : prefixb (c :: p) ((y :: pre) ++ post) = true).
      { apply (prefixb_across_block _ _ (x :: block)); [discriminate|exact Hp|].
        apply prefixb_true_iff. now exists b. }
      apply prefixb_true_iff in H. destruct H as [r Hr]. now exists [], r.
    + cbn [app] in Hab. injection Hab as <- Hab.
      destruct (IH (ex_intro _ a (ex_intro _ b Hab))) as (a' & b' & E).
      exists (y :: a'), b'. cbn [app]. now rewrite E.
Qed.

(** Putting a block into a text creates no occurrence of a pattern that
    shares no code unit with the block. *)
Lemma includes_across_block (p pre block post : jsstring) :
  Forall (fun c => ~ In c block) p ->
  includes (pre ++ post) p = false ->
  includes (pre ++ block ++ post) p = false.
Proof.
  intros Hp H. destruct (includes (pre ++ block ++ post) p) eqn:E; [|reflexivity].
  apply includes_true_iff in E. apply (occurs_across_block _ _ _ _ Hp) in E.
  apply includes_true_iff in E. congruence.
Qed.

Lemma includes_after_hideDataInText (text d p : jsstring) :
  Forall (fun c => isZeroWidth c = false) p ->
  includes text p = false ->
  includes (hideDataInText text d) p = false.
Proof.
  intros Hp H. destruct (hideDataInText_shape text d) as (pre & post & -> & ->).
  apply includes_across_block; [|exact H].
  eapply Forall_impl; [|exact Hp]. intros c Hc Hin.
  pose proof (hiddenBlock_zero_width d) as Hb. rewrite Forall_forall in Hb.
  specialize (Hb c Hin). cbv beta in Hb, Hc. congruence.
Qed.

End Occurrences.

(** ** Further properties of the zero-width channel *)

Section ZeroWidthFurther.

Lemma find_from_absent (c : Z) (p s : jsstring) (i : Z) :
  Forall (fun x => x <> c) s -> find_from (c :: p) s i = -1.
Proof.
  intros H. rewrite <- (app_nil_r s), find_from_skip by assumption. reflexivity.
Qed.

Lemma indexOf_absent (c : Z) (p s : jsstring) :
  Forall (fun x => x <> c) s -> indexOf s (c :: p) 0 = -1.
Proof.
  intros H. unfold indexOf.
  replace (clamp (len s) 0) with 0 by (pose proof (len_nonneg s); unfold clamp; lia).
  now apply find_from_absent.
Qed.

Lemma stripZeroWidth_no_joiner (text : jsstring) :
  Forall (fun c => c <> 8205) (stripZeroWidth text).
Proof.
  apply Forall_forall. intros c Hc. apply filter_In in Hc. destruct Hc as [_ Hc].
  intros ->. discriminate Hc.
Qed.

(** The frame of a byte payload: decoding reads it back whatever stands
    before it, as long as that has no joiner, and whatever follows it. *)
Lemma extractHiddenData_hiddenBlock (pre post p : jsstring) :
  Forall (fun c => c <> 8205) pre ->
  Forall is_byte p ->
  len p <= 8191 ->
  extractHiddenData (pre ++ hiddenBlock p ++ post) = Some p.
Proof.
  intros Hpre Hp Hlen.
  pose proof (length_toBinary p Hp) as HlenD.
  pose proof (len_nonneg p) as Hp0.
  unfold hiddenBlock. rewrite <- !app_assoc.
  rewrite extractHiddenData_frame; try assumption.
  - f_equal. rewrite (toBinary_bytes p Hp). apply bitsToChars_toBinary; [assumption|].
    rewrite <- (toBinary_bytes p Hp). unfold len in HlenD. lia.
  - apply padStart_bits. apply len_nonneg.
  - now apply toBinary_bits.
  - apply length_padStart, length_toString2; [|lia].
    change (2 ^ Z.of_nat 16) with 65536. lia.
  - apply parseInt2_padStart, len_nonneg.
Qed.

Lemma insertPosition_bounds (text : jsstring) :
  text <> [] ->
  Z.min 10 (len text - 1) <= insertPosition text <= Z.min 19 (len text - 1).
Proof.
  intros Ht. unfold insertPosition.
  assert (0 < len text) by (destruct text; [congruence|unfold len; cbn; lia]).
  pose proof (Z.mod_pos_bound (Z.of_nat (List.length (split text (lit " ")))) 10).
  lia.
Qed.

Lemma slice_firstn (s : jsstring) (k : Z) :
  0 <= k <= len s -> slice s 0 k = firstn (Z.to_nat k) s.
Proof.
  intros Hk. unfold slice, sub, rel_index.
  rewrite Z.ltb_irrefl.
  replace (k <? 0) with false by (symmetry; apply Z.ltb_ge; lia).
  replace (Z.min 0 (len s)) with 0 by lia.
  replace (Z.min k (len s)) with k by lia.
  rewrite Z.sub_0_r. reflexivity.
Qed.

Lemma slice_from_skipn (s : jsstring) (k : Z) :
  0 <= k <= len s -> slice_from s k = skipn (Z.to_nat k) s.
Proof.
  intros Hk. unfold slice_from, sub, rel_index.
  replace (k <? 0) with false by (symmetry; apply Z.ltb_ge; lia).
  replace (Z.min k (len s)) with k by lia.
  apply firstn_all2. rewrite length_skipn. unfold len in *. lia.
Qed.

Lemma hideDataInText_at_position (text dataToHide : jsstring) :
  text <> [] ->
  hideDataInText text dataToHide
  = firstn (Z.to_nat (insertPosition text)) text
      ++ hiddenBlock dataToHide
      ++ skipn (Z.to_nat (insertPosition text)) text.
Proof.
  intros Ht. pose proof (insertPosition_bounds text Ht) as Hk.
  assert (0 < len text) by (destruct text; [congruence|unfold len; cbn; lia]).
  unfold hideDataInText. cbv zeta.
  rewrite slice_firstn, slice_from_skipn by lia. reflexivity.
Qed.

Lemma len_hiddenBlock (p : jsstring) :
  Forall is_byte p -> len p <= 8191 -> len (hiddenBlock p) = 22 + 8 * len p.
Proof.
  intros Hp Hlen. pose proof (len_nonneg p) as Hp0.
  pose proof (length_toBinary p Hp) as HlenD.
  unfold hiddenBlock. rewrite !len_app, !len_toZeroWidth, HlenD.
  destruct (header_length (8 * len p)) as [H16 _]; [lia|].
  rewrite H16 by lia. change (len (repeat ZWJ 3)) with 3. lia.
Qed.

(** The number of pieces [split] makes at spaces. *)
Lemma split_go_space_count (s cur : jsstring) :
  List.length (split_go (lit " ") s cur O) = S (count_occ Z.eq_dec s 32).
Proof.
  revert cur. induction s as [|c s IH]; intros cur; [reflexivity|].
  cbn [split_go]. change (lit " ") with [32]. cbn [prefixb List.length Nat.sub].
  rewrite andb_true_r.
  cbn [count_occ]. destruct (Z.eq_dec c 32) as [->|Hc].
  - change (32 =? 32) with true. cbv iota. cbn [List.length].
    change [32] with (lit " "). now rewrite IH.
  - replace (32 =? c) with false by (symmetry; apply Z.eqb_neq; congruence).
    change [32] with (lit " "). now rewrite IH.
Qed.

Lemma count_occ_absent (s : jsstring) (c : Z) :
  Forall (fun x => x <> c) s -> count_occ Z.eq_dec s c = 0%nat.
Proof.
  intros H. apply count_occ_not_In. intros Hin.
  rewrite Forall_forall in H. now apply (H c Hin).
Qed.

Lemma hiddenBlock_no_space (d : jsstring) :
  Forall (fun x => x <> 32) (hiddenBlock d).
Proof.
  eapply Forall_impl; [|apply hiddenBlock_zero_width].
  intros c Hc ->. discriminate Hc.
Qed.

(** Inserting the frame leaves the number of words, and so the position
    the next insertion computes, as it is. *)
Lemma insertPosition_after_insertion (text d : jsstring) :
  20 <= len text ->
  insertPosition (hideDataInText text d) = insertPosition text.
Proof.
  intros Hlen.
  assert (Ht : text <> []) by (intros ->; unfold len in Hlen; cbn in Hlen; lia).
  destruct (hideDataInText_shape text d) as (pre & post & Hsplit & Hout).
  assert (Hw : List.length (split (hideDataInText text d) (lit " "))
               = List.length (split text (lit " "))).
  { unfold split. change (lit " ") with [32]. cbv iota. change [32] with (lit " ").
    rewrite !split_go_space_count, Hout, Hsplit, !count_occ_app.
    now rewrite (count_occ_absent _ _ (hiddenBlock_no_space d)). }
  unfold insertPosition. rewrite Hw.
  pose proof (Z.mod_pos_bound (Z.of_nat (List.length (split text (lit " ")))) 10).
  assert (len text <= len (hideDataInText text d)).
  { rewrite Hout, Hsplit, !len_app. pose proof (len_nonneg (hiddenBlock d)). lia. }
  lia.
Qed.

End ZeroWidthFurther.

(** X1.  A text without U+200D holds no frame: the zero-width decoder returns
    [null]. *)
Theorem extractHiddenData_without_joiner (text : jsstring) :
  Forall (fun c => c <> 8205) text -> extractHiddenData text = None.
Proof.
  intros H. unfold extractHiddenData.
  change (repeat ZWJ 3) with [8205; 8205; 8205].
  now rewrite (indexOf_absent 8205 [8205; 8205] text H).
Qed.

(** The text of scenario A holds no frame. *)
Lemma extractHiddenData_without_joiner_witness :
  extractHiddenData scenarioA_text = None.
Proof.
  apply extractHiddenData_without_joiner.
  apply no_joiner_check. vm_compute. reflexivity.
Defined.

(** X2.  Deleting the zero-width characters of any text, encoded or not, leaves
    nothing for the zero-width decoder to read. *)
Theorem stripping_silences_zero_width_channel (text : jsstring) :
  extractHiddenData (stripZeroWidth text) = None.
Proof.
  unfold extractHiddenData. change (repeat ZWJ 3) with [8205; 8205; 8205].
  now rewrite (indexOf_absent 8205 [8205; 8205] _ (stripZeroWidth_no_joiner text)).
Qed.

(** X3.  The decoder reads the first frame of a text.  A frame that holds a
    payload of at most 8191 bytes is read back whatever precedes it, as
    long as that has no U+200D, and whatever follows it. *)
Theorem extractHiddenData_reads_first_frame (pre post p : jsstring) :
  Forall (fun c => c <> 8205) pre ->
  Forall is_byte p ->
  len p <= 8191 ->
  extractHiddenData (pre ++ hiddenBlock p ++ post) = Some p.
Proof. apply extractHiddenData_hiddenBlock. Qed.

(** The frame of 'hi' between a line of text and a second frame. *)
Lemma extractHiddenData_reads_first_frame_witness :
  extractHiddenData
    (lit "An edited opening line. " ++ hiddenBlock (lit "hi")
       ++ lit " and a tail " ++ hiddenBlock (lit "no"))
  = Some (lit "hi").
Proof.
  apply extractHiddenData_reads_first_frame.
  - apply no_joiner_check. vm_compute. reflexivity.
  - apply bytes_check. vm_compute. reflexivity.
  - apply Z.leb_le. vm_compute. reflexivity.
Defined.

(** X4.  The frame goes in at an index between 10 and 19, or before the last
    character of a text too short for that; the text around it is kept as
    it is. *)
Theorem hideDataInText_position (text dataToHide : jsstring) :
  text <> [] ->
  exists k,
    Z.min 10 (len text - 1) <= k <= Z.min 19 (len text - 1) /\
    hideDataInText text dataToHide
    = firstn (Z.to_nat k) text ++ hiddenBlock dataToHide ++ skipn (Z.to_nat k) text.
Proof.
  intros Ht. exists (insertPosition text).
  split; [now apply insertPosition_bounds|now apply hideDataInText_at_position].
Qed.

(** In the text of scenario A the frame starts within the first twenty
    characters. *)
Lemma hideDataInText_position_witness :
  exists k,
    Z.min 10 (len scenarioA_text - 1) <= k <= Z.min 19 (len scenarioA_text - 1) /\
    hideDataInText scenarioA_text (lit "hi")
    = firstn (Z.to_nat k) scenarioA_text ++ hiddenBlock (lit "hi")
        ++ skipn (Z.to_nat k) scenarioA_text.
Proof.
  apply hideDataInText_position. unfold scenarioA_text. vm_compute. discriminate.
Defined.

(** X5.  The cost of the channel: a payload of [n] bytes, [n] at most 8191,
    lengthens the text by [22 + 8 n] code units. *)
Theorem hideDataInText_overhead (text p : jsstring) :
  Forall is_byte p ->
  len p <= 8191 ->
  len (hideDataInText text p) = len text + 22 + 8 * len p.
Proof.
  intros Hp Hlen.
  destruct (hideDataInText_shape text p) as (pre & post & -> & ->).
  rewrite !len_app, (len_hiddenBlock p Hp Hlen). lia.
Qed.

(** Two bytes cost 38 code units. *)
Lemma hideDataInText_overhead_witness :
  len (hideDataInText scenarioA_text (lit "hi")) = len scenarioA_text + 22 + 8 * 2.
Proof.
  apply (hideDataInText_overhead scenarioA_text (lit "hi")).
  - apply bytes_check. vm_compute. reflexivity.
  - apply Z.leb_le. vm_compute. reflexivity.
Defined.

(** X6.  Encoding a second payload into an encoded text of at least 20
    characters puts the new frame in front of the old one: the decoder
    then returns the second payload, and the first is out of its reach. *)
Theorem second_payload_shadows_first (text p1 p2 : jsstring) :
  Forall (fun c => c <> 8205) text ->
  20 <= len text ->
  Forall is_byte p2 ->
  len p2 <= 8191 ->
  extractHiddenData (hideDataInText (hideDataInText text p1) p2) = Some p2.
Proof.
  intros Htext Hlen Hp2 Hlen2.
  assert (Ht : text <> []) by (intros ->; unfold len in Hlen; cbn in Hlen; lia).
  pose proof (insertPosition_bounds text Ht) as Hk.
  set (k := Z.to_nat (insertPosition text)).
  assert (Hk' : (k <= List.length text)%nat) by (unfold k, len in *; lia).
  assert (H1 : hideDataInText text p1
               = firstn k text ++ hiddenBlock p1 ++ skipn k text)
    by now apply hideDataInText_at_position.
  assert (Ht1 : hideDataInText text p1 <> []).
  { rewrite H1. intros E. apply (f_equal (@List.length Z)) in E.
    rewrite !length_app in E. unfold hiddenBlock in E. rewrite length_app in E.
    cbn in E. lia. }
  rewrite (hideDataInText_at_position _ p2 Ht1).
  rewrite (insertPosition_after_insertion text p1 Hlen). fold k.
  rewrite H1 at 1 2.
  rewrite firstn_app, length_firstn, Nat.min_l by exact Hk'.
  rewrite Nat.sub_diag. cbn [firstn]. rewrite app_nil_r.
  rewrite firstn_firstn, Nat.min_id.
  apply extractHiddenData_hiddenBlock; try assumption.
  rewrite <- (firstn_skipn k text) in Htext. now apply Forall_app in Htext.
Qed.

(** 'no' written over 'hi' in the text of scenario A. *)
Lemma second_payload_shadows_first_witness :
  extractHiddenData
    (hideDataInText (hideDataInText scenarioA_text (lit "hi")) (lit "no"))
  = Some (lit "no").
Proof.
  apply second_payload_shadows_first.
  - apply no_joiner_check. vm_compute. reflexivity.
  - apply Z.leb_le. vm_compute. reflexivity.
  - apply bytes_check. vm_compute. reflexivity.
  - apply Z.leb_le. vm_compute. reflexivity.
Defined.

Section WideCharacters.

Lemma bitsToChars_two_groups (D : jsstring) :
  (8 < List.length D <= 16)%nat ->
  exists a b, bitsToChars (List.length D) D = [a; b].
Proof.
  intros HD.
  destruct (List.length D) as [|[|fuel]] eqn:E; try lia.
  cbn [bitsToChars]. destruct D as [|x D']; [cbn in E; lia|].
  remember (x :: D') as D eqn:ED.
  assert (Hs : List.length (skipn 8 D) = (S (S fuel) - 8)%nat)
    by (rewrite length_skipn; lia).
  destruct (skipn 8 D) as [|y T] eqn:ES; [cbn in Hs; lia|].
  assert (Hlast : bitsToChars fuel (skipn 8 (y :: T)) = []).
  { assert (Hz : skipn 8 (y :: T) = []) by (apply skipn_all2; lia).
    rewrite Hz. destruct fuel; reflexivity. }
  rewrite Hlast, app_nil_r.
  assert (H1 : forall v, exists a, fromCharCode v = [a]) by (intros [v|]; now eexists).
  destruct (H1 (parseInt2 (firstn 8 D))) as [a ->].
  destruct (H1 (parseInt2 (firstn 8 (y :: T)))) as [b ->].
  now exists a, b.
Qed.

End WideCharacters.

(** X7.  A character outside Latin-1 does not pass through the zero-width
    channel: its code has more than eight binary digits, the decoder cuts
    them into groups of eight, and a payload of the one character comes
    back as two. *)
Theorem wide_character_does_not_round_trip (text : jsstring) (c : Z) :
  Forall (fun x => x <> 8205) text ->
  256 <= c < 65536 ->
  exists a b, extractHiddenData (hideDataInText text [c]) = Some [a; b].
Proof.
  intros Htext Hc.
  destruct (hideDataInText_shape text [c]) as (pre & post & Ht & ->).
  assert (Hpre : Forall (fun x => x <> 8205) pre).
  { rewrite Ht in Htext. now apply Forall_app in Htext. }
  destruct c as [|q|q]; try lia.
  assert (Hlo : (8 < List.length (pos_digits2 q))%nat).
  { apply length_pos_digits2_lower. change (2 ^ Z.of_nat 8) with 256. lia. }
  assert (Hhi : (List.length (pos_digits2 q) <= 16)%nat).
  { apply length_pos_digits2. change (2 ^ Z.of_nat 16) with 65536. lia. }
  assert (HB : toBinary [Zpos q] = pos_digits2 q).
  { unfold toBinary, join. cbn [arrayFrom map List.concat charCodeAt0 hd toString2].
    unfold padStart. replace (8 - List.length (pos_digits2 q))%nat with 0%nat by lia.
    cbn [List.repeat app]. apply app_nil_r. }
  unfold hiddenBlock. rewrite HB, <- !app_assoc.
  rewrite extractHiddenData_frame; try assumption.
  - destruct (bitsToChars_two_groups (pos_digits2 q)) as (a & b & E); [lia|].
    exists a, b. now rewrite E.
  - apply padStart_bits, len_nonneg.
  - apply pos_digits2_bits.
  - apply length_padStart, length_toString2; [|lia].
    change (2 ^ Z.of_nat 16) with 65536. unfold len. lia.
  - apply parseInt2_padStart, len_nonneg.
Qed.

(** The euro sign, U+20AC, in the text of scenario A. *)
Lemma wide_character_does_not_round_trip_witness :
  exists a b,
    extractHiddenData (hideDataInText scenarioA_text [8364]) = Some [a; b].
Proof.
  apply wide_character_does_not_round_trip.
  - apply no_joiner_check. vm_compute. reflexivity.
  - lia.
Defined.

(** ** The decoding tail shared by the stylometric and the structural decoder *)

Section SharedTail.

Lemma substring_prefix (a b : jsstring) : substring (a ++ b) 0 (len a) = a.
Proof.
  pose proof (len_nonneg a). pose proof (len_nonneg b).
  unfold substring, clamp. rewrite len_app.
  replace (Z.min (Z.max 0 0) (len a + len b)) with 0 by lia.
  replace (Z.min (Z.max (len a) 0) (len a + len b)) with (len a) by lia.
  rewrite Z.min_l, Z.max_r by lia. apply sub_prefix.
Qed.

Lemma substring_middle (a b c : jsstring) :
  substring (a ++ b ++ c) (len a) (len a + len b) = b.
Proof.
  pose proof (len_nonneg a). pose proof (len_nonneg b). pose proof (len_nonneg c).
  unfold substring, clamp. rewrite !len_app.
  replace (Z.min (Z.max (len a) 0) (len a + (len b + len c))) with (len a) by lia.
  replace (Z.min (Z.max (len a + len b) 0) (len a + (len b + len c)))
    with (len a + len b) by lia.
  rewrite Z.min_l, Z.max_r by lia. apply sub_middle.
Qed.

(** Regrouping the digits of a byte string by eight gives the bytes back. *)
Lemma fullBytesToChars_toBinary (p : jsstring) (fuel : nat) :
  Forall is_byte p -> (List.length p <= fuel)%nat ->
  fullBytesToChars fuel (List.concat (map byteDigits p)) = p.
Proof.
  intros H. revert fuel. induction H as [|c p Hc _ IH]; intros fuel Hf.
  - destruct fuel; reflexivity.
  - destruct fuel as [|fuel]; [cbn in Hf; lia|].
    cbn [map List.concat]. pose proof (length_byteDigits c Hc) as H8.
    cbn [fullBytesToChars].
    destruct (byteDigits c ++ List.concat (map byteDigits p)) as [|x r] eqn:E.
    + apply (f_equal (@List.length Z)) in E. rewrite length_app, H8 in E.
      cbn in E. lia.
    + rewrite <- E, (firstn_exact 8 _ _ H8), (skipn_exact 8 _ _ H8), H8.
      cbn [Nat.eqb]. rewrite (parseInt2_byteDigits c Hc), IH by (cbn in Hf; lia).
      cbn [fromCharCode app]. unfold is_byte in Hc.
      rewrite Z.mod_small by lia. reflexivity.
Qed.

(** Every full group of eight gives one character, a shorter last group
    none. *)
Lemma len_fullBytesToChars (fuel : nat) :
  forall dataBits : jsstring,
    (List.length dataBits <= fuel)%nat ->
    len (fullBytesToChars fuel dataBits) = len dataBits / 8.
Proof.
  induction fuel as [|fuel IH]; intros dataBits Hf.
  - destruct dataBits; [reflexivity|cbn in Hf; lia].
  - cbn [fullBytesToChars]. destruct dataBits as [|x r] eqn:E; [reflexivity|].
    rewrite <- E in *. assert (Hne : (0 < List.length dataBits)%nat) by (subst; cbn; lia).
    clear E x r.
    rewrite len_app, IH by (rewrite length_skipn; lia).
    unfold len. rewrite length_skipn, length_firstn.
    destruct (Nat.le_gt_cases 8 (List.length dataBits)) as [Hge|Hlt].
    + rewrite Nat.min_l by exact Hge. cbn [Nat.eqb].
      assert (H1 : forall n, List.length (fromCharCode n) = 1%nat) by (now intros [v|]).
      rewrite H1.
      replace (Z.of_nat (List.length dataBits))
        with (Z.of_nat (List.length dataBits - 8) + 1 * 8) by lia.
      rewrite Z.div_add by lia. lia.
    + rewrite Nat.min_r by lia.
      replace (Nat.eqb (List.length dataBits) 8) with false
        by (symmetry; apply Nat.eqb_neq; lia).
      replace (List.length dataBits - 8)%nat with 0%nat by lia.
      cbn [List.length]. rewrite Z.div_small by lia.
      rewrite Z.div_small by lia. reflexivity.
Qed.

Lemma parse_digits2_nonneg (s : jsstring) :
  forall acc seen n, 0 <= acc -> parse_digits2 s acc seen = Some n -> 0 <= n.
Proof.
  induction s as [|c s IH]; intros acc seen n Hacc; cbn [parse_digits2].
  - destruct seen; [intros [= <-]; exact Hacc|discriminate].
  - destruct (c =? 48); [apply IH; lia|].
    destruct (c =? 49); [apply IH; lia|].
    destruct seen; [intros [= <-]; exact Hacc|discriminate].
Qed.

Lemma len_substring_le (s : jsstring) (a b : Z) :
  0 <= a <= b -> len (substring s a b) <= b - a.
Proof.
  intros Hab. unfold substring, sub, clamp, len.
  rewrite length_firstn. lia.
Qed.

(** What the tail returns is never longer than the bits it was given
    allow: eight bits after the header for every character. *)
Lemma len_decodeExtractedBits (extractedBits p : jsstring) :
  decodeExtractedBits extractedBits = Some p ->
  8 * len p <= len extractedBits - 16.
Proof.
  unfold decodeExtractedBits.
  destruct (parseInt2 (substring extractedBits 0 16)) as [L|] eqn:EL; [|discriminate].
  destruct (Z.ltb_spec (len extractedBits) (16 + L)) as [|Hge]; [discriminate|].
  intros E.
  assert (Hp : fullBytesToChars
                 (List.length (substring extractedBits 16 (16 + L)))
                 (substring extractedBits 16 (16 + L)) = p) by congruence.
  rewrite <- Hp, len_fullBytesToChars by lia.
  apply (parse_digits2_nonneg _ 0 false L) in EL; [|lia].
  pose proof (len_substring_le extractedBits 16 (16 + L)).
  pose proof (len_nonneg (substring extractedBits 16 (16 + L))).
  pose proof (Z.mul_div_le (len (substring extractedBits 16 (16 + L))) 8).
  lia.
Qed.

End SharedTail.

(** X8.  The tail of the stylometric and of the structural decoder recovers a
    payload of at most 8191 bytes from any bit string that starts with the
    16-bit header and the bits of the payload; what follows them is not
    read. *)
Theorem decodeExtractedBits_round_trip (p rest : jsstring) :
  Forall is_byte p ->
  len p <= 8191 ->
  decodeExtractedBits
    (padStart (toString2 (len (toBinary p))) 16 48 ++ toBinary p ++ rest)
  = Some p.
Proof.
  intros Hp Hlen.
  pose proof (len_nonneg p) as Hp0. pose proof (len_nonneg rest) as Hr0.
  pose proof (length_toBinary p Hp) as HlenD.
  set (header := padStart (toString2 (len (toBinary p))) 16 48).
  assert (H16 : len header = 16).
  { apply header_length; lia. }
  unfold decodeExtractedBits.
  rewrite <- H16 at 1. rewrite substring_prefix.
  unfold header at 1. rewrite parseInt2_padStart by apply len_nonneg.
  rewrite !len_app, H16.
  replace (16 + (len (toBinary p) + len rest) <? 16 + len (toBinary p)) with false
    by (symmetry; apply Z.ltb_ge; lia).
  rewrite <- H16. rewrite substring_middle.
  f_equal. rewrite (toBinary_bytes p Hp). apply fullBytesToChars_toBinary; [assumption|].
  rewrite <- (toBinary_bytes p Hp). unfold len in HlenD. lia.
Qed.

(** The bits of 'hi' followed by three more. *)
Lemma decodeExtractedBits_round_trip_witness :
  decodeExtractedBits
    (padStart (toString2 (len (toBinary (lit "hi")))) 16 48
       ++ toBinary (lit "hi") ++ lit "101")
  = Some (lit "hi").
Proof.
  apply decodeExtractedBits_round_trip.
  - apply bytes_check. vm_compute. reflexivity.
  - apply Z.leb_le. vm_compute. reflexivity.
Defined.

(** ** Paragraphs of the stylometric encoder *)

Section Paragraphs.

Lemma split_go_absent (sep s cur : jsstring) (i : Z) :
  0 <= i -> find_from sep s i = -1 -> split_go sep s cur O = [rev cur ++ s].
Proof.
  revert cur i. induction s as [|c s IH]; intros cur i Hi; cbn [find_from split_go].
  - intros _. now rewrite app_nil_r.
  - destruct (prefixb sep (c :: s)); [lia|]. intros H.
    rewrite (IH (c :: cur) (i + 1)) by (lia || exact H).
    cbn [rev]. now rewrite <- app_assoc.
Qed.

(** A text without the separator is one piece. *)
Lemma split_absent (s sep : jsstring) :
  includes s sep = false -> split s sep = [s].
Proof.
  intros H. unfold includes, indexOf in H.
  replace (clamp (len s) 0) with 0 in H
    by (pose proof (len_nonneg s); unfold clamp; lia).
  cbn [Z.to_nat skipn] in H. apply negb_false_iff, Z.eqb_eq in H.
  unfold split. destruct sep as [|c sep].
  - destruct s; cbn in H; discriminate H.
  - now rewrite (split_go_absent (c :: sep) s [] 0) by (lia || exact H).
Qed.

(** Two pieces around the first blank line. *)
Lemma split_two_paragraphs (a b : jsstring) :
  Forall (fun c => c <> 10) a -> Forall (fun c => c <> 10) b ->
  split (a ++ StylometricEncoder.newlines ++ b) StylometricEncoder.newlines = [a; b].
Proof.
  intros Ha Hb. unfold split, StylometricEncoder.newlines.
  assert (H : forall cur, split_go [10; 10] (a ++ [10; 10] ++ b) cur O
                          = [rev cur ++ a; b]).
  { induction Ha as [|x a Hx _ IH]; intros cur.
    - cbn [app split_go prefixb List.length Nat.sub]. change (10 =? 10) with true.
      cbn [andb]. rewrite app_nil_r. f_equal.
      rewrite (split_go_absent [10; 10] b [] 0); [reflexivity|lia|].
      now apply find_from_absent.
    - cbn [app split_go prefixb].
      replace (10 =? x) with false by (symmetry; apply Z.eqb_neq; congruence).
      cbn [andb]. rewrite IH. cbn [rev]. now rewrite <- app_assoc. }
  apply (H []).
Qed.

Lemma runM_ret {A} (a : A) (draws : nat -> Q) : runM (ret a) draws = Ok a.
Proof. reflexivity. Qed.

Lemma hideDataStylometrically_one_paragraph (text d : jsstring) (draws : nat -> Q) :
  includes text StylometricEncoder.newlines = false ->
  runM (hideDataStylometrically text d) draws
  = Throw "Text needs multiple paragraphs for stylometric encoding".
Proof.
  intros H. unfold hideDataStylometrically. cbv zeta.
  rewrite (split_absent text StylometricEncoder.newlines H). reflexivity.
Qed.

(** The loop places a bit in every eligible sentence until the bits or the
    sentences run out. *)
Lemma encodeSentences_bitIndex (sentences : list jsstring) :
  forall (bits encodedText : jsstring) (bitIndex : nat) (draws : nat -> Q) (n : nat),
  exists out n',
    encodeSentences sentences bits encodedText bitIndex draws n
    = Ok ((out,
           (bitIndex
            + Nat.min (List.length
                         (filter (fun s => negb (tooShort (RegExp.trim s))) sentences))
                      (List.length bits))%nat), n').
Proof.
  induction sentences as [|s rest IH]; intros bits encodedText bitIndex draws n;
    cbn [encodeSentences filter].
  - exists encodedText, n. cbn. now rewrite Nat.add_0_r.
  - destruct bits as [|bit bits'].
    + exists encodedText, n. unfold ret. now rewrite Nat.min_0_r, Nat.add_0_r.
    + destruct (tooShort (RegExp.trim s)) eqn:Es; cbn [negb].
      * apply IH.
      * unfold bind at 1.
        assert (Ht : total (if eqs [bit] (lit "0") then encodeZero (RegExp.trim s)
                            else encodeOne (RegExp.trim s)))
          by (apply total_if; [apply total_encodeZero|apply total_encodeOne]).
        destruct (Ht draws n) as (modified & n1 & E). rewrite E.
        destruct (IH bits' (encodedText ++ modified ++ StylometricEncoder.space)
                    (S bitIndex) draws n1) as (out & n' & E').
        exists out, n'. rewrite E'. cbn [List.length]. do 3 f_equal.
        rewrite <- Nat.succ_min_distr. lia.
Qed.

End Paragraphs.

(** X9.  A text without a blank line is refused by the stylometric encoder,
    whatever the payload. *)
Theorem hideDataStylometrically_needs_blank_line
        (text dataToEncode : jsstring) (draws : nat -> Q) :
  includes text StylometricEncoder.newlines = false ->
  runM (hideDataStylometrically text dataToEncode) draws
  = Throw "Text needs multiple paragraphs for stylometric encoding".
Proof. apply hideDataStylometrically_one_paragraph. Qed.

(** The text of scenario A is one paragraph. *)
Lemma hideDataStylometrically_needs_blank_line_witness :
  runM (hideDataStylometrically scenarioA_text (lit "hi")) sampleDraws
  = Throw "Text needs multiple paragraphs for stylometric encoding".
Proof.
  apply hideDataStylometrically_needs_blank_line. vm_compute. reflexivity.
Defined.

(** X10.  A text of exactly two paragraphs is accepted, and nothing is embedded:
    the output is the marker, the first paragraph and a blank line, whatever
    the payload and the draws.  The second paragraph is not in it. *)
Theorem hideDataStylometrically_two_paragraphs
        (first second dataToEncode : jsstring) (draws : nat -> Q) :
  Forall (fun c => c <> 10) first ->
  Forall (fun c => c <> 10) second ->
  0 < len (RegExp.trim first) ->
  runM (hideDataStylometrically (first ++ StylometricEncoder.newlines ++ second) dataToEncode) draws
  = Ok (markerText ++ first ++ StylometricEncoder.newlines).
Proof.
  intros H1 H2 Hne. unfold hideDataStylometrically. cbv zeta.
  rewrite (split_two_paragraphs first second H1 H2).
  cbn [List.length Nat.ltb Nat.leb nth Nat.sub skipn firstn encodeFirstMiddle].
  apply Z.ltb_lt in Hne. rewrite Hne.
  unfold remainingParagraphs. cbn [skipn joinWith].
  unfold runM, bind, ret. now rewrite !app_nil_r.
Qed.

(** Two paragraphs of one sentence each. *)
Lemma hideDataStylometrically_two_paragraphs_witness :
  runM (hideDataStylometrically
          (lit "The report is ready." ++ StylometricEncoder.newlines ++ lit "Please read it today.")
          (lit "hi")) sampleDraws
  = Ok (markerText ++ lit "The report is ready." ++ StylometricEncoder.newlines).
Proof.
  apply hideDataStylometrically_two_paragraphs.
  - apply Forall_forall. intros c Hc.
    assert (Hb : forallb (fun c => negb (c =? 10)) (lit "The report is ready.") = true)
      by (vm_compute; reflexivity).
    rewrite forallb_forall in Hb. specialize (Hb c Hc).
    apply negb_true_iff, Z.eqb_neq in Hb. exact Hb.
  - apply Forall_forall. intros c Hc.
    assert (Hb : forallb (fun c => negb (c =? 10)) (lit "Please read it today.") = true)
      by (vm_compute; reflexivity).
    rewrite forallb_forall in Hb. specialize (Hb c Hc).
    apply negb_true_iff, Z.eqb_neq in Hb. exact Hb.
  - apply Z.ltb_lt. vm_compute. reflexivity.
Defined.

(** X11.  The number of bits [encodeStylometricBits] places is the number of
    eligible sentences or the number of bits, whichever is smaller,
    whatever [Math.random] returns: bits beyond the eligible sentences are
    left out without an error. *)
Theorem encodeSentences_places_what_fits
        (text bitsToEncode : jsstring) (draws : nat -> Q) :
  exists encodedText,
    runM (encodeSentences (RegExp.matchAll RegExp.sentenceRe text) bitsToEncode [] O)
         draws
    = Ok (encodedText,
          Nat.min (eligibleSentences text) (List.length bitsToEncode)).
Proof.
  destruct (encodeSentences_bitIndex (RegExp.matchAll RegExp.sentenceRe text)
              bitsToEncode [] O draws O) as (out & n' & E).
  exists out. unfold runM. rewrite E. reflexivity.
Qed.

(** ** Sentences of the stylometric encoder, read back *)

Section SentenceReadBack.

Local Open Scope effects_scope.

Lemma endsWith_snoc (s : jsstring) (c d : Z) : endsWith (s ++ [d]) [c] = (c =? d).
Proof.
  unfold endsWith. rewrite rev_app_distr. cbn [rev app prefixb].
  apply andb_true_r.
Qed.

Lemma endsWith_app (x y : jsstring) (c : Z) :
  endsWith (x ++ y) [c]
  = match y with [] => endsWith x [c] | _ => endsWith y [c] end.
Proof.
  destruct y as [|d y _] using rev_ind; [now rewrite app_nil_r|].
  rewrite app_assoc, !endsWith_snoc. destruct (y ++ [d]) eqn:E; [|reflexivity].
  now destruct y.
Qed.

Lemma last_app_nonempty (a b : list jsstring) :
  b <> [] -> last (a ++ b) [] = last b [].
Proof.
  intros Hb. induction a as [|x a IH]; [reflexivity|].
  cbn [app]. destruct (a ++ b) eqn:E.
  - destruct a; [now elim Hb|discriminate].
  - rewrite <- IH. reflexivity.
Qed.

Lemma split_go_nonempty (sep s : jsstring) :
  forall cur skip, split_go sep s cur skip <> [].
Proof.
  induction s as [|x s IH]; intros cur skip; cbn [split_go]; [discriminate|].
  destruct skip; [|apply IH]. destruct (prefixb sep (x :: s)); [discriminate|apply IH].
Qed.

(** The last piece of a split at spaces ends as the text does. *)
Lemma split_go_last (c : Z) (s : jsstring) :
  c <> 32 ->
  forall cur,
    endsWith (last (split_go (lit " ") s cur O) []) [c]
    = endsWith (rev cur ++ s) [c].
Proof.
  intros Hc. induction s as [|x s IH]; intros cur.
  - cbn [split_go last]. now rewrite app_nil_r.
  - cbn [split_go]. change (lit " ") with [32]. cbn [prefixb List.length Nat.sub].
    rewrite andb_true_r. destruct (Z.eqb_spec 32 x) as [<-|Hx].
    + change [32] with (lit " ").
      pose proof (split_go_nonempty (lit " ") s [] O) as Hne.
      change (rev cur :: split_go (lit " ") s [] O)
        with ([rev cur] ++ split_go (lit " ") s [] O).
      rewrite (last_app_nonempty _ _ Hne), IH. cbn [rev app].
      rewrite (endsWith_app (rev cur) (32 :: s)).
      change (32 :: s) with ([32] ++ s). rewrite (endsWith_app [32] s).
      destruct s; [|reflexivity].
      change (endsWith [] [c]) with false. unfold endsWith. cbn.
      symmetry. rewrite andb_true_r. apply Z.eqb_neq. exact Hc.
    + change [32] with (lit " "). rewrite IH. cbn [rev]. now rewrite <- app_assoc.
Qed.

Lemma joinWith_cons (sep p q : jsstring) (rest : list jsstring) :
  StylometricEncoder.joinWith sep (p :: q :: rest)
  = p ++ sep ++ StylometricEncoder.joinWith sep (q :: rest).
Proof. cbn [StylometricEncoder.joinWith map List.concat]. now rewrite <- app_assoc. Qed.

(** A text joined with spaces ends as its last piece does. *)
Lemma joinWith_last (c : Z) (l : list jsstring) :
  c <> 32 ->
  endsWith (StylometricEncoder.joinWith (lit " ") l) [c] = endsWith (last l []) [c].
Proof.
  intros Hc. induction l as [|p l IH]; [reflexivity|].
  destruct l as [|q rest].
  - cbn. now rewrite app_nil_r.
  - rewrite joinWith_cons. change (last (p :: q :: rest) []) with (last (q :: rest) []).
    rewrite <- IH. rewrite endsWith_app.
    destruct (lit " " ++ StylometricEncoder.joinWith (lit " ") (q :: rest)) eqn:E;
      [discriminate E|]. rewrite <- E.
    rewrite endsWith_app.
    destruct (StylometricEncoder.joinWith (lit " ") (q :: rest)); [|reflexivity].
    change (endsWith [] [c]) with false. unfold endsWith. cbn.
    rewrite andb_true_r. apply Z.eqb_neq. exact Hc.
Qed.

Lemma spliceIn_last (words : list jsstring) (position : nat) (word : jsstring) :
  (position < List.length words)%nat ->
  last (spliceIn words position word) [] = last words [].
Proof.
  intros Hp. unfold spliceIn.
  assert (Hne : skipn position words <> []).
  { intros E. apply (f_equal (@List.length jsstring)) in E.
    rewrite length_skipn in E. cbn in E. lia. }
  change (word :: skipn position words) with ([word] ++ skipn position words).
  rewrite app_assoc, (last_app_nonempty _ _ Hne).
  rewrite <- (firstn_skipn position words) at 2.
  now rewrite (last_app_nonempty _ _ Hne).
Qed.

(** The index [Math.floor(Math.random() * k)] is below [k]. *)
Lemma randomIndex_below (k : nat) (draws : nat -> Q) (n : nat) :
  unitDraws draws -> (0 < k)%nat ->
  exists i, randomIndex k draws n = Ok (i, S n) /\ (i < k)%nat.
Proof.
  intros Hd Hk. destruct (Hd n) as [H0 H1].
  exists (Z.to_nat (Qfloor (draws n * inject_Z (Z.of_nat k)))).
  split; [reflexivity|].
  assert (Hk' : (0 < inject_Z (Z.of_nat k))%Q).
  { change 0%Q with (inject_Z 0). rewrite <- Zlt_Qlt. lia. }
  assert (Hlo : (0 <= draws n * inject_Z (Z.of_nat k))%Q).
  { apply Qmult_le_0_compat; [exact H0|now apply Qlt_le_weak]. }
  assert (Hhi : (draws n * inject_Z (Z.of_nat k) < inject_Z (Z.of_nat k))%Q).
  { rewrite <- (Qmult_1_l (inject_Z (Z.of_nat k))) at 2.
    now apply Qmult_lt_compat_r. }
  assert (0 <= Qfloor (draws n * inject_Z (Z.of_nat k))).
  { change 0 with (Qfloor 0). now apply Qfloor_resp_le. }
  assert (Qfloor (draws n * inject_Z (Z.of_nat k)) < Z.of_nat k).
  { rewrite Zlt_Qlt. eapply Qle_lt_trans; [apply Qfloor_le|exact Hhi]. }
  lia.
Qed.

Lemma endsSentence_spliced (sentence word : jsstring) (i : nat) :
  (i + 1 < List.length (split sentence StylometricEncoder.space))%nat ->
  endsSentence
    (StylometricEncoder.joinWith StylometricEncoder.space
       (spliceIn (split sentence StylometricEncoder.space) (i + 1) word))
  = endsSentence sentence.
Proof.
  intros Hi. unfold endsSentence.
  change StylometricEncoder.space with (lit " ") in *.
  change (lit ".") with [46]. change (lit "!") with [33]. change (lit "?") with [63].
  rewrite !joinWith_last by lia. rewrite (spliceIn_last _ _ _ Hi).
  unfold split. change (lit " ") with [32]. cbv iota. change [32] with (lit " ").
  rewrite !split_go_last by lia. reflexivity.
Qed.

(** The closing step of the transformation for bit 1. *)
Lemma closing_reads_one (modified : jsstring) (draws : nat -> Q) (n : nat) :
  endsSentence modified = true ->
  exists out n',
    (if endsWith modified (lit ".")
     then above <- randomAbove (1 # 2) ;;
          ret (slice modified 0 (-1) ++ (if above then lit "!" else lit "?"))
     else ret modified) draws n = Ok (out, n') /\
    readBit out = lit "1".
Proof.
  intros He. unfold endsSentence in He.
  destruct (endsWith modified (lit ".")) eqn:Edot.
  - unfold bind, randomAbove, random, ret. cbv beta iota.
    eexists. eexists. split; [reflexivity|].
    unfold readBit. change (lit "!") with [33]. change (lit "?") with [63].
    destruct (negb (Qle_bool (draws n) (1 # 2))); rewrite !endsWith_snoc;
      reflexivity.
  - exists modified, n. split; [reflexivity|].
    unfold readBit. cbn [orb] in He.
    destruct (endsWith modified (lit "!") || endsWith modified (lit "?"));
      [reflexivity|discriminate He].
Qed.

End SentenceReadBack.

(** X13.  A sentence transformed for bit 1 is read back as 1, whatever
    [Math.random] returns: the adverb never goes after the last word, and
    the sentence ends with an exclamation or a question mark. *)
Theorem encodeOne_reads_one (sentence : jsstring) (draws : nat -> Q) (n : nat) :
  unitDraws draws ->
  tooShort sentence = false ->
  endsSentence sentence = true ->
  exists modified n',
    encodeOne sentence draws n = Ok (modified, n') /\
    readBit modified = lit "1".
Proof.
  intros Hd Hlong Hend. unfold encodeOne.
  unfold bind at 1. unfold randomAbove at 1. unfold bind at 1, random at 1, ret at 1.
  cbv beta iota.
  destruct (negb (Qle_bool (draws n) (7 # 10))).
  - unfold bind at 1. unfold bind at 1.
    assert (Hw : (0 < List.length (split sentence StylometricEncoder.space) - 1)%nat).
    { unfold tooShort in Hlong. apply Nat.ltb_ge in Hlong. lia. }
    destruct (randomIndex_below _ draws (S n) Hd Hw) as (i & Ei & Hi).
    rewrite Ei. unfold bind at 1.
    destruct (randomIndex_below (List.length adverbs) draws (S (S n)) Hd)
      as (a & Ea & _); [cbn; lia|].
    rewrite Ea. unfold ret at 1.
    apply closing_reads_one.
    rewrite endsSentence_spliced by lia. exact Hend.
  - unfold bind at 1, ret at 1. now apply closing_reads_one.
Qed.

(** 'The plan is ready.' under the sample draws. *)
Lemma encodeOne_reads_one_witness :
  exists modified n',
    encodeOne (lit "The plan is ready.") sampleDraws O = Ok (modified, n') /\
    readBit modified = lit "1".
Proof.
  apply encodeOne_reads_one.
  - intros k. unfold sampleDraws, Qle, Qlt. cbn [Qnum Qden].
    pose proof (Z.mod_pos_bound (Z.of_nat k * 7) 10). lia.
  - vm_compute. reflexivity.
  - vm_compute. reflexivity.
Defined.

Section SentenceReadBackZero.

Local Open Scope effects_scope.

Lemma endsWith_unit_true (s : jsstring) (c : Z) :
  endsWith s [c] = true -> exists init, s = init ++ [c].
Proof.
  destruct s as [|d s _] using rev_ind; [discriminate|].
  rewrite endsWith_snoc. intros H. apply Z.eqb_eq in H. subst d. now exists s.
Qed.

Lemma slice_drop_last (init : jsstring) (x : Z) : slice (init ++ [x]) 0 (-1) = init.
Proof.
  unfold slice, rel_index. rewrite len_app. change (len [x]) with 1.
  pose proof (len_nonneg init).
  change (0 <? 0) with false. change (-1 <? 0) with true. cbv iota.
  replace (Z.min 0 (len init + 1)) with 0 by lia.
  replace (Z.max (len init + 1 + -1) 0) with (len init) by lia.
  apply sub_prefix.
Qed.

(** Changing the last code unit of a text creates no occurrence of a
    pattern that ends otherwise. *)
Lemma includes_replace_last (init q : jsstring) (x y z : Z) :
  z <> y ->
  includes (init ++ [x]) (q ++ [z]) = false ->
  includes (init ++ [y]) (q ++ [z]) = false.
Proof.
  intros Hz H. rewrite includes_false_iff in H. apply includes_false_iff.
  intros a b Hab. destruct b as [|w b _] using rev_ind.
  - rewrite app_nil_r, app_assoc in Hab. apply app_inj_tail in Hab.
    destruct Hab as [_ E]. congruence.
  - rewrite !app_assoc in Hab. apply app_inj_tail in Hab. destruct Hab as [Hab _].
    apply (H a (b ++ [x])). rewrite Hab, <- !app_assoc. reflexivity.
Qed.

Lemma existsb_false_impl {A} (f g : A -> bool) (l : list A) :
  (forall x, In x l -> f x = false -> g x = false) ->
  existsb f l = false -> existsb g l = false.
Proof.
  induction l as [|x l IH]; intros Hfg; [reflexivity|]. cbn [existsb].
  rewrite !orb_false_iff. intros [Hx Hl]. split.
  - apply Hfg; [now left|exact Hx].
  - apply IH; [|exact Hl]. intros y Hy. apply Hfg. now right.
Qed.

(** Without a listed adverb in the sentence the first step of the
    transformation for bit 0 changes nothing, whatever the draws. *)
Lemma removeAdverbs_unchanged (l : list jsstring) (sentence : jsstring) :
  existsb (fun adverb =>
             includes sentence
               (StylometricEncoder.space ++ adverb ++ StylometricEncoder.space)) l
  = false ->
  forall draws n,
  exists n',
    foldM (fun modified adverb =>
             above <- randomAbove (7 # 10) ;;
             ret (if above
                     && includes modified
                          (StylometricEncoder.space ++ adverb ++ StylometricEncoder.space)
                  then replaceStr modified
                         (StylometricEncoder.space ++ adverb ++ StylometricEncoder.space)
                         StylometricEncoder.space
                  else modified))
          l sentence draws n
    = Ok (sentence, n').
Proof.
  induction l as [|adverb l IH]; intros H draws n; cbn [foldM].
  - now exists n.
  - cbn [existsb] in H. apply orb_false_iff in H. destruct H as [Ha Hl].
    unfold bind at 1. unfold bind at 1. unfold randomAbove, bind, random, ret.
    cbv beta iota. rewrite Ha, andb_false_r. apply (IH Hl).
Qed.

End SentenceReadBackZero.

(** X14.  A sentence without a listed adverb, transformed for bit 0, is read
    back as 0, whatever [Math.random] returns. *)
Theorem encodeZero_reads_zero (sentence : jsstring) (draws : nat -> Q) (n : nat) :
  hasAdverb sentence = false ->
  exists modified n',
    encodeZero sentence draws n = Ok (modified, n') /\
    readBit modified = lit "0".
Proof.
  intros Hadv. unfold encodeZero. unfold bind at 1.
  destruct (removeAdverbs_unchanged adverbs sentence Hadv draws n) as (n' & E).
  rewrite E. unfold ret. eexists. eexists. split; [reflexivity|].
  unfold readBit. fold (hasAdverb sentence).
  change (lit "!") with [33]. change (lit "?") with [63]. change (lit ".") with [46].
  destruct (endsWith sentence [33] || endsWith sentence [63]) eqn:Eend.
  - assert (Hinit : exists init x, sentence = init ++ [x]).
    { apply orb_true_iff in Eend.
      destruct Eend as [H|H]; apply endsWith_unit_true in H; destruct H as [init ->];
        now eexists _, _. }
    destruct Hinit as (init & x & ->). rewrite slice_drop_last, !endsWith_snoc.
    cbn [Z.eqb Pos.eqb orb].
    replace (existsb _ adverbs) with false; [reflexivity|]. symmetry.
    revert Hadv. unfold hasAdverb. apply existsb_false_impl.
    intros adverb _. unfold StylometricEncoder.space. change (lit " ") with [32].
    rewrite !app_assoc. apply includes_replace_last. lia.
  - rewrite Eend. fold (hasAdverb sentence). now rewrite Hadv.
Qed.

(** 'Is the plan ready?' has no adverb of the list. *)
Lemma encodeZero_reads_zero_witness :
  exists modified n',
    encodeZero (lit "Is the plan ready?") sampleDraws O = Ok (modified, n') /\
    readBit modified = lit "0".
Proof.
  apply encodeZero_reads_zero. vm_compute. reflexivity.
Defined.

(** ** Capacity of the stylometric decoder *)

Section StylometricReading.

Lemma len_readBit (sentence : jsstring) : len (readBit sentence) = 1.
Proof. unfold readBit. now destruct (_ || _). Qed.

(** The reading loop adds at most one bit for a sentence. *)
Lemma len_readSentences (sentences : list jsstring) :
  forall extractedBits : jsstring,
    len (readSentences sentences extractedBits)
    <= len extractedBits + Z.of_nat (List.length sentences).
Proof.
  induction sentences as [|s rest IH]; intros extractedBits;
    cbn [readSentences List.length]; [lia|].
  destruct (tooShort (RegExp.trim s)).
  - specialize (IH extractedBits). lia.
  - cbv zeta. destruct (haveAllBits _).
    + rewrite len_app, len_readBit. lia.
    + specialize (IH (extractedBits ++ readBit (RegExp.trim s))).
      rewrite len_app, len_readBit in IH. lia.
Qed.

End StylometricReading.

(** X15.  A text with fewer than 18 sentences holds no payload for the
    stylometric decoder: the first two sentences are passed over, and the
    header alone takes one sentence for each of its 16 bits. *)
Theorem stylometric_decode_needs_18_sentences (text : jsstring) :
  (List.length (RegExp.matchAll RegExp.sentenceRe text) < 18)%nat ->
  extractHiddenStylometricData text = None.
Proof.
  intros Hn. unfold extractHiddenStylometricData, extractStylometricBits.
  destruct (negb (includes text _)); [reflexivity|]. cbv zeta.
  pose proof (len_readSentences
                (skipn 2 (RegExp.matchAll RegExp.sentenceRe text)) []) as H.
  rewrite length_skipn in H. change (len []) with 0 in H.
  replace (len (readSentences (skipn 2 (RegExp.matchAll RegExp.sentenceRe text)) [])
           <? 16) with true; [reflexivity|].
  symmetry. apply Z.ltb_lt. lia.
Qed.

(** The marker and the text of scenario A: four sentences. *)
Lemma stylometric_decode_needs_18_sentences_witness :
  extractHiddenStylometricData (markerText ++ scenarioA_text) = None.
Proof.
  apply stylometric_decode_needs_18_sentences.
  apply Nat.ltb_lt. vm_compute. reflexivity.
Defined.

(** ** The zero-width frame under the stylometric layer *)

Section FrameUnderStylometricLayer.

Local Open Scope effects_scope.

Lemma split_go_first_piece (a b : jsstring) :
  Forall (fun c => c <> 10) a ->
  forall cur,
    split_go [10; 10] (a ++ [10; 10] ++ b) cur O
    = (rev cur ++ a) :: split_go [10; 10] b [] O.
Proof.
  intros Ha. induction Ha as [|x a Hx _ IH]; intros cur.
  - cbn [app split_go prefixb List.length Nat.sub]. change (10 =? 10) with true.
    cbn [andb]. now rewrite app_nil_r.
  - cbn [app split_go prefixb].
    replace (10 =? x) with false by (symmetry; apply Z.eqb_neq; congruence).
    cbn [andb]. rewrite IH. cbn [rev]. now rewrite <- app_assoc.
Qed.

Lemma split_first_paragraph (a b : jsstring) :
  Forall (fun c => c <> 10) a ->
  split (a ++ StylometricEncoder.newlines ++ b) StylometricEncoder.newlines
  = a :: split b StylometricEncoder.newlines.
Proof. intros Ha. apply (split_go_first_piece a b Ha []). Qed.

Lemma split_newlines_nonempty (b : jsstring) :
  split b StylometricEncoder.newlines <> [].
Proof. apply split_go_nonempty. Qed.

Lemma trimStart_keeps (c : Z) (s : jsstring) :
  RegExp.is_space c = false -> In c s -> In c (RegExp.trimStart s).
Proof.
  intros Hc. induction s as [|x s IH]; intros Hin; [exact Hin|].
  cbn [RegExp.trimStart]. destruct (RegExp.is_space x) eqn:Ex; [|exact Hin].
  apply IH. destruct Hin as [->|Hin]; [congruence|exact Hin].
Qed.

(** A text with a character that is not white space is not blank. *)
Lemma trim_not_blank (c : Z) (s : jsstring) :
  RegExp.is_space c = false -> In c s -> 0 < len (RegExp.trim s).
Proof.
  intros Hc Hin. unfold RegExp.trim.
  assert (H : In c (rev (RegExp.trimStart (rev (RegExp.trimStart s))))).
  { apply -> in_rev. apply trimStart_keeps; [exact Hc|].
    apply -> in_rev. now apply trimStart_keeps. }
  destruct (rev _); [elim H|]. unfold len. cbn [List.length]. lia.
Qed.

(** The stylometric encoder copies a first paragraph that is not blank
    behind its marker. *)
Lemma hideDataStylometrically_first_paragraph
      (first rest d out : jsstring) (draws : nat -> Q) :
  Forall (fun c => c <> 10) first ->
  0 < len (RegExp.trim first) ->
  runM (hideDataStylometrically (first ++ StylometricEncoder.newlines ++ rest) d) draws
  = Ok out ->
  exists tail, out = markerText ++ first ++ tail.
Proof.
  intros Hfirst Hne. unfold hideDataStylometrically. cbv zeta.
  rewrite (split_first_paragraph first rest Hfirst).
  pose proof (split_newlines_nonempty rest) as Hrest.
  destruct (split rest StylometricEncoder.newlines) as [|second others]; [congruence|].
  cbn [List.length Nat.ltb Nat.leb nth].
  apply Z.ltb_lt in Hne. rewrite Hne.
  unfold runM, bind.
  destruct (encodeFirstMiddle _ _ draws O) as [[e n']|message]; [|discriminate].
  unfold ret. intros [= <-].
  eexists. rewrite <- !app_assoc. reflexivity.
Qed.

(** The frame inside a first paragraph of one line is still read after the
    stylometric encoder has worked on the text. *)
Lemma frame_under_stylometric_layer
      (first rest p dataToEncode out : jsstring) (draws : nat -> Q) :
  Forall (fun c => c <> 10) first ->
  Forall (fun c => c <> 8205) first ->
  20 <= len first ->
  Forall is_byte p ->
  len p <= 8191 ->
  runM (hideDataStylometrically
          (hideDataInText (first ++ StylometricEncoder.newlines ++ rest) p)
          dataToEncode) draws
  = Ok out ->
  extractHiddenData out = Some p.
Proof.
  intros Hline Hjoin Hlen Hp Hsmall Hout.
  set (text := first ++ StylometricEncoder.newlines ++ rest) in *.
  assert (Ht : text <> []).
  { unfold text. destruct first; [unfold len in Hlen; cbn in Hlen; lia|discriminate]. }
  pose proof (insertPosition_bounds text Ht) as Hk.
  assert (Hlt : len first <= len text).
  { unfold text. rewrite len_app. pose proof (len_nonneg (StylometricEncoder.newlines ++ rest)).
    lia. }
  set (k := Z.to_nat (insertPosition text)) in *.
  assert (Hk' : (k <= List.length first)%nat) by (unfold k, len in *; lia).
  assert (Hshape : hideDataInText text p
                   = (firstn k first ++ hiddenBlock p ++ skipn k first)
                       ++ StylometricEncoder.newlines ++ rest).
  { rewrite (hideDataInText_at_position text p Ht). fold k. unfold text.
    rewrite firstn_app, skipn_app.
    replace (k - List.length first)%nat with 0%nat by lia.
    cbn [firstn skipn]. rewrite app_nil_r, <- !app_assoc. reflexivity. }
  rewrite Hshape in Hout.
  apply hideDataStylometrically_first_paragraph in Hout.
  - destruct Hout as [tail ->]. rewrite <- !app_assoc.
    rewrite (app_assoc markerText). apply extractHiddenData_hiddenBlock; try assumption.
    apply Forall_app. split.
    + apply no_joiner_check. vm_compute. reflexivity.
    + rewrite <- (firstn_skipn k first) in Hjoin. now apply Forall_app in Hjoin.
  - rewrite <- (firstn_skipn k first) in Hline. apply Forall_app in Hline.
    destruct Hline as [H1 H2].
    apply Forall_app; split; [exact H1|]. apply Forall_app; split; [|exact H2].
    eapply Forall_impl; [|apply hiddenBlock_zero_width].
    intros c Hc ->. discriminate Hc.
  - apply (trim_not_blank 8205); [reflexivity|].
    apply in_or_app. right. apply in_or_app. left. unfold hiddenBlock. now left.
Qed.

End FrameUnderStylometricLayer.

(** X16.  The stylometric layer leaves the zero-width frame readable.  When the
    first paragraph is a single line of at least 20 characters without
    U+200D, the frame sits inside it, and whatever the stylometric encoder
    returns for the text with the frame, the zero-width decoder still
    reads the payload of the frame from it. *)
Theorem zero_width_frame_survives_stylometric_layer
        (first rest p dataToEncode out : jsstring) (draws : nat -> Q) :
  Forall (fun c => c <> 10) first ->
  Forall (fun c => c <> 8205) first ->
  20 <= len first ->
  Forall is_byte p ->
  len p <= 8191 ->
  runM (hideDataStylometrically
          (hideDataInText (first ++ StylometricEncoder.newlines ++ rest) p)
          dataToEncode) draws
  = Ok out ->
  extractHiddenData out = Some p.
Proof. apply frame_under_stylometric_layer. Qed.

(** Two paragraphs, the first of 20 characters. *)
Lemma zero_width_frame_survives_stylometric_layer_witness :
  exists out,
    runM (hideDataStylometrically
            (hideDataInText
               (lit "The report is ready." ++ StylometricEncoder.newlines
                  ++ lit "Please read it today.") (lit "hi"))
            (lit "hi")) sampleDraws
    = Ok out /\
    extractHiddenData out = Some (lit "hi").
Proof.
  eexists. split; [vm_compute; reflexivity|].
  eapply (zero_width_frame_survives_stylometric_layer
            (lit "The report is ready.") (lit "Please read it today.") (lit "hi")
            (lit "hi") _ sampleDraws).
  - apply Forall_forall. intros c Hc.
    assert (Hb : forallb (fun c => negb (c =? 10)) (lit "The report is ready.") = true)
      by (vm_compute; reflexivity).
    rewrite forallb_forall in Hb. specialize (Hb c Hc).
    apply negb_true_iff, Z.eqb_neq in Hb. exact Hb.
  - apply no_joiner_check. vm_compute. reflexivity.
  - apply Z.leb_le. vm_compute. reflexivity.
  - apply bytes_check. vm_compute. reflexivity.
  - apply Z.leb_le. vm_compute. reflexivity.
  - vm_compute. reflexivity.
Defined.

(** ** Capacity of the structural decoder *)

Section StructuralCapacity.

Lemma len_unitBit (a : ContentUnitAnalysis) : len (unitBit a) = 1.
Proof. destruct (unitBit_cases a) as [-> | ->]; reflexivity. Qed.

(** The first loop reads at most one bit for every three or four units
    from index [i] on, and stops at 16 bits. *)
Lemma len_patternBits (fuel : nat) (contentUnits : list jsstring) :
  forall (i : nat) (extractedBits : jsstring),
    len (patternBits fuel contentUnits i extractedBits)
    <= len extractedBits + Z.of_nat ((List.length contentUnits - i + 1) / 4) /\
    len (patternBits fuel contentUnits i extractedBits)
    <= Z.max (len extractedBits) 16.
Proof.
  induction fuel as [|fuel IH]; intros i extractedBits; cbn [patternBits];
    [split; lia|].
  destruct (Nat.ltb_spec i (List.length contentUnits)) as [Hi|Hi]; cbn [andb];
    [|split; lia].
  destruct (Z.ltb_spec (len extractedBits) 16) as [Hb|Hb]; [|split; lia].
  assert (Hsec : List.length (firstn 4 (skipn i contentUnits))
                 = Nat.min 4 (List.length contentUnits - i))
    by (now rewrite length_firstn, length_skipn).
  rewrite Hsec.
  destruct (Nat.leb_spec 3 (Nat.min 4 (List.length contentUnits - i))) as [H3|H3].
  - match goal with
    | |- context [patternBits fuel contentUnits (i + 4) ?b] =>
        destruct (IH (i + 4)%nat b) as [IH1 IH2];
        assert (Hlen : len b = len extractedBits + 1)
          by (rewrite len_app; destruct (shortLong _ _); reflexivity)
    end.
    rewrite Hlen in IH1, IH2. split; [|lia].
    assert ((List.length contentUnits - (i + 4) + 1) / 4 + 1
            <= (List.length contentUnits - i + 1) / 4)%nat.
    { destruct (Nat.le_gt_cases 4 (List.length contentUnits - i)) as [H4|H4].
      - replace (List.length contentUnits - i + 1)%nat
          with ((List.length contentUnits - (i + 4) + 1) + 1 * 4)%nat by lia.
        rewrite Nat.div_add by lia. lia.
      - replace (List.length contentUnits - i)%nat with 3%nat by lia.
        replace (List.length contentUnits - (i + 4))%nat with 0%nat by lia.
        cbn. lia. }
    lia.
  - destruct (IH (i + 4)%nat extractedBits) as [IH1 IH2]. split; [|lia].
    assert ((List.length contentUnits - (i + 4) + 1) / 4
            <= (List.length contentUnits - i + 1) / 4)%nat
      by (apply Nat.Div0.div_le_mono; lia).
    lia.
Qed.

(** The second loop adds one bit for a unit, and none once 64 bits are
    held. *)
Lemma len_unitBits (contentUnits : list jsstring) :
  forall extractedBits : jsstring,
    len (unitBits contentUnits extractedBits)
    <= len extractedBits + Z.of_nat (List.length contentUnits) /\
    len (unitBits contentUnits extractedBits) <= Z.max (len extractedBits) 64.
Proof.
  induction contentUnits as [|unit rest IH]; intros extractedBits;
    cbn [unitBits List.length]; [lia|].
  destruct (Z.ltb_spec (len extractedBits) 64) as [Hb|Hb]; [|lia].
  destruct (IH (extractedBits ++ unitBit (analyzeContentUnit unit))) as [IH1 IH2].
  rewrite len_app, len_unitBit in IH1, IH2. lia.
Qed.

(** Both loops together never hold more than 64 bits. *)
Lemma len_structural_bits (contentUnits : list jsstring) :
  let extractedBits :=
    unitBits contentUnits (patternBits (List.length contentUnits) contentUnits 0 []) in
  len extractedBits <= 64 /\
  len extractedBits
  <= Z.of_nat (List.length contentUnits)
     + Z.of_nat ((List.length contentUnits + 1) / 4).
Proof.
  cbv zeta.
  destruct (len_patternBits (List.length contentUnits) contentUnits O []) as [P1 P2].
  destruct (len_unitBits contentUnits
              (patternBits (List.length contentUnits) contentUnits 0 [])) as [U1 U2].
  rewrite Nat.sub_0_r in P1. change (len []) with 0 in P1, P2. lia.
Qed.

End StructuralCapacity.

(** X17.  A text that segmentation cuts into fewer than 13 units holds no payload
    for the structural decoder: with one bit per section of four and one
    per unit, 12 units give 15 bits at most, and the header alone takes
    16. *)
Theorem structural_decode_needs_13_units (text : jsstring) :
  (List.length (splitContentIntoUnits text) < 13)%nat ->
  extractHiddenStructuralData text = None.
Proof.
  intros Hn. unfold extractHiddenStructuralData.
  destruct (negb (includes text _)); [reflexivity|].
  destruct (List.length (splitContentIntoUnits text) <? 4)%nat; [reflexivity|].
  destruct (len_structural_bits (splitContentIntoUnits text)) as [_ H].
  cbv zeta in H.
  assert (Hq : ((List.length (splitContentIntoUnits text) + 1) / 4 < 4)%nat).
  { apply Nat.Div0.div_lt_upper_bound. lia. }
  replace (len (unitBits (splitContentIntoUnits text)
                  (patternBits (List.length (splitContentIntoUnits text))
                     (splitContentIntoUnits text) 0 [])) <? 16) with true;
    [reflexivity|].
  symmetry. apply Z.ltb_lt. unfold len in *. lia.
Qed.

(** The sample text of the module's own demonstration, behind the marker:
    five units. *)
Lemma structural_decode_needs_13_units_witness :
  List.length (splitContentIntoUnits (structuralMarker ++ sampleText)) = 5%nat /\
  extractHiddenStructuralData (structuralMarker ++ sampleText) = None.
Proof.
  assert (H : List.length (splitContentIntoUnits (structuralMarker ++ sampleText))
              = 5%nat) by (vm_compute; reflexivity).
  split; [exact H|].
  apply structural_decode_needs_13_units. rewrite H. lia.
Defined.

(** X18.  Whatever the text, a payload the structural decoder returns has at
    most six characters: the decoder stops at 64 bits, 16 of them the
    header. *)
Theorem structural_payload_at_most_six (text p : jsstring) :
  extractHiddenStructuralData text = Some p -> len p <= 6.
Proof.
  unfold extractHiddenStructuralData.
  destruct (negb (includes text _)); [discriminate|].
  destruct (List.length (splitContentIntoUnits text) <? 4)%nat; [discriminate|].
  destruct (len_structural_bits (splitContentIntoUnits text)) as [H _].
  cbv zeta in H.
  destruct (len _ <? 16); [discriminate|].
  intros E. apply len_decodeExtractedBits in E. lia.
Qed.

(** The carrier document of twenty paragraphs holds the one character
    'h'. *)
Lemma structural_payload_at_most_six_witness :
  extractHiddenStructuralData structuralCarrier = Some (lit "h") /\
  len (lit "h") <= 6.
Proof.
  assert (H : extractHiddenStructuralData structuralCarrier = Some (lit "h"))
    by (vm_compute; reflexivity).
  split; [exact H|].
  exact (structural_payload_at_most_six structuralCarrier (lit "h") H).
Defined.

(** ** What the structural encoder embeds *)

Section StructuralTruncation.

Local Open Scope effects_scope.

Lemma forEachUnit_ext (f g : nat -> jsstring -> M jsstring) (l : list jsstring) :
  (forall j u, f j u = g j u) ->
  forall j, forEachUnit f l j = forEachUnit g l j.
Proof.
  intros Hfg. induction l as [|u l IH]; intros j; cbn [forEachUnit]; [reflexivity|].
  now rewrite Hfg, IH.
Qed.

Lemma length_concat_byteDigits (q : jsstring) :
  Forall is_byte q ->
  List.length (List.concat (map byteDigits q)) = (8 * List.length q)%nat.
Proof.
  intros H. pose proof (length_toBinary q H) as E.
  rewrite (toBinary_bytes q H) in E. unfold len in E. lia.
Qed.

(** The digits of the first [k] bytes are the first [8 k] digits. *)
Lemma nth_toBinary_prefix (p1 p2 : jsstring) (k m : nat) :
  Forall is_byte p1 -> Forall is_byte p2 ->
  (k <= List.length p1)%nat -> (k <= List.length p2)%nat ->
  firstn k p1 = firstn k p2 ->
  (m < 8 * k)%nat ->
  nth m (toBinary p1) 0 = nth m (toBinary p2) 0.
Proof.
  intros H1 H2 Hk1 Hk2 E Hm.
  assert (Hgen : forall p, Forall is_byte p -> (k <= List.length p)%nat ->
            nth m (toBinary p) 0 = nth m (List.concat (map byteDigits (firstn k p))) 0).
  { intros p Hp Hk. rewrite (toBinary_bytes p Hp).
    rewrite <- (firstn_skipn k p) at 1. rewrite map_app, concat_app.
    apply app_nth1. rewrite length_concat_byteDigits.
    - rewrite length_firstn. lia.
    - rewrite <- (firstn_skipn k p) in Hp. now apply Forall_app in Hp. }
  now rewrite (Hgen p1 H1 Hk1), (Hgen p2 H2 Hk2), E.
Qed.

Lemma substring_in_prefix (a b : jsstring) (x : Z) :
  x <= len a -> substring (a ++ b) 0 x = substring a 0 x.
Proof.
  intros Hx. pose proof (len_nonneg a). pose proof (len_nonneg b).
  unfold substring, clamp, sub. rewrite len_app.
  replace (Z.min (Z.max 0 0) (len a + len b)) with 0 by lia.
  replace (Z.min (Z.max 0 0) (len a)) with 0 by lia.
  replace (Z.min (Z.max x 0) (len a + len b)) with (Z.max x 0) by lia.
  replace (Z.min (Z.max x 0) (len a)) with (Z.max x 0) by lia.
  replace (Z.min 0 (Z.max x 0)) with 0 by lia.
  cbn [Z.to_nat skipn]. rewrite firstn_app.
  replace (Z.to_nat (Z.max 0 (Z.max x 0) - 0) - List.length a)%nat
    with 0%nat by (unfold len in *; lia).
  cbn [firstn]. apply app_nil_r.
Qed.

End StructuralTruncation.

(** X19.  The structural encoder embeds the 16-bit header and the payload bits up
    to [maxEncodableBits], and nothing beyond: two payloads of the same
    length that agree on their first [k] bytes give the same text, draw for
    draw, as soon as [maxEncodableBits] is at most [16 + 8 k].  With the
    default of 64 bits the seventh and later bytes never reach the text. *)
Theorem hideDataStructurally_embeds_a_prefix
        (text p1 p2 : jsstring) (options : StructuralEncodingOptions) (k : nat)
        (draws : nat -> Q) :
  maxEncodableBits options <= 16 + 8 * Z.of_nat k ->
  Forall is_byte p1 -> Forall is_byte p2 ->
  len p1 = len p2 ->
  len p1 <= 8191 ->
  firstn k p1 = firstn k p2 ->
  runM (hideDataStructurally text p1 options) draws
  = runM (hideDataStructurally text p2 options) draws.
Proof.
  intros Hmax H1 H2 Hlen Hsmall Hk.
  destruct (Nat.le_gt_cases k (List.length p1)) as [Hle|Hgt].
  2: { assert (E : p1 = p2).
       { rewrite (firstn_all2 (n := k) p1) in Hk by lia.
         rewrite (firstn_all2 (n := k) p2) in Hk by (unfold len in Hlen; lia).
         exact Hk. }
       now rewrite E. }
  assert (Hle2 : (k <= List.length p2)%nat) by (unfold len in Hlen; lia).
  pose proof (len_nonneg p1) as Hp0.
  assert (HB : len (toBinary p2) = len (toBinary p1))
    by (rewrite !length_toBinary by assumption; lia).
  assert (HB1 : len (toBinary p1) = 8 * len p1) by now apply length_toBinary.
  unfold hideDataStructurally.
  destruct (len text <? minContentLength options); [reflexivity|].
  cbv zeta. rewrite HB.
  set (header := padStart (toString2 (len (toBinary p1))) 16 48).
  assert (H16 : len header = 16) by (apply header_length; lia).
  rewrite !len_app, HB.
  set (maxBits := Z.min (maxEncodableBits options) (len header + len (toBinary p1))).
  rewrite !(substring_in_prefix header) by lia.
  unfold runM, bind.
  destruct (transformParagraphPatterns _ _ _ draws O) as [[units n]|message];
    [|reflexivity].
  match goal with
  | |- context [forEachUnit ?f units O] =>
      match goal with
      | |- context [forEachUnit ?g units O] =>
          tryif constr_eq f g then fail else
            rewrite (forEachUnit_ext f g units); [reflexivity|]
      end
  end.
  intros j u. cbv beta.
  destruct (Z.ltb_spec (Z.of_nat j + 16) maxBits) as [Hj|Hj]; [|reflexivity].
  cbn [andb].
  destruct (Z.of_nat j + 16 <? len header + len (toBinary p1)); [|reflexivity].
  f_equal. f_equal.
  assert (Hh : List.length header = 16%nat) by (unfold len in H16; lia).
  rewrite !app_nth2 by lia. rewrite Hh.
  apply (nth_toBinary_prefix p1 p2 k); try assumption. unfold maxBits in Hj. lia.
Qed.

(** Eight bytes against the default limit of 64 bits: the last two do not
    count. *)
Lemma hideDataStructurally_embeds_a_prefix_witness :
  runM (hideDataStructurally sampleText (lit "abcdefgh")
          StructuralEncoder.DEFAULT_OPTIONS) sampleDraws
  = runM (hideDataStructurally sampleText (lit "abcdefXY")
            StructuralEncoder.DEFAULT_OPTIONS) sampleDraws.
Proof.
  apply (hideDataStructurally_embeds_a_prefix _ _ _ _ 6%nat).
  - apply Z.leb_le. vm_compute. reflexivity.
  - apply bytes_check. vm_compute. reflexivity.
  - apply bytes_check. vm_compute. reflexivity.
  - vm_compute. reflexivity.
  - apply Z.leb_le. vm_compute. reflexivity.
  - vm_compute. reflexivity.
Defined.

(** ** Units of the structural encoder *)

Section StructuralUnits.

Local Open Scope effects_scope.

Lemma length_forEachUnit (f : nat -> jsstring -> M jsstring) (l : list jsstring) :
  forall j draws n out n',
    forEachUnit f l j draws n = Ok (out, n') -> List.length out = List.length l.
Proof.
  induction l as [|u l IH]; intros j draws n out n'; cbn [forEachUnit].
  - unfold ret. now intros [= <- _].
  - unfold bind at 1. destruct (f j u draws n) as [[u' n1]|message]; [|discriminate].
    unfold bind at 1.
    destruct (forEachUnit f l (S j) draws n1) as [[rest' n2]|message] eqn:E;
      [|discriminate].
    unfold ret. intros [= <- _]. cbn [List.length]. f_equal. now apply (IH _ _ _ _ _ E).
Qed.

(** The first pass works through the units four at a time: what it has
    put out so far is as long as what it has read. *)
Lemma length_patternSections (contentUnits : list jsstring) (fuel : nat) :
  forall i bits transformed draws n out n',
    List.length transformed = Nat.min i (List.length contentUnits) ->
    patternSections fuel contentUnits i bits transformed draws n = Ok (out, n') ->
    (List.length out <= List.length contentUnits)%nat.
Proof.
  induction fuel as [|fuel IH]; intros i bits transformed draws n out n' Hinv;
    cbn [patternSections].
  - unfold ret. intros [= <- _]. lia.
  - destruct bits as [|b bits']; [unfold ret; intros [= <- _]; lia|].
    destruct (Nat.ltb_spec i (List.length contentUnits)) as [Hi|Hi];
      [|unfold ret; intros [= <- _]; lia].
    assert (Hsec : List.length (firstn 4 (skipn i contentUnits))
                   = Nat.min 4 (List.length contentUnits - i))
      by (now rewrite length_firstn, length_skipn).
    destruct (3 <=? List.length (firstn 4 (skipn i contentUnits)))%nat.
    + unfold bind at 1.
      match goal with
      | |- context [match ?c draws n with _ => _ end] =>
          destruct (c draws n) as [[units n1]|message] eqn:E; [|discriminate]
      end.
      assert (Hu : List.length units = List.length (firstn 4 (skipn i contentUnits))).
      { destruct (isZero (parseDigit b)); now apply length_forEachUnit in E. }
      apply IH. rewrite length_app, Hinv, Hu, Hsec. lia.
    + apply IH. rewrite length_app, Hinv, Hsec. lia.
Qed.

Lemma length_transformParagraphPatterns
      (contentUnits : list jsstring) (bits : jsstring)
      (options : StructuralEncodingOptions) (draws : nat -> Q) (n : nat)
      (out : list jsstring) (n' : nat) :
  transformParagraphPatterns contentUnits bits options draws n = Ok (out, n') ->
  List.length out = List.length contentUnits.
Proof.
  unfold transformParagraphPatterns.
  destruct (List.length contentUnits <? 4)%nat; [unfold ret; now intros [= <- _]|].
  unfold bind.
  destruct (patternSections _ _ _ _ _ draws n) as [[transformed n1]|message] eqn:E;
    [|discriminate].
  apply length_patternSections in E; [|reflexivity].
  unfold ret. intros [= <- _].
  destruct (Nat.ltb_spec (List.length transformed) (List.length contentUnits)).
  - rewrite length_app, length_skipn. lia.
  - lia.
Qed.

End StructuralUnits.

(** X20.  The structural encoder neither drops nor adds a unit.  For a text of at
    least [minContentLength] characters it returns the marker followed by
    as many units as segmentation found in the text, joined by blank
    lines. *)
Theorem hideDataStructurally_keeps_unit_count
        (text dataToHide : jsstring) (options : StructuralEncodingOptions)
        (draws : nat -> Q) :
  minContentLength options <= len text ->
  exists contentUnits,
    runM (hideDataStructurally text dataToHide options) draws
    = Ok (structuralMarker ++ StructuralEncoder.joinWith StructuralEncoder.newlines
                                contentUnits) /\
    List.length contentUnits = List.length (splitContentIntoUnits text).
Proof.
  intros Hlen.
  destruct (hideDataStructurally_total text dataToHide options Hlen draws O)
    as (out & n' & E).
  unfold runM. rewrite E. revert E. unfold hideDataStructurally.
  replace (len text <? minContentLength options) with false
    by (symmetry; apply Z.ltb_ge; exact Hlen).
  cbv zeta. unfold bind at 1.
  destruct (transformParagraphPatterns _ _ _ draws O) as [[units1 n1]|message] eqn:E1;
    [|discriminate].
  unfold bind at 1.
  destruct (forEachUnit _ units1 O draws n1) as [[units2 n2]|message] eqn:E2;
    [|discriminate].
  unfold ret. intros [= <- _]. exists units2. split; [reflexivity|].
  apply length_forEachUnit in E2. apply length_transformParagraphPatterns in E1.
  congruence.
Qed.

(** The sample text of the module's demonstration has more than 1000
    characters. *)
Lemma hideDataStructurally_keeps_unit_count_witness :
  exists contentUnits,
    runM (hideDataStructurally sampleText (lit "hi")
            StructuralEncoder.DEFAULT_OPTIONS) sampleDraws
    = Ok (structuralMarker ++ StructuralEncoder.joinWith StructuralEncoder.newlines
                                contentUnits) /\
    List.length contentUnits = List.length (splitContentIntoUnits sampleText).
Proof.
  apply hideDataStructurally_keeps_unit_count.
  apply Z.leb_le. vm_compute. reflexivity.
Defined.

(** ** The visual demonstration *)

Section Visualisation.

Lemma replaceUnit_app (c : Z) (r a b : jsstring) :
  VisualDemo.replaceUnit c r (a ++ b)
  = VisualDemo.replaceUnit c r a ++ VisualDemo.replaceUnit c r b.
Proof. apply flat_map_app. Qed.

Lemma visualizeZeroWidth_cons (c : Z) (text : jsstring) :
  VisualDemo.visualizeZeroWidth (c :: text)
  = visibleTag c ++ VisualDemo.visualizeZeroWidth text.
Proof.
  unfold VisualDemo.visualizeZeroWidth, visibleTag.
  change (c :: text) with ([c] ++ text).
  rewrite !replaceUnit_app. f_equal.
  destruct (Z.eqb_spec c 8203) as [->|H1]; [reflexivity|].
  destruct (Z.eqb_spec c 8204) as [->|H2]; [reflexivity|].
  destruct (Z.eqb_spec c 8205) as [->|H3]; [reflexivity|].
  cbn [VisualDemo.replaceUnit flat_map app].
  apply Z.eqb_neq in H1, H2, H3. rewrite H1. cbn [flat_map app].
  rewrite H2. cbn [flat_map app]. now rewrite H3.
Qed.

End Visualisation.

(** X30.  The three replacements of [visualizeZeroWidth] come to a single pass:
    every U+200B, U+200C and U+200D is shown by its own tag, every other
    code unit is kept, and no zero-width character is left in the
    result. *)
Theorem visualizeZeroWidth_shows_every_hidden_unit (text : jsstring) :
  VisualDemo.visualizeZeroWidth text = flat_map visibleTag text /\
  Forall (fun c => isZeroWidth c = false) (VisualDemo.visualizeZeroWidth text) /\
  (Forall (fun c => isZeroWidth c = false) text ->
   VisualDemo.visualizeZeroWidth text = text).
Proof.
  assert (H : VisualDemo.visualizeZeroWidth text = flat_map visibleTag text).
  { induction text as [|c text IH]; [reflexivity|].
    rewrite visualizeZeroWidth_cons, IH. reflexivity. }
  split; [exact H|]. rewrite H. clear H. split.
  - induction text as [|c text IH]; [constructor|].
    cbn [flat_map]. apply Forall_app. split; [|exact IH].
    unfold visibleTag.
    destruct (Z.eqb_spec c 8203); [repeat constructor|].
    destruct (Z.eqb_spec c 8204); [repeat constructor|].
    destruct (Z.eqb_spec c 8205); [repeat constructor|].
    constructor; [|constructor]. unfold isZeroWidth.
    apply andb_false_iff. destruct (Z.leb_spec 8203 c); [right|now left].
    apply Z.leb_gt. lia.
  - induction 1 as [|c text Hc _ IH]; [reflexivity|].
    cbn [flat_map]. rewrite IH. unfold visibleTag.
    unfold isZeroWidth in Hc. apply andb_false_iff in Hc.
    replace (c =? 8203) with false by (symmetry; apply Z.eqb_neq; destruct Hc as [Hc|Hc];
      [apply Z.leb_gt in Hc|apply Z.leb_gt in Hc]; lia).
    replace (c =? 8204) with false by (symmetry; apply Z.eqb_neq; destruct Hc as [Hc|Hc];
      [apply Z.leb_gt in Hc|apply Z.leb_gt in Hc]; lia).
    replace (c =? 8205) with false by (symmetry; apply Z.eqb_neq; destruct Hc as [Hc|Hc];
      [apply Z.leb_gt in Hc|apply Z.leb_gt in Hc]; lia).
    reflexivity.
Qed.

(** The text of scenario A is shown as it is. *)
Lemma visualizeZeroWidth_shows_every_hidden_unit_witness :
  VisualDemo.visualizeZeroWidth scenarioA_text = scenarioA_text.
Proof.
  destruct (visualizeZeroWidth_shows_every_hidden_unit scenarioA_text) as (_ & _ & H).
  apply H. apply Forall_forall. intros c Hc.
  assert (Hb : forallb (fun c => negb (isZeroWidth c)) scenarioA_text = true)
    by (vm_compute; reflexivity).
  rewrite forallb_forall in Hb. apply negb_true_iff. now apply Hb.
Defined.

(** ** The integrations *)

Section Integrations.

Lemma compareWithPrimary_null (primary current : extraction)
      (baselineMeta : option jsstring) (acc : bool) :
  data current = Null -> compareWithPrimary primary baselineMeta acc current = None.
Proof. intros H. unfold compareWithPrimary. now rewrite H. Qed.

Lemma compareAll_null (primary : extraction) (baselineMeta : option jsstring)
      (others : list extraction) :
  Exists (fun e => data e = Null) others ->
  forall acc, compareAll primary baselineMeta others acc = None.
Proof.
  induction 1 as [e l He|e l _ IH]; intros acc; cbn [compareAll].
  - now rewrite compareWithPrimary_null.
  - destruct (compareWithPrimary primary baselineMeta acc e); [apply IH|reflexivity].
Qed.

End Integrations.

(** X22.  A layer other than the primary one whose text parses to JSON [null]
    makes the orchestrator's decoder give up: reading a property of [null]
    throws, and the function returns [null] instead of the primary layer's
    metadata. *)
Theorem judge_gives_up_on_null_record
        (signer : option jsstring) (primary : extraction) (others : list extraction) :
  Exists (fun e => data e = Null) others ->
  judge signer (primary :: others) = None.
Proof.
  intros H. unfold judge. now rewrite (compareAll_null _ _ _ H).
Qed.

(** The full record from the stylometric layer and [null] from the
    zero-width layer. *)
Lemma judge_gives_up_on_null_record_witness :
  judge (Some (lit "alice"))
        [ {| source := "stylometric"; data := fullRecord |};
          {| source := "zero-width"; data := Null |} ]
  = None.
Proof.
  apply judge_gives_up_on_null_record. constructor. reflexivity.
Defined.

Section IntegrationRoundTrips.

Lemma stylometric_marker_visible :
  Forall (fun c => isZeroWidth c = false)
         (lit "Please note the following information carefully.").
Proof.
  apply Forall_forall. intros c Hc.
  assert (Hb : forallb (fun c => negb (isZeroWidth c))
                 (lit "Please note the following information carefully.") = true)
    by (vm_compute; reflexivity).
  rewrite forallb_forall in Hb. apply negb_true_iff. now apply Hb.
Qed.

Lemma structural_marker_visible :
  Forall (fun c => isZeroWidth c = false)
         (lit "The following explores multiple perspectives.").
Proof.
  apply Forall_forall. intros c Hc.
  assert (Hb : forallb (fun c => negb (isZeroWidth c))
                 (lit "The following explores multiple perspectives.") = true)
    by (vm_compute; reflexivity).
  rewrite forallb_forall in Hb. apply negb_true_iff. now apply Hb.
Qed.

(** The zero-width layer does not bring in the marker of another layer. *)
Lemma stylometric_silent_after_zero_width (text d : jsstring) :
  includes text (lit "Please note the following information carefully.") = false ->
  extractHiddenStylometricData (hideDataInText text d) = None.
Proof.
  intros H. unfold extractHiddenStylometricData, extractStylometricBits.
  now rewrite (includes_after_hideDataInText text d _ stylometric_marker_visible H).
Qed.

Lemma structural_silent_after_zero_width (text d : jsstring) :
  includes text (lit "The following explores multiple perspectives.") = false ->
  extractHiddenStructuralData (hideDataInText text d) = None.
Proof.
  intros H. unfold extractHiddenStructuralData.
  now rewrite (includes_after_hideDataInText text d _ structural_marker_visible H).
Qed.

Lemma extractHiddenData_hideDataInText (text p : jsstring) :
  Forall (fun c => c <> 8205) text ->
  Forall is_byte p ->
  len p <= 8191 ->
  extractHiddenData (hideDataInText text p) = Some p.
Proof.
  intros Htext Hp Hlen.
  destruct (hideDataInText_shape text p) as (pre & post & Ht & ->).
  apply extractHiddenData_hiddenBlock; try assumption.
  rewrite Ht in Htext. now apply Forall_app in Htext.
Qed.

Lemma present_some (s : jsstring) : s <> [] -> present (Some s) = true.
Proof. destruct s; [congruence|reflexivity]. Qed.

Lemma newlines_visible :
  Forall (fun c => isZeroWidth c = false) StylometricEncoder.newlines.
Proof. repeat constructor. Qed.

End IntegrationRoundTrips.

(** X23.  With the zero-width layer alone switched on, what the orchestrator
    encodes it decodes: for a text without U+200D and without the marker
    sentences of the two other layers, and metadata whose JSON text has at
    most 8191 code units, all below 256, the decoder returns the metadata
    from the zero-width layer, with the signer and with [integrity]
    raised. *)
Theorem zero_width_only_round_trip
        (JSON_parse : jsstring -> option value)
        (text : jsstring) (metadata : value) (metadataStr : jsstring)
        (keyManager : KeyManager) (signer : jsstring) (draws : nat -> Q) :
  Forall (fun c => c <> 8205) text ->
  includes text (lit "Please note the following information carefully.") = false ->
  includes text (lit "The following explores multiple perspectives.") = false ->
  stringify metadata = Some metadataStr ->
  metadataStr <> [] ->
  Forall is_byte metadataStr ->
  len metadataStr <= 8191 ->
  JSON_parse metadataStr = Some metadata ->
  signsFor keyManager signer ->
  exists package,
    encodeEnhancedContent text metadata keyManager signer zeroWidthOnly draws
    = Some package /\
    layers (encodingInfo package) = ["zero-width"%string] /\
    decodeEnhancedContent JSON_parse (content package) (signature package) keyManager
    = Some {| metadata := metadata; signerName := Some signer;
              extractionSource := "zero-width"; integrity := true |}.
Proof.
  intros Htext Hsty Hstr Hs Hne Hbytes Hlen Hparse [Hsigner Hkeys].
  destruct (Hkeys (hideDataInText text metadataStr)) as (sig & Hsig & Hsign & Hverify).
  unfold encodeEnhancedContent, applyLayers. rewrite Hs.
  cbn [useZeroWidth useStylometric useStructural zeroWidthOnly defined andb].
  unfold runM, bind, ret. cbv beta iota zeta.
  rewrite Hsign.
  replace (present (Some sig)) with true by (symmetry; now apply present_some).
  cbn [negb]. eexists. split; [reflexivity|]. cbn [encodingInfo layers content signature].
  split; [reflexivity|].
  unfold decodeEnhancedContent.
  rewrite Hverify.
  replace (present (Some signer)) with true by (symmetry; now apply present_some).
  cbn [negb].
  rewrite (structural_silent_after_zero_width text metadataStr Hstr).
  rewrite (stylometric_silent_after_zero_width text metadataStr Hsty).
  rewrite (extractHiddenData_hideDataInText text metadataStr Htext Hbytes Hlen).
  unfold attempt.
  replace (present (Some metadataStr)) with true by (symmetry; now apply present_some).
  rewrite Hparse. reflexivity.
Qed.

(** The metadata of scenario C in the text of scenario A. *)
Lemma zero_width_only_round_trip_witness :
  exists package,
    encodeEnhancedContent scenarioA_text scenarioC_metadata scenarioC_keys
                          (lit "alice") zeroWidthOnly sampleDraws
    = Some package /\
    layers (encodingInfo package) = ["zero-width"%string] /\
    decodeEnhancedContent (fun _ => Some scenarioC_metadata)
                          (content package) (signature package) scenarioC_keys
    = Some {| metadata := scenarioC_metadata; signerName := Some (lit "alice");
              extractionSource := "zero-width"; integrity := true |}.
Proof.
  apply (zero_width_only_round_trip _ _ _ scenarioC_payload).
  - apply no_joiner_check. vm_compute. reflexivity.
  - vm_compute. reflexivity.
  - vm_compute. reflexivity.
  - vm_compute. reflexivity.
  - discriminate.
  - apply bytes_check. vm_compute. reflexivity.
  - apply Z.leb_le. vm_compute. reflexivity.
  - reflexivity.
  - split; [discriminate|]. intros content. exists (lit "c2lnbmF0dXJl").
    split; [discriminate|]. split; reflexivity.
Defined.

(** X26.  The two-layer encoder returns [null] for every text without a blank
    line, whatever the metadata and the key: the zero-width layer adds no
    line break, and the stylometric layer refuses a single paragraph. *)
Theorem encodeMultilayerContent_needs_blank_line
        (originalContent : jsstring) (metadata : value)
        (keyManager : KeyManager) (signer : jsstring) (draws : nat -> Q) :
  includes originalContent StylometricEncoder.newlines = false ->
  EncoderDemo.encodeMultilayerContent originalContent metadata keyManager signer draws
  = None.
Proof.
  intros H. unfold EncoderDemo.encodeMultilayerContent.
  destruct (stringify metadata) as [metadataStr|]; [|reflexivity].
  cbv zeta. rewrite hideDataStylometrically_one_paragraph; [reflexivity|].
  now apply includes_after_hideDataInText; [apply newlines_visible|].
Qed.

(** The text of scenario A, one paragraph. *)
Lemma encodeMultilayerContent_needs_blank_line_witness :
  EncoderDemo.encodeMultilayerContent scenarioA_text scenarioC_metadata
    scenarioC_keys (lit "alice") sampleDraws
  = None.
Proof.
  apply encodeMultilayerContent_needs_blank_line. vm_compute. reflexivity.
Defined.


(** X29.  The fallback of the two-layer decoder: from a text that carries the
    zero-width frame and no stylometric marker, it returns the metadata of
    the frame, provided they are truthy. *)
Theorem decodeMultilayerContent_falls_back_to_zero_width
        (JSON_parse : jsstring -> option value)
        (text metadataStr sig name : jsstring) (metadata : value)
        (keyManager : KeyManager) :
  Forall (fun c => c <> 8205) text ->
  includes text (lit "Please note the following information carefully.") = false ->
  metadataStr <> [] ->
  Forall is_byte metadataStr ->
  len metadataStr <= 8191 ->
  JSON_parse metadataStr = Some metadata ->
  truthy metadata = true ->
  verifySignature keyManager (hideDataInText text metadataStr) sig = Some name ->
  name <> [] ->
  EncoderDemo.decodeMultilayerContent JSON_parse
    (hideDataInText text metadataStr) sig keyManager
  = Some {| EncoderDemo.metadata := metadata; EncoderDemo.signerName := Some name |}.
Proof.
  intros Htext Hsty Hne Hbytes Hlen Hparse Htruthy Hverify Hname.
  unfold EncoderDemo.decodeMultilayerContent.
  rewrite Hverify.
  replace (present (Some name)) with true by (symmetry; now apply present_some).
  cbn [negb]. cbv zeta.
  rewrite (stylometric_silent_after_zero_width text metadataStr Hsty).
  rewrite (extractHiddenData_hideDataInText text metadataStr Htext Hbytes Hlen).
  unfold EncoderDemo.parseInto.
  change (present None) with false. cbv iota. cbn [truthy negb].
  replace (present (Some metadataStr)) with true by (symmetry; now apply present_some).
  rewrite Hparse, Htruthy. reflexivity.
Qed.

(** The metadata of scenario C in the text of scenario A. *)
Lemma decodeMultilayerContent_falls_back_to_zero_width_witness :
  EncoderDemo.decodeMultilayerContent (fun _ => Some scenarioC_metadata)
    (hideDataInText scenarioA_text scenarioC_payload) (lit "c2lnbmF0dXJl")
    scenarioC_keys
  = Some {| EncoderDemo.metadata := scenarioC_metadata;
            EncoderDemo.signerName := Some (lit "alice") |}.
Proof.
  apply decodeMultilayerContent_falls_back_to_zero_width.
  - apply no_joiner_check. vm_compute. reflexivity.
  - vm_compute. reflexivity.
  - discriminate.
  - apply bytes_check. vm_compute. reflexivity.
  - apply Z.leb_le. vm_compute. reflexivity.
  - reflexivity.
  - reflexivity.
  - reflexivity.
  - discriminate.
Defined.

(** X27.  What the two-layer encoder returns still holds the zero-width frame.
    When the first paragraph of the text is a single line of at least 20
    characters without U+200D and the serialised metadata have at most
    8191 code units, all below 256, the zero-width decoder reads the
    serialised metadata from the content of every package the encoder
    returns. *)
Theorem multilayer_package_keeps_zero_width_frame
        (first rest : jsstring) (metadata : value) (metadataStr : jsstring)
        (keyManager : KeyManager) (signer : jsstring) (draws : nat -> Q)
        (package : EncoderDemo.EncodedPackage) :
  Forall (fun c => c <> 10) first ->
  Forall (fun c => c <> 8205) first ->
  20 <= len first ->
  stringify metadata = Some metadataStr ->
  Forall is_byte metadataStr ->
  len metadataStr <= 8191 ->
  EncoderDemo.encodeMultilayerContent
    (first ++ StylometricEncoder.newlines ++ rest) metadata keyManager signer draws
  = Some package ->
  extractHiddenData (EncoderDemo.content package) = Some metadataStr.
Proof.
  intros Hline Hjoin Hlen Hs Hbytes Hsmall.
  unfold EncoderDemo.encodeMultilayerContent. rewrite Hs. cbv zeta.
  destruct (runM _ draws) as [out|message] eqn:E; [|discriminate].
  destruct (negb _); [discriminate|]. intros [= <-]. cbn [EncoderDemo.content].
  now apply (frame_under_stylometric_layer first rest metadataStr metadataStr out draws).
Qed.

(** A text of two paragraphs and the metadata of scenario C. *)
Lemma multilayer_package_keeps_zero_width_frame_witness :
  exists package,
    EncoderDemo.encodeMultilayerContent
      (lit "The report is ready." ++ StylometricEncoder.newlines
         ++ lit "Please read it today.")
      scenarioC_metadata scenarioC_keys (lit "alice") sampleDraws
    = Some package /\
    extractHiddenData (EncoderDemo.content package) = Some scenarioC_payload.
Proof.
  eexists. split; [vm_compute; reflexivity|].
  eapply (multilayer_package_keeps_zero_width_frame
            (lit "The report is ready.") (lit "Please read it today.")
            scenarioC_metadata scenarioC_payload scenarioC_keys (lit "alice")
            sampleDraws).
  - apply Forall_forall. intros c Hc.
    assert (Hb : forallb (fun c => negb (c =? 10)) (lit "The report is ready.") = true)
      by (vm_compute; reflexivity).
    rewrite forallb_forall in Hb. specialize (Hb c Hc).
    apply negb_true_iff, Z.eqb_neq in Hb. exact Hb.
  - apply no_joiner_check. vm_compute. reflexivity.
  - apply Z.leb_le. vm_compute. reflexivity.
  - vm_compute. reflexivity.
  - apply bytes_check. vm_compute. reflexivity.
  - apply Z.leb_le. vm_compute. reflexivity.
  - vm_compute. reflexivity.
Defined.

Section EncodingWithoutStylometricLayer.

Local Open Scope effects_scope.

Lemma total_subsetData (name : string) (metadata : value) :
  metadata <> Null -> metadata <> Undefined -> total (subsetData name metadata).
Proof.
  intros Hn Hu.
  assert (Hprop : forall key, exists x, getProp metadata key = Some x).
  { intros key. destruct metadata; try congruence; cbn [getProp]; try (now eexists).
    destruct (find _ _) as [[k x]|]; now eexists. }
  unfold subsetData. destruct (Hprop (lit "id")) as [id ->].
  destruct (truthy id); [apply total_ret|].
  destruct (Hprop (lit "creator")) as [x ->]. apply total_ret.
Qed.

Lemma total_applyLayers (originalContent : jsstring) (metadata : value)
      (metadataStr : jsstring) (options : EnhancedEncodingOptions) :
  useStylometric options = false ->
  stringify metadata = Some metadataStr ->
  redundantEncoding options = true \/ metadata <> Null ->
  total (applyLayers originalContent metadata options).
Proof.
  intros Hsty Hs Hmode.
  assert (Hu : metadata <> Undefined) by (intros ->; discriminate Hs).
  unfold applyLayers. rewrite Hs, Hsty. cbv zeta.
  apply total_bind.
  { destruct (useZeroWidth options); [|apply total_ret].
    apply total_bind; [apply total_ret|intros; apply total_ret]. }
  intros [processedContent enabledLayers].
  apply total_bind; [apply total_ret|].
  intros [processedContent' enabledLayers'].
  destruct (useStructural options && (800 <=? len processedContent')) eqn:E;
    [|apply total_ret].
  apply andb_true_iff in E. destruct E as [_ E]. apply Z.leb_le in E.
  apply total_bind.
  { destruct (redundantEncoding options); [apply total_ret|].
    destruct Hmode as [Hmode|Hmode]; [discriminate|]. now apply total_subsetData. }
  intros structuralData.
  apply total_bind; [|intros; apply total_ret].
  now apply hideDataStructurally_total.
Qed.

End EncodingWithoutStylometricLayer.

(** X24.  With the stylometric layer switched off the orchestrator's encoder
    cannot fail on the text: for metadata that serialise and a signer the
    key manager knows, it returns a package, whatever the text.  The
    structural layer is applied only to texts it accepts (800 characters
    or more), and is passed over without an error otherwise. *)
Theorem encodeEnhancedContent_succeeds_without_stylometric
        (originalContent : jsstring) (metadata : value) (metadataStr : jsstring)
        (keyManager : KeyManager) (signer : jsstring)
        (options : EnhancedEncodingOptions) (draws : nat -> Q) :
  useStylometric options = false ->
  stringify metadata = Some metadataStr ->
  redundantEncoding options = true \/ metadata <> Null ->
  (forall content, present (signWithKey keyManager signer content) = true) ->
  exists package,
    encodeEnhancedContent originalContent metadata keyManager signer options draws
    = Some package.
Proof.
  intros Hsty Hs Hmode Hkey.
  destruct (total_applyLayers originalContent metadata metadataStr options
              Hsty Hs Hmode draws O) as ([processedContent enabledLayers] & n' & E).
  unfold encodeEnhancedContent, runM. rewrite E. cbv zeta.
  rewrite (Hkey processedContent). cbn [negb]. eexists. reflexivity.
Qed.

(** The zero-width and the structural layer over the structural module's
    sample text. *)
Lemma encodeEnhancedContent_succeeds_without_stylometric_witness :
  exists package,
    encodeEnhancedContent sampleText scenarioC_metadata scenarioC_keys (lit "alice")
      {| useZeroWidth := true; useStylometric := false; useStructural := true;
         structuralStrength := StructuralEncoder.moderate;
         redundantEncoding := false |}
      sampleDraws
    = Some package.
Proof.
  apply (encodeEnhancedContent_succeeds_without_stylometric
           _ _ scenarioC_payload).
  - reflexivity.
  - vm_compute. reflexivity.
  - right. discriminate.
  - intros content. reflexivity.
Defined.

(** X25.  The orchestrator's decoder raises [integrity] only for content whose
    signature verified and from which at least one layer was read: the
    result then carries the name the key manager verified and names one of
    the three layers as its source, never 'none'. *)
Theorem integrity_requires_signer_and_layer
        (JSON_parse : jsstring -> option value)
        (encodedContent sig : jsstring) (keyManager : KeyManager)
        (result : EnhancedDecodedResult) :
  decodeEnhancedContent JSON_parse encodedContent sig keyManager = Some result ->
  integrity result = true ->
  present (signerName result) = true /\
  signerName result = verifySignature keyManager encodedContent sig /\
  In (extractionSource result) ["structural"; "stylometric"; "zero-width"]%string.
Proof.
  unfold decodeEnhancedContent.
  destruct (present (verifySignature keyManager encodedContent sig)) eqn:Ep;
    cbn [negb]; [|intros [= <-]; discriminate].
  unfold judge.
  destruct (attempt JSON_parse "structural" _ ++ attempt JSON_parse "stylometric" _
              ++ attempt JSON_parse "zero-width" _) as [|primary others] eqn:E;
    [intros [= <-]; discriminate|].
  destruct (compareAll _ _ _ _) as [ok|]; [|discriminate].
  intros [= <-] _. cbn [signerName extractionSource].
  split; [exact Ep|]. split; [reflexivity|].
  assert (Hsrc : In (source primary) ["structural"; "stylometric"; "zero-width"]%string).
  { assert (Hin : In primary
              (attempt JSON_parse "structural"
                 (extractHiddenStructuralData encodedContent)
               ++ attempt JSON_parse "stylometric"
                    (extractHiddenStylometricData encodedContent)
               ++ attempt JSON_parse "zero-width" (extractHiddenData encodedContent)))
      by (rewrite E; now left).
    assert (Hat : forall name x, In primary (attempt JSON_parse name x) ->
                                 source primary = name).
    { intros name x. unfold attempt. destruct (present x); [|intros []].
      destruct (JSON_parse _); [|intros []]. intros [<-|[]]. reflexivity. }
    apply in_app_or in Hin. destruct Hin as [Hin|Hin];
      [rewrite (Hat _ _ Hin); now left|].
    apply in_app_or in Hin. destruct Hin as [Hin|Hin];
      rewrite (Hat _ _ Hin); [right; now left|right; right; now left]. }
  exact Hsrc.
Qed.

(** The frame of scenario C's metadata in the text of scenario A. *)
Lemma integrity_requires_signer_and_layer_witness :
  present (Some (lit "alice")) = true /\
  Some (lit "alice")
  = verifySignature scenarioC_keys (hideDataInText scenarioA_text scenarioC_payload)
      (lit "c2lnbmF0dXJl") /\
  In "zero-width"%string ["structural"; "stylometric"; "zero-width"]%string.
Proof.
  apply (integrity_requires_signer_and_layer
           (fun _ => Some scenarioC_metadata)
           (hideDataInText scenarioA_text scenarioC_payload) (lit "c2lnbmF0dXJl")
           scenarioC_keys
           {| metadata := scenarioC_metadata; signerName := Some (lit "alice");
              extractionSource := "zero-width"; integrity := true |}).
  - vm_compute. reflexivity.
  - reflexivity.
Defined.
